(** * APIGateway: comment tree builder, gateway orchestration, moderation

    A shallow embedding of the Go sources of the repository
    (comments-service, api-gateway and the censorship service) together
    with the properties of the specification that concern them.

    Conventions of the embedding.
    - Go [int] values (identifiers, HTTP status codes) are [Z]; no
      arithmetic is performed on them by the modelled code.
    - A Go slice that is indexed and updated in place is a [list] with
      stdpp's lookup [!!] and [alter]; a pointer [&comments[i]] into such a
      slice is the index [i].
    - A Go [map[int]*Comment] is a [gmap Z nat] from identifier to index.
    - Strings that are only compared, concatenated or forwarded are
      [string]; free text that goes through the Unicode functions of
      package [strings] is a list of code points ([rune]).
    - Backends reached over HTTP are oracles: a function from the call
      to what [http.Get] / [client.Do] delivered. *)

From Stdlib Require Import ZArith List String Ascii Bool Lia Sorting.Sorted.
From Stdlib Require Import DecimalString DecimalPos.
From stdpp Require Import base option list gmap.
Import ListNotations.

Local Open Scope Z_scope.

(** ** Functions of the Go standard library used by the services *)

(** A code point ([rune]). Text decoded from JSON is valid UTF-8 (the
    decoder replaces invalid bytes by U+FFFD), so a text is the list of its
    code points, and a byte-level substring test between two texts is a
    substring test between these lists. *)
Abbreviation rune := Z (only parsing).

Module Strconv.

Definition digitVal (a : ascii) : option Z :=
  let n := Z.of_N (N_of_ascii a) in
  if (48 <=? n) && (n <=? 57) then Some (n - 48) else None.

Fixpoint parseDigits (s : string) (acc : Z) : option Z :=
  match s with
  | EmptyString => Some acc
  | String a r =>
      match digitVal a with
      | Some d => parseDigits r (10 * acc + d)
      | None => None
      end
  end.

Definition minInt : Z := - 2 ^ 63.
Definition maxInt : Z := 2 ^ 63 - 1.

(** [strconv.Atoi]: an optional sign, then one or more decimal digits,
    the value within the range of a 64-bit [int]; [None] is a non-nil
    error. *)
Definition Atoi (s : string) : option Z :=
  let '(neg, body) :=
    match s with
    | String "+"%char r => (false, r)
    | String "-"%char r => (true, r)
    | _ => (false, s)
    end in
  match body with
  | EmptyString => None
  | _ =>
      match parseDigits body 0 with
      | Some n =>
          let v := if neg then - n else n in
          if (minInt <=? v) && (v <=? maxInt) then Some v else None
      | None => None
      end
  end.

(** [%d] of [fmt.Sprintf] on an [int]. *)
Definition Itoa (z : Z) : string := NilZero.string_of_int (Z.to_int z).

End Strconv.

Module Strings.

(** [strings.TrimPrefix] *)
Definition TrimPrefix (s pre : string) : string :=
  if String.prefix pre s
  then String.substring (String.length pre) (String.length s - String.length pre) s
  else s.

(** [unicode.IsSpace] *)
Definition IsSpace (r : rune) : bool :=
  (Z.eqb r 9) || (Z.eqb r 10) || (Z.eqb r 11) || (Z.eqb r 12) || (Z.eqb r 13)
  || (Z.eqb r 32) || (Z.eqb r 133) || (Z.eqb r 160)
  || (Z.eqb r 5760) || ((8192 <=? r) && (r <=? 8202))
  || (Z.eqb r 8232) || (Z.eqb r 8233) || (Z.eqb r 8239)
  || (Z.eqb r 8287) || (Z.eqb r 12288).

Fixpoint trimLeft (s : list rune) : list rune :=
  match s with
  | r :: rest => if IsSpace r then trimLeft rest else s
  | [] => []
  end.

(** [strings.TrimSpace] *)
Definition TrimSpace (s : list rune) : list rune :=
  rev (trimLeft (rev (trimLeft s))).

Fixpoint HasPrefix (s sub : list rune) {struct sub} : bool :=
  match sub, s with
  | [], _ => true
  | x :: sub', y :: s' => (Z.eqb x y) && HasPrefix s' sub'
  | _ :: _, [] => false
  end.

(** [strings.Contains]: [sub] occurs at some offset of [s]. *)
Fixpoint Contains (s sub : list rune) : bool :=
  HasPrefix s sub ||
  match s with
  | [] => false
  | _ :: s' => Contains s' sub
  end.

(** [sub] occurs in [s] as a substring. *)
Definition occursIn (sub s : list rune) : Prop :=
  exists pre post, s = pre ++ sub ++ post.

Definition isASCII (s : list rune) : bool := forallb (fun r => r <? 128) s.

Definition asciiLower (r : rune) : rune :=
  if (65 <=? r) && (r <=? 90) then r + 32 else r.

(** [strings.Map]: a rune mapped to a negative value is dropped. *)
Definition Map (mapping : rune -> rune) (s : list rune) : list rune :=
  filter (fun r => 0 <= r) (map mapping s).

(** [strings.ToLower]: ASCII text is lowered byte by byte, any other
    text through [unicode.ToLower], whose tables are a parameter. *)
Definition ToLower (unicode_ToLower : rune -> rune) (s : list rune)
  : list rune :=
  if isASCII s then map asciiLower s else Map unicode_ToLower s.

End Strings.

(** [net/url]: what a service reads from the query of the URL of a
    request, [r.URL.Query()], and which bytes [url.QueryEscape] leaves as
    they are. *)
Module Url.

Definition between (lo hi : nat) (c : ascii) : bool :=
  ((lo <=? nat_of_ascii c) && (nat_of_ascii c <=? hi))%nat.

(** [ishex] and [unhex] *)
Definition ishex (c : ascii) : bool :=
  between 48 57 c || between 97 102 c || between 65 70 c.

Definition unhex (c : ascii) : nat :=
  if between 48 57 c then (nat_of_ascii c - 48)%nat
  else if between 97 102 c then (nat_of_ascii c - 97 + 10)%nat
  else if between 65 70 c then (nat_of_ascii c - 65 + 10)%nat
  else 0%nat.

(** [shouldEscape(c, encodeQueryComponent)]: every byte but the letters,
    the digits and [-], [_], [.], [~]. *)
Definition shouldEscape (c : ascii) : bool :=
  negb (between 97 122 c || between 65 90 c || between 48 57 c
        || Ascii.eqb c "-" || Ascii.eqb c "_" || Ascii.eqb c "."
        || Ascii.eqb c "~").

(** A text that [QueryEscape] returns as it is. *)
Fixpoint plain (s : string) : bool :=
  match s with
  | EmptyString => true
  | String c rest => negb (shouldEscape c) && plain rest
  end.

(** [QueryUnescape]: [%XX] is the byte of the two hexadecimal digits,
    [+] a space; [None] is the error for a [%] that two hexadecimal
    digits do not follow. *)
Fixpoint QueryUnescape (s : string) : option string :=
  match s with
  | EmptyString => Some EmptyString
  | String c rest =>
      if Ascii.eqb c "%" then
        match rest with
        | String h (String l rest') =>
            if ishex h && ishex l
            then option_map (String (ascii_of_nat (16 * unhex h + unhex l)))
                   (QueryUnescape rest')
            else None
        | _ => None
        end
      else if Ascii.eqb c "+" then option_map (String " ") (QueryUnescape rest)
      else option_map (String c) (QueryUnescape rest)
  end.

(** [strings.Cut(s, sep)] for a separator of one byte: the text before
    its first occurrence and the text after it; the whole of [s] and the
    empty text when it does not occur. *)
Fixpoint Cut (s : string) (sep : ascii) : string * string :=
  match s with
  | EmptyString => (EmptyString, EmptyString)
  | String c rest =>
      if Ascii.eqb c sep then (EmptyString, rest)
      else let (before, after) := Cut rest sep in (String c before, after)
  end.

(** [strings.Split(s, sep)] for a separator of one byte. *)
Fixpoint Split (s : string) (sep : ascii) : list string :=
  match s with
  | EmptyString => [EmptyString]
  | String c rest =>
      if Ascii.eqb c sep then EmptyString :: Split rest sep
      else
        match Split rest sep with
        | first :: others => String c first :: others
        | [] => [String c EmptyString]
        end
  end.

(** [strings.Contains(s, sep)] for one byte. *)
Fixpoint containsByte (s : string) (sep : ascii) : bool :=
  match s with
  | EmptyString => false
  | String c rest => Ascii.eqb c sep || containsByte rest sep
  end.

(** One round of the loop of [parseQuery] (Go 1.17 and later): the
    setting between two ampersands is skipped when it has a semicolon,
    when it is empty, and when its key or its value does not unescape. *)
Definition setting (s : string) : list (string * string) :=
  if containsByte s ";" then []
  else if String.eqb s "" then []
  else
    let (key, value) := Cut s "=" in
    match QueryUnescape key, QueryUnescape value with
    | Some key, Some value => [(key, value)]
    | _, _ => []
    end.

(** [ParseQuery], its error dropped as [URL.Query] does: the settings in
    the order of the text. *)
Definition ParseQuery (query : string) : list (string * string) :=
  flat_map setting (Split query "&").

End Url.

(** ** comments-service/main.go *)

Module CommentsService.

(** [type Comment struct]; [CreatedAt] is the timestamp as an integer
    (nanoseconds), [ParentID *int] is an option. *)
#[local] Unset Elimination Schemes.
Inductive Comment : Type := mkComment {
  ID : Z;
  NewsID : Z;
  ParentID : option Z;
  Text : list rune;
  CreatedAt : Z;
  Children : list Comment
}.
#[local] Set Elimination Schemes.

(** [type CommentRequest struct] *)
Record CommentRequest : Type := mkCommentRequest {
  req_NewsID : Z;
  req_ParentID : option Z;
  req_Text : list rune
}.

(** [c.Children = ch] on a struct value. *)
Definition setChildren (c : Comment) (ch : list Comment) : Comment :=
  mkComment (ID c) (NewsID c) (ParentID c) (Text c) (CreatedAt c) ch.

(** The flat record carried by a node: the node with no children, as
    [getCommentsByNewsID] scans it from a row. *)
Definition record (c : Comment) : Comment := setChildren c [].

(** First loop of [buildCommentTree], body at index [i]:
    [comments[i].Children = make([]Comment, 0)] and
    [commentMap[comments[i].ID] = &comments[i]]. *)
Definition initStep (st : list Comment * gmap Z nat) (i : nat)
  : list Comment * gmap Z nat :=
  let comments := alter (fun c => setChildren c []) i st.1 in
  match comments !! i with
  | Some c => (comments, <[ID c := i]> st.2)
  | None => (comments, st.2)
  end.

(** Second loop, body at index [i]: when [comments[i]] has a parent
    identifier found in the map, the current value of [comments[i]] is
    appended (copied) to the children of the slot the map points to. *)
Definition linkStep (commentMap : gmap Z nat) (comments : list Comment)
  (i : nat) : list Comment :=
  match comments !! i with
  | Some c =>
      match ParentID c with
      | Some parentID =>
          match commentMap !! parentID with
          | Some p => alter (fun parent => setChildren parent (Children parent ++ [c])) p comments
          | None => comments
          end
      | None => comments
      end
  | None => comments
  end.

(** Third loop: the slots without parent identifier, in slice order. *)
Definition isRoot (c : Comment) : bool :=
  match ParentID c with None => true | Some _ => false end.

Definition collectRoots (comments : list Comment) : list Comment :=
  filter (fun c => isRoot c = true) comments.

(** [for i := range comments] *)
Definition indices (comments : list Comment) : list nat :=
  seq 0 (length comments).

(** [buildCommentTree], returning the slice as the call leaves it (the
    caller's backing array is written through) and the roots. *)
Definition buildCommentTree_run (comments : list Comment)
  : list Comment * list Comment :=
  match comments with
  | [] => ([], [])
  | _ =>
      let st := foldl initStep (comments, ∅) (indices comments) in
      let linked := foldl (linkStep st.2) st.1 (indices comments) in
      (linked, collectRoots linked)
  end.

Definition buildCommentTree (comments : list Comment) : list Comment :=
  (buildCommentTree_run comments).2.

(** The map after the first loop and the slice after the second one. *)
Definition commentMapOf (comments : list Comment) : gmap Z nat :=
  (foldl initStep (comments, ∅) (indices comments)).2.

Definition linkedOf (comments : list Comment) : list Comment :=
  foldl (linkStep (commentMapOf comments)) (record <$> comments)
    (indices comments).

(** The input is ordered oldest first ([ORDER BY created_at ASC]). *)
Definition chronological (comments : list Comment) : Prop :=
  Sorted Z.le (CreatedAt <$> comments).

(** All nodes of a tree, the node itself first, then the nodes of its
    children from left to right. *)
Fixpoint nodes (c : Comment) : list Comment :=
  c :: (fix nodes_list (l : list Comment) : list Comment :=
          match l with
          | [] => []
          | x :: r => nodes x ++ nodes_list r
          end) (Children c).

Definition forest_nodes (f : list Comment) : list Comment :=
  flat_map nodes f.

(** Identifiers present in the input. *)
Definition present (comments : list Comment) (id : Z) : Prop :=
  In id (ID <$> comments).

(** Every record comes after the records that have the identifier of
    its parent, as in a list ordered by creation time. *)
Definition parentsFirst (comments : list Comment) : Prop :=
  forall (i j : nat) c parent,
    comments !! i = Some c -> comments !! j = Some parent ->
    ParentID c = Some (ID parent) -> (j < i)%nat.

(** The slot the second loop appends a record to, if any: the slot the
    map gives for its parent identifier. *)
Definition targetOf (commentMap : gmap Z nat) (c : Comment) : option nat :=
  match ParentID c with
  | Some parentID => commentMap !! parentID
  | None => None
  end.

(** The records that name [id] as their parent, in input order. *)
Definition repliesTo (id : Z) (comments : list Comment) : list Comment :=
  filter (fun c => ParentID c = Some id) comments.

(** The slot the record at index [j] is appended to by the second loop. *)
Definition targetAt (comments : list Comment) (j : nat) : option nat :=
  match comments !! j with
  | Some c => targetOf (commentMapOf comments) c
  | None => None
  end.

(** [climbs comments i j]: from index [i], going from a record to the slot
    it is appended to as long as that slot has a larger index, one comes
    to [j]. These are the records already copied inside slot [j] when the
    second loop reaches it. *)
Inductive climbs (comments : list Comment) : nat -> nat -> Prop :=
| climbs_here (i : nat) : climbs comments i i
| climbs_up (i i' j : nat) :
    targetAt comments i = Some i' -> (i < i')%nat ->
    climbs comments i' j -> climbs comments i j.

(** The identifiers of the nodes below a node. *)
Definition descendantIDs (c : Comment) : list Z :=
  ID <$> forest_nodes (Children c).

(** Every node stored in the slice, at any depth, has property [Q k]. *)
Definition stored (Q : nat -> Comment -> Prop) (k : nat)
  (cur : list Comment) : Prop :=
  forall slot n, In slot cur -> In n (nodes slot) -> Q k n.

(** The database behind the package-level handle [db]: each query of
    [createCommentHandler] either fails ([None]) or delivers a value. *)
Record Database : Type := mkDatabase {
  parentExists : Z -> option bool;
  insertComment : CommentRequest -> option Z;
  getCommentByID : Z -> option Comment
}.

Inductive Reply : Type :=
| ErrorReply (msg : string)
| CommentReply (c : Comment).

(** [createCommentHandler]: the status and the body written. The
    argument is the outcome of decoding the request body. *)
Definition createCommentHandler (db : Database)
  (body : option CommentRequest) : Z * Reply :=
  match body with
  | None => (400, ErrorReply "Invalid JSON")
  | Some commentReq =>
      if req_NewsID commentReq <=? 0
      then (400, ErrorReply "News ID is required and must be positive")
      else
        match Strings.TrimSpace (req_Text commentReq) with
        | [] => (400, ErrorReply "Comment text is required")
        | _ :: _ =>
            let parentOK :=
              match req_ParentID commentReq with
              | Some parentID =>
                  match parentExists db parentID with
                  | Some true => true
                  | _ => false
                  end
              | None => true
              end in
            if negb parentOK
            then (400, ErrorReply "Parent comment not found")
            else
              match insertComment db commentReq with
              | None => (500, ErrorReply "Failed to create comment")
              | Some commentID =>
                  match getCommentByID db commentID with
                  | None => (500, ErrorReply "Comment created but failed to retrieve")
                  | Some comment => (201, CommentReply comment)
                  end
              end
        end
  end.

Inductive ForestReply : Type :=
| ForestError (msg : string)
| ForestJSON (forest : list Comment).

(** [getCommentsByNewsHandler]: the status and the body written.
    [getCommentsByNewsID] is the query on the database: the rows of the
    item ordered by creation time, or [None] for an error. *)
Definition getCommentsByNewsHandler
  (getCommentsByNewsID : Z -> option (list Comment))
  (method path : string) : Z * ForestReply :=
  if negb (String.eqb method "GET")
  then (405, ForestError "Method not allowed")
  else if (String.length path <=? String.length "/comments/")%nat
  then (400, ForestError "News ID required")
  else
    match Strconv.Atoi (Strings.TrimPrefix path "/comments/") with
    | None => (400, ForestError "Invalid news ID")
    | Some newsID =>
        match getCommentsByNewsID newsID with
        | None => (500, ForestError "Failed to get comments")
        | Some comments => (200, ForestJSON (buildCommentTree comments))
        end
    end.

End CommentsService.

(** The second [buildCommentTree] of comments-service/main.go (the
    variant of the service that stores moderation flags, which the builder
    does not read): one loop fills the map and resets the children, one
    loop both collects the roots and links the children. *)
Module CommentsServiceModerated.
Import CommentsService.

Definition initStep (st : list Comment * gmap Z nat) (i : nat)
  : list Comment * gmap Z nat :=
  match st.1 !! i with
  | Some c => (alter (fun c => setChildren c []) i st.1, <[ID c := i]> st.2)
  | None => st
  end.

(** State of the second loop: the slice and [roots]. *)
Definition treeStep (commentMap : gmap Z nat)
  (st : list Comment * list Comment) (i : nat)
  : list Comment * list Comment :=
  match st.1 !! i with
  | Some c =>
      match ParentID c with
      | None => (st.1, st.2 ++ [c])
      | Some parentID =>
          match commentMap !! parentID with
          | Some p =>
              (alter (fun parent => setChildren parent (Children parent ++ [c])) p st.1,
               st.2)
          | None => st
          end
      end
  | None => st
  end.

Definition buildCommentTree_run (comments : list Comment)
  : list Comment * list Comment :=
  let st := foldl initStep (comments, ∅) (indices comments) in
  foldl (treeStep st.2) (st.1, []) (indices comments).

Definition buildCommentTree (comments : list Comment) : list Comment :=
  (buildCommentTree_run comments).2.

End CommentsServiceModerated.

(** ** api-gateway/main.go *)

Module Gateway.

#[local] Unset Elimination Schemes.
Inductive Comment : Type := mkComment {
  ID : Z;
  NewsID : Z;
  ParentID : option Z;
  Text : list rune;
  CreatedAt : Z;
  IsModerated : bool;
  IsApproved : bool;
  Children : list Comment
}.
#[local] Set Elimination Schemes.

Record CommentRequest : Type := mkCommentRequest {
  req_NewsID : Z;
  req_ParentID : option Z;
  req_Text : list rune
}.

Record NewsShortDetailed : Type := mkNewsShortDetailed {
  short_ID : Z;
  short_Title : list rune;
  short_Description : list rune;
  short_PubDate : Z;
  short_Link : list rune
}.

Record NewsFullDetailed : Type := mkNewsFullDetailed {
  news_ID : Z;
  news_Title : list rune;
  news_Content : list rune;
  news_Description : list rune;
  news_PubDate : Z;
  news_Link : list rune;
  news_Comments : list Comment
}.

Record Pagination : Type := mkPagination {
  Page : Z; TotalPages : Z; PerPage : Z; Total : Z
}.

Record NewsListResponse : Type := mkNewsListResponse {
  News : list NewsShortDetailed;
  Pagination_ : Pagination
}.

(** [news.Comments = comments] *)
Definition setComments (n : NewsFullDetailed) (cs : list Comment)
  : NewsFullDetailed :=
  mkNewsFullDetailed (news_ID n) (news_Title n) (news_Content n)
    (news_Description n) (news_PubDate n) (news_Link n) cs.

(** The zero value of [var news NewsFullDetailed]. *)
Definition zeroNews : NewsFullDetailed :=
  mkNewsFullDetailed 0 [] [] [] 0 [] [].

(** *** Requests, responses and backends *)

(** [url.Values] as the list of its key/value pairs. *)
Abbreviation Values := (list (string * string)) (only parsing).

(** [Values.Get]: the first value of the key, or the empty string. *)
Fixpoint Get (q : Values) (key : string) : string :=
  match q with
  | [] => ""
  | (k, v) :: rest => if String.eqb k key then v else Get rest key
  end.

(** [Values.Add] *)
Definition Add (q : Values) (key value : string) : Values :=
  q ++ [(key, value)].

(** The inbound request: method, [r.URL.Path], [r.URL.Query()] and what
    decoding the body as a [CommentRequest] gives ([None]: an error). *)
Record Request : Type := mkRequest {
  Method : string;
  Path : string;
  Query : Values;
  Body : option CommentRequest
}.

Inductive ResponseBody : Type :=
| ErrorText (msg : string)
| NewsListJSON (l : NewsListResponse)
| NewsDetailJSON (n : NewsFullDetailed)
| CommentsJSON (cs : list Comment)
| CommentJSON (c : Comment)
| RedirectTo (location : string).

Record Response : Type := mkResponse {
  StatusCode : Z;
  Payload : ResponseBody
}.

(** [http.Error(w, msg, code)] *)
Definition httpError (msg : string) (code : Z) : Response :=
  mkResponse code (ErrorText msg).

(** [json.NewEncoder(w).Encode(v)] with no status written before. *)
Definition encodeOK (v : ResponseBody) : Response := mkResponse 200 v.

(** What a backend call delivers: a transport error, or a response with
    its status and the outcome of decoding its body ([None]: the decoder
    fails). *)
Inductive HttpResult (A : Type) : Type :=
| TransportError (err : string)
| HttpResponse (status : Z) (decoded : option A).
Arguments TransportError {A} err.
Arguments HttpResponse {A} status decoded.

(** The calls the gateway sends, each with the arguments of its URL:
    - [GetNewsLatest params], [GetNewsFilter params]:
      [http.Get("http://news-service:8082/news/latest?" + params.Encode())]
      and the same on [/news/filter?];
    - [GetNewsByID newsID requestID]: [http.Get] on
      [Sprintf("http://news-service:8082/news/%d?request_id=%s", ...)];
    - [GetComments newsID requestID]: [http.Get] on
      [Sprintf("http://comments-service:8081/comments/%d?request_id=%s", ...)];
    - [PostComment requestID body]: [client.Do] of a POST on
      [Sprintf("http://comments-service:8081/comments?request_id=%s", ...)].
    The identifier of the last three is the text that [%s] puts in the
    URL, as it is. *)
Inductive OutboundCall : Type :=
| GetNewsLatest (params : Values)
| GetNewsFilter (params : Values)
| GetNewsByID (newsID : Z) (requestID : string)
| GetComments (newsID : Z) (requestID : string)
| PostComment (requestID : string) (body : CommentRequest).

(** The query of a URL made by [Sprintf("...?request_id=%s", ...)] as
    [url.Parse] takes it: the text after the [?], up to the first [#] of
    the identifier, where the fragment starts. Nothing is escaped. *)
Definition sprintfQuery (requestID : string) : string :=
  ("request_id=" ++ (Url.Cut requestID "#").1)%string.

(** The correlation identifier a call carries: what the middleware of
    the service that receives it reads, [r.URL.Query().Get("request_id")].
    The parameters of a list call are written by [params.Encode()], which
    escapes them, and are read back as they are; the identifier of the
    other calls is read from the query in which [%s] put it unescaped. *)
Definition call_request_id (c : OutboundCall) : string :=
  match c with
  | GetNewsLatest params | GetNewsFilter params => Get params "request_id"
  | GetNewsByID _ requestID | GetComments _ requestID
  | PostComment requestID _ =>
      Get (Url.ParseQuery (sprintfQuery requestID)) "request_id"
  end.

Record Backends : Type := mkBackends {
  newsLatest : Values -> HttpResult NewsListResponse;
  newsFilter : Values -> HttpResult NewsListResponse;
  newsByID : Z -> string -> HttpResult NewsFullDetailed;
  commentsByNews : Z -> string -> HttpResult (list Comment);
  postComment : string -> CommentRequest -> HttpResult Comment;
  (** [http.NewRequest] fails on the URL built with this identifier *)
  newRequestFails : string -> bool
}.

(** A handler gives the response and the backend calls it made. *)
Abbreviation Outcome := (Response * list OutboundCall)%type (only parsing).

(** *** Correlation identifier *)

(** The source of [math/rand]: the stream of raw draws to come. *)
Abbreviation Rand := (nat -> nat) (only parsing).

(** [rand.Intn(n)] *)
Definition Intn (rnd : Rand) (n : nat) : nat * Rand :=
  (Nat.modulo (rnd 0%nat) n, fun k => rnd (S k)).

Definition chars : string :=
  "abcdefghijklmnopqrstuvwxyzABCDEFGHIJKLMNOPQRSTUVWXYZ0123456789".

Definition charAt (s : string) (i : nat) : ascii :=
  match String.get i s with Some a => a | None => zero end.

(** [generateRequestID]: [len] bytes drawn from [chars]. *)
Fixpoint generateBytes (len : nat) (rnd : Rand) : string * Rand :=
  match len with
  | O => (EmptyString, rnd)
  | S len' =>
      let (j, rnd1) := Intn rnd (String.length chars) in
      let (rest, rnd2) := generateBytes len' rnd1 in
      (String (charAt chars j) rest, rnd2)
  end.

Definition generateRequestID (rnd : Rand) : string * Rand :=
  generateBytes 8 rnd.

(** [requestIDMiddleware]: the identifier put in the request context is
    passed to the next handler as an argument. *)
Definition requestIDMiddleware (next : string -> Request -> Outcome)
  (rnd : Rand) (r : Request) : Outcome * Rand :=
  let requestID := Get (Query r) "request_id" in
  let (requestID, rnd) :=
    if String.eqb requestID "" then generateRequestID rnd
    else (requestID, rnd) in
  (next requestID r, rnd).

(** *** Handlers *)

Definition isGet (r : Request) : bool := String.eqb (Method r) "GET".

(** The common tail of the list handlers: relay the status of a
    response that is not 200, decode and re-encode one that is. *)
Definition relayNewsList (res : HttpResult NewsListResponse) : Response :=
  match res with
  | TransportError _ => httpError "Не удалось получить новости" 500
  | HttpResponse status decoded =>
      if negb (status =? 200) then httpError "Ошибка сервиса новостей" status
      else
        match decoded with
        | None => httpError "Не удалось декодировать список новостей" 500
        | Some newsList => encodeOK (NewsListJSON newsList)
        end
  end.

(** [if v := queryParams.Get(key); v != "" { params.Add(key, v) }] *)
Definition forward (query : Values) (key : string) (params : Values)
  : Values :=
  let v := Get query key in
  if String.eqb v "" then params else Add params key v.

Definition latestNewsHandler (env : Backends) (requestID : string)
  (r : Request) : Outcome :=
  if negb (isGet r) then (httpError "Method not allowed" 405, [])
  else
    let params := forward (Query r) "page" [] in
    let params := forward (Query r) "s" params in
    let params := Add params "request_id" requestID in
    (relayNewsList (newsLatest env params), [GetNewsLatest params]).

Definition filterNewsHandler (env : Backends) (requestID : string)
  (r : Request) : Outcome :=
  if negb (isGet r) then (httpError "Method not allowed" 405, [])
  else
    let params := forward (Query r) "page" [] in
    let params := forward (Query r) "q" params in
    let params := forward (Query r) "s" params in
    let params := forward (Query r) "date_from" params in
    let params := forward (Query r) "date_to" params in
    let params := forward (Query r) "sort_by" params in
    let params := Add params "request_id" requestID in
    (relayNewsList (newsFilter env params), [GetNewsFilter params]).

Definition getCommentsHandler (env : Backends) (requestID : string)
  (r : Request) : Outcome :=
  if negb (isGet r) then (httpError "Method not allowed" 405, [])
  else if (String.length (Path r) <=? String.length "/comments/")%nat
  then (httpError "News ID required" 400, [])
  else
    match Strconv.Atoi (Strings.TrimPrefix (Path r) "/comments/") with
    | None => (httpError "Invalid news ID" 400, [])
    | Some newsID =>
        let call := GetComments newsID requestID in
        match commentsByNews env newsID requestID with
        | TransportError _ =>
            (httpError "Не удалось получить комментарии" 500, [call])
        | HttpResponse status decoded =>
            if status =? 200 then
              match decoded with
              | None =>
                  (httpError "Не удалось декодировать комментарии" 500, [call])
              | Some comments => (encodeOK (CommentsJSON comments), [call])
              end
            else (httpError "Ошибка сервиса комментариев" status, [call])
        end
    end.

(** [type RequestResult struct]: [Data interface{}] holds nothing, a
    news item or a comment slice. *)
Inductive ResultData : Type :=
| NoData
| NewsData (news : NewsFullDetailed)
| CommentsData (comments : list Comment).

Record RequestResult : Type := mkRequestResult {
  Data : ResultData;
  Err : option string
}.

(** First goroutine of [newsDetailHandler]: what it sends on the
    channel. The message of a decoding error ends, in the source, with
    the text of the decoder's error, which is left out here. *)
Definition fetchNews (env : Backends) (newsID : Z) (requestID : string)
  : RequestResult :=
  match newsByID env newsID requestID with
  | TransportError err =>
      mkRequestResult NoData (Some ("ошибка при получении новости: " ++ err)%string)
  | HttpResponse status decoded =>
      if negb (status =? 200) then
        if status =? 404
        then mkRequestResult NoData (Some "новость не найдена"%string)
        else mkRequestResult NoData
               (Some ("ошибка сервиса новостей: " ++ Strconv.Itoa status)%string)
      else
        match decoded with
        | None => mkRequestResult NoData (Some "ошибка декодирования новости"%string)
        | Some news => mkRequestResult (NewsData news) None
        end
  end.

(** Second goroutine: every failure is sent as an empty slice. *)
Definition fetchComments (env : Backends) (newsID : Z) (requestID : string)
  : RequestResult :=
  match commentsByNews env newsID requestID with
  | TransportError _ => mkRequestResult (CommentsData []) None
  | HttpResponse status decoded =>
      if status =? 200 then
        match decoded with
        | None => mkRequestResult (CommentsData []) None
        | Some comments => mkRequestResult (CommentsData comments) None
        end
      else mkRequestResult (CommentsData []) None
  end.

(** [for result := range resultChan]: the results in the order
    received; [inl] is the error written with status 500 at the
    [break]. *)
Fixpoint receive (results : list RequestResult) (news : NewsFullDetailed)
  (comments : list Comment) : string + NewsFullDetailed * list Comment :=
  match results with
  | [] => inr (news, comments)
  | result :: rest =>
      match Err result with
      | Some e => inl e
      | None =>
          match Data result with
          | NewsData data => receive rest data comments
          | CommentsData data => receive rest news data
          | NoData => receive rest news comments
          end
      end
  end.

(** [newsDetailHandler]. Both goroutines are started before any result
    is read; [newsFirst] tells which of them sends its result first. *)
Definition newsDetailHandler (env : Backends) (newsFirst : bool)
  (requestID : string) (r : Request) : Outcome :=
  if negb (isGet r) then (httpError "Method not allowed" 405, [])
  else if (String.length (Path r) <=? String.length "/news/")%nat
  then (httpError "Требуется ID новости" 400, [])
  else
    match Strconv.Atoi (Strings.TrimPrefix (Path r) "/news/") with
    | None => (httpError "Неверный ID новости" 400, [])
    | Some newsID =>
        let newsResult := fetchNews env newsID requestID in
        let commentsResult := fetchComments env newsID requestID in
        let newsCall := GetNewsByID newsID requestID in
        let commentsCall := GetComments newsID requestID in
        let (results, calls) :=
          if newsFirst
          then ([newsResult; commentsResult], [newsCall; commentsCall])
          else ([commentsResult; newsResult], [commentsCall; newsCall]) in
        match receive results zeroNews [] with
        | inl e => (httpError e 500, calls)
        | inr (news, comments) =>
            (encodeOK (NewsDetailJSON (setComments news comments)), calls)
        end
    end.

Definition isEmpty {A} (l : list A) : bool :=
  match l with [] => true | _ :: _ => false end.

(** [addCommentHandler]. [json.Marshal] of a [CommentRequest] cannot
    fail, so its error branch is not represented. *)
Definition addCommentHandler (env : Backends) (requestID : string)
  (r : Request) : Outcome :=
  match Body r with
  | None => (httpError "Неверный JSON" 400, [])
  | Some commentReq =>
      if req_NewsID commentReq <=? 0
      then (httpError "Требуется ID новости" 400, [])
      else if isEmpty (req_Text commentReq)
      then (httpError "Требуется текст комментария" 400, [])
      else if newRequestFails env requestID
      then (httpError "Не удалось создать запрос" 500, [])
      else
        let call := PostComment requestID commentReq in
        match postComment env requestID commentReq with
        | TransportError _ =>
            (httpError "Не удалось добавить комментарий" 500, [call])
        | HttpResponse status decoded =>
            if negb (status =? 201)
            then (httpError "Ошибка сервиса комментариев" status, [call])
            else
              match decoded with
              | None =>
                  (httpError "Не удалось декодировать комментарий" 500, [call])
              | Some newComment =>
                  (mkResponse 201 (CommentJSON newComment), [call])
              end
        end
  end.

Definition commentsHandler (env : Backends) (requestID : string)
  (r : Request) : Outcome :=
  if String.eqb (Method r) "POST" then addCommentHandler env requestID r
  else (httpError "Method not allowed" 405, []).

(** The routes registered in [main], for a path in canonical form:
    exact patterns first, then the subtrees [/news/] and [/comments/];
    [/news] alone is redirected to its subtree by [http.ServeMux]. *)
Definition mux (env : Backends) (newsFirst : bool) (requestID : string)
  (r : Request) : Outcome :=
  if String.eqb (Path r) "/news/latest" then latestNewsHandler env requestID r
  else if String.eqb (Path r) "/news/filter" then filterNewsHandler env requestID r
  else if String.eqb (Path r) "/comments" then commentsHandler env requestID r
  else if String.prefix "/news/" (Path r) then newsDetailHandler env newsFirst requestID r
  else if String.prefix "/comments/" (Path r) then getCommentsHandler env requestID r
  else if String.eqb (Path r) "/news" then (mkResponse 301 (RedirectTo "/news/"), [])
  else (httpError "404 page not found" 404, []).

(** [handler := requestIDMiddleware(mux)]; the logging middleware
    around it only reads the status written. *)
Definition serve (env : Backends) (newsFirst : bool) (rnd : Rand)
  (r : Request) : Outcome * Rand :=
  requestIDMiddleware (mux env newsFirst) rnd r.

(** The comments call of a detail request failed: a transport error,
    a status other than 200, or a body that does not decode. *)
Definition commentsFailed (res : HttpResult (list Comment)) : Prop :=
  match res with
  | TransportError _ => True
  | HttpResponse status decoded => status <> 200 \/ decoded = None
  end.

(** The item call of a detail request failed: a transport error, a
    status other than 200, or a body that does not decode. *)
Definition newsFailed (res : HttpResult NewsFullDetailed) : Prop :=
  match res with
  | TransportError _ => True
  | HttpResponse status decoded => status <> 200 \/ decoded = None
  end.

(** The status a backend answered a call with; [None] when the call
    failed at transport level. *)
Definition statusOf {A} (res : HttpResult A) : option Z :=
  match res with
  | TransportError _ => None
  | HttpResponse status _ => Some status
  end.

Definition answerStatus (env : Backends) (call : OutboundCall) : option Z :=
  match call with
  | GetNewsLatest params => statusOf (newsLatest env params)
  | GetNewsFilter params => statusOf (newsFilter env params)
  | GetNewsByID newsID requestID => statusOf (newsByID env newsID requestID)
  | GetComments newsID requestID => statusOf (commentsByNews env newsID requestID)
  | PostComment requestID body => statusOf (postComment env requestID body)
  end.

(** The status a handler takes as the success of its call. *)
Definition expectedStatus (call : OutboundCall) : Z :=
  match call with
  | PostComment _ _ => 201
  | _ => 200
  end.

(** The parameters [latestNewsHandler] and [filterNewsHandler] copy
    from the inbound query. *)
Definition latestKeys : list string := ["page"; "s"]%string.

Definition filterKeys : list string :=
  ["page"; "q"; "s"; "date_from"; "date_to"; "sort_by"]%string.

Definition inKeys (keys : list string) (key : string) : bool :=
  existsb (String.eqb key) keys.

(** What a backend reads for [key] from the parameters of a list call:
    the identifier of the request, the inbound value of a copied
    parameter, and nothing for any other key. *)
Definition forwarded (keys : list string) (query : Values)
  (requestID : string) (key : string) : string :=
  if String.eqb key "request_id" then requestID
  else if inKeys keys key then Get query key
  else "".

(** [getClientIP], on the [X-Forwarded-For] header ([""] when absent) and
    [r.RemoteAddr]. [splitComma s] is [strings.Split(s, ",")]. *)
Fixpoint splitComma (s : string) : list string :=
  match s with
  | EmptyString => [EmptyString]
  | String a rest =>
      if Ascii.eqb a ","%char then EmptyString :: splitComma rest
      else
        match splitComma rest with
        | first :: others => String a first :: others
        | [] => [String a EmptyString]
        end
  end.

Definition getClientIP (forwardedFor remoteAddr : string) : string :=
  if negb (String.eqb forwardedFor "")
  then match splitComma forwardedFor with
       | first :: _ => first
       | [] => EmptyString
       end
  else remoteAddr.

End Gateway.

(** ** The censorship service (second program of api-gateway/main.go) *)

Module Censorship.

Record CensorshipRequest : Type := mkCensorshipRequest {
  Text : list rune
}.

Record CensorshipResponse : Type := mkCensorshipResponse {
  IsApproved : bool;
  Message : string
}.

(** [var forbiddenWords]: "qwerty", the Cyrillic word U+0439 U+0446
    U+0443 U+043A U+0435 U+043D, and "zxvbnm". *)
Definition qwerty : list rune := [113; 119; 101; 114; 116; 121].
Definition jcuken : list rune := [1081; 1094; 1091; 1082; 1077; 1085].
Definition zxvbnm : list rune := [122; 120; 118; 98; 110; 109].

Definition forbiddenWords : list (list rune) := [qwerty; jcuken; zxvbnm].

(** The request: its method and what decoding the body gives. *)
Record Request : Type := mkRequest {
  Method : string;
  Body : option CensorshipRequest
}.

Inductive ResponseBody : Type :=
| ErrorText (msg : string)
| Verdict (v : CensorshipResponse).

Record Response : Type := mkResponse {
  StatusCode : Z;
  Payload : ResponseBody
}.

(** The verdict a response carries, when it carries one. *)
Definition approved (resp : Response) : option bool :=
  match Payload resp with
  | Verdict v => Some (IsApproved v)
  | ErrorText _ => None
  end.

Section WithUnicodeTables.

Variable unicode_ToLower : rune -> rune.

(** The loop of [checkText] over the words still to try. *)
Fixpoint checkWords (textLower : list rune) (words : list (list rune))
  : bool :=
  match words with
  | [] => true
  | word :: rest =>
      if Strings.Contains textLower (Strings.ToLower unicode_ToLower word)
      then false
      else checkWords textLower rest
  end.

Definition checkText (text : list rune) : bool :=
  checkWords (Strings.ToLower unicode_ToLower text) forbiddenWords.

Definition censorHandler (r : Request) : Response :=
  if negb (String.eqb (Method r) "POST")
  then mkResponse 405 (ErrorText "Method not allowed")
  else
    match Body r with
    | None => mkResponse 400 (ErrorText "Invalid JSON")
    | Some req =>
        match Strings.TrimSpace (Text req) with
        | [] => mkResponse 400 (ErrorText "Text is required")
        | _ :: _ =>
            if checkText (Text req)
            then mkResponse 200
                   (Verdict (mkCensorshipResponse true "Comment approved"))
            else mkResponse 400
                   (Verdict (mkCensorshipResponse false
                               "Comment contains inappropriate content"))
        end
    end.

End WithUnicodeTables.

(** [unicode.ToLower] on the Latin and the basic Cyrillic letters, the
    identity elsewhere: enough of the tables to run the examples. *)
Definition sampleToLower (r : rune) : rune :=
  if (65 <=? r) && (r <=? 90) then r + 32
  else if (1040 <=? r) && (r <=? 1071) then r + 32
  else if (1024 <=? r) && (r <=? 1039) then r + 80
  else r.

End Censorship.

(** ** news-service/main.go *)

Module NewsService.

Definition PER_PAGE : Z := 15.

(** [type News struct]; times are integers (nanoseconds). *)
Record News : Type := mkNews {
  ID : Z;
  Title : list rune;
  Content : list rune;
  Description : list rune;
  Link : list rune;
  PubDate : Z;
  CreatedAt : Z
}.

(** [type Item struct], one entry of an RSS feed. *)
Record Item : Type := mkItem {
  item_Title : list rune;
  item_Description : list rune;
  item_Link : list rune;
  item_PubDate : string;
  item_Content : list rune
}.

(** What [db.QueryRow(...).Scan] gives for one row. *)
Inductive RowResult : Type :=
| Row (news : News)
| ErrNoRows
| QueryError.

Inductive Reply : Type :=
| ErrorReply (msg : string)
| NewsJSON (news : News).

(** [newsDetailHandler]: the status and the body written; [getNewsByID]
    is the query on the database. [path[6:]] is the path without its first
    six bytes. *)
Definition newsDetailHandler (getNewsByID : Z -> RowResult)
  (method path : string) : Z * Reply :=
  if negb (String.eqb method "GET")
  then (405, ErrorReply "Method not allowed")
  else if (String.length path <? 7)%nat
  then (400, ErrorReply "News ID required")
  else
    match Strconv.Atoi (String.substring 6 (String.length path - 6) path) with
    | None => (400, ErrorReply "Invalid news ID")
    | Some newsID =>
        match getNewsByID newsID with
        | Row news => (200, NewsJSON news)
        | ErrNoRows => (404, ErrorReply "News not found")
        | QueryError => (500, ErrorReply "Failed to get news")
        end
    end.

(** The page of [latestNewsHandler] and [filterNewsHandler]: 1 unless
    the parameter is an integer that is at least 1. *)
Definition pageOf (pageParam : string) : Z :=
  if String.eqb pageParam "" then 1
  else
    match Strconv.Atoi pageParam with
    | Some page => if page <? 1 then 1 else page
    | None => 1
    end.

(** Arithmetic on [int] wraps around at 64 bits. *)
Definition wrap64 (z : Z) : Z := (z + 2 ^ 63) mod 2 ^ 64 - 2 ^ 63.

(** [offset := (page - 1) * PER_PAGE] *)
Definition offsetOf (page : Z) : Z := wrap64 (wrap64 (page - 1) * PER_PAGE).

(** The largest page whose offset does not overflow. *)
Definition lastExactPage : Z := (2 ^ 63 - 1) / PER_PAGE + 1.

(** An argument bound to a placeholder of a query. *)
Inductive Arg : Type :=
| TextArg (s : string)
| TimeArg (t : Z)
| IntArg (n : Z).

(** [24*time.Hour - time.Second], in nanoseconds. *)
Definition endOfDay : Z := (24 * 3600 - 1) * 1000000000.

Definition fullTextCondition (argIndex : Z) : string :=
  ("(to_tsvector('russian', title) @@ plainto_tsquery('russian', $"
   ++ Strconv.Itoa argIndex
   ++ ") OR to_tsvector('russian', content) @@ plainto_tsquery('russian', $"
   ++ Strconv.Itoa argIndex ++ "))")%string.

(** [strings.Join(elems, sep)] *)
Fixpoint Join (elems : list string) (sep : string) : string :=
  match elems with
  | [] => ""
  | [e] => e
  | e :: rest => (e ++ sep ++ Join rest sep)%string
  end.

(** The state [filterNews] builds before it queries: the conditions,
    the arguments and the next placeholder number. *)
Record Filter : Type := mkFilter {
  conditions : list string;
  args : list Arg;
  argIndex : Z
}.

Definition addSearch (searchQuery : string) (f : Filter) : Filter :=
  if negb (String.eqb searchQuery "")
  then mkFilter (conditions f ++ [fullTextCondition (argIndex f)])
         (args f ++ [TextArg searchQuery]) (argIndex f + 1)
  else f.

(** [parseDate] is [time.Parse("2006-01-02", _)], [None] for an error. *)
Definition addDateFrom (parseDate : string -> option Z) (dateFrom : string)
  (f : Filter) : Filter :=
  if negb (String.eqb dateFrom "")
  then match parseDate dateFrom with
       | Some parsedDate =>
           mkFilter (conditions f ++ [("pub_date >= $" ++ Strconv.Itoa (argIndex f))%string])
             (args f ++ [TimeArg parsedDate]) (argIndex f + 1)
       | None => f
       end
  else f.

Definition addDateTo (parseDate : string -> option Z) (dateTo : string)
  (f : Filter) : Filter :=
  if negb (String.eqb dateTo "")
  then match parseDate dateTo with
       | Some parsedDate =>
           mkFilter (conditions f ++ [("pub_date <= $" ++ Strconv.Itoa (argIndex f))%string])
             (args f ++ [TimeArg (parsedDate + endOfDay)]) (argIndex f + 1)
       | None => f
       end
  else f.

Definition whereClauseOf (f : Filter) : string :=
  match conditions f with
  | [] => ""
  | _ => ("WHERE " ++ Join (conditions f) " AND ")%string
  end.

Definition orderClauseOf (sortBy : string) : string :=
  if String.eqb sortBy "title" then "ORDER BY title ASC"
  else if String.eqb sortBy "date_asc" then "ORDER BY pub_date ASC, id ASC"
  else "ORDER BY pub_date DESC, id DESC".

Definition newline : string := String (ascii_of_nat 10) EmptyString.
Definition indent : string :=
  String (ascii_of_nat 9) (String (ascii_of_nat 9) EmptyString).

(** The two statements of [filterNews] with their arguments: the count
    and the page of rows. *)
Record Statements : Type := mkStatements {
  countQuery : string;
  countArgs : list Arg;
  newsQuery : string;
  newsArgs : list Arg
}.

Definition filterNewsStatements (parseDate : string -> option Z)
  (searchQuery dateFrom dateTo sortBy : string) (limit offset : Z)
  : Statements :=
  let f := mkFilter [] [] 1 in
  let f := addSearch searchQuery f in
  let f := addDateFrom parseDate dateFrom f in
  let f := addDateTo parseDate dateTo f in
  mkStatements
    ("SELECT COUNT(*) FROM news " ++ whereClauseOf f)%string
    (args f)
    (newline ++ indent
     ++ "SELECT id, title, content, description, link, pub_date, created_at"
     ++ newline ++ indent ++ "FROM news"
     ++ newline ++ indent ++ whereClauseOf f
     ++ newline ++ indent ++ orderClauseOf sortBy
     ++ newline ++ indent ++ "LIMIT $" ++ Strconv.Itoa (argIndex f)
     ++ " OFFSET $" ++ Strconv.Itoa (argIndex f + 1)
     ++ newline ++ String (ascii_of_nat 9) EmptyString)%string
    (args f ++ [IntArg limit; IntArg offset]).

Definition succeeded {A} (o : option A) : bool :=
  match o with Some _ => true | None => false end.

(** What of its input decides the text of the statements. *)
Definition filterShape (parseDate : string -> option Z)
  (searchQuery dateFrom dateTo sortBy : string) : bool * bool * bool * string :=
  (negb (String.eqb searchQuery ""),
   negb (String.eqb dateFrom "") && succeeded (parseDate dateFrom),
   negb (String.eqb dateTo "") && succeeded (parseDate dateTo),
   orderClauseOf sortBy).

(** The row [saveNewsItem] sends to the database. *)
Record NewsRow : Type := mkNewsRow {
  row_title : list rune;
  row_content : list rune;
  row_description : list rune;
  row_link : list rune;
  row_pubDate : Z
}.

(** The publication date of [saveNewsItem]; [parseRFC1123] and
    [parseRFC1123Z] are [time.Parse] with these layouts, [now] is
    [time.Now()]. *)
Definition pubDateOf (parseRFC1123 parseRFC1123Z : string -> option Z)
  (now : Z) (pubDate : string) : Z :=
  if negb (String.eqb pubDate "")
  then match parseRFC1123 pubDate with
       | Some parsed => parsed
       | None =>
           match parseRFC1123Z pubDate with
           | Some parsed => parsed
           | None => now
           end
       end
  else now.

(** [saveNewsItem]: its result and the rows sent to the database.
    [exec] is the [INSERT ... ON CONFLICT (link) DO NOTHING]: the number of
    rows affected, or [None] for an error. *)
Definition saveNewsItem (parseRFC1123 parseRFC1123Z : string -> option Z)
  (now : Z) (exec : NewsRow -> option Z) (item : Item)
  : bool * list NewsRow :=
  let pubDate := pubDateOf parseRFC1123 parseRFC1123Z now (item_PubDate item) in
  let title := Strings.TrimSpace (item_Title item) in
  let description := Strings.TrimSpace (item_Description item) in
  let content := Strings.TrimSpace (item_Content item) in
  let link := Strings.TrimSpace (item_Link item) in
  match title, link with
  | [], _ | _, [] => (false, [])
  | _ :: _, _ :: _ =>
      let content := match content with [] => description | _ :: _ => content end in
      let row := mkNewsRow title content description link pubDate in
      match exec row with
      | None => (false, [row])
      | Some rowsAffected => (0 <? rowsAffected, [row])
      end
  end.

End NewsService.

(** ** The three services together *)

Module Deployment.

(** A comment of the comments service as the gateway decodes it from
    JSON: the moderation flags are absent from the body. *)
Fixpoint decodeComment (c : CommentsService.Comment) : Gateway.Comment :=
  Gateway.mkComment (CommentsService.ID c) (CommentsService.NewsID c)
    (CommentsService.ParentID c) (CommentsService.Text c)
    (CommentsService.CreatedAt c) false false
    ((fix decodeAll (l : list CommentsService.Comment) : list Gateway.Comment :=
        match l with
        | [] => []
        | x :: rest => decodeComment x :: decodeAll rest
        end) (CommentsService.Children c)).

Definition decodeForest (forest : list CommentsService.Comment)
  : list Gateway.Comment :=
  map decodeComment forest.

(** An item of the news service as the gateway decodes it: the body has
    no comments. *)
Definition decodeNews (n : NewsService.News) : Gateway.NewsFullDetailed :=
  Gateway.mkNewsFullDetailed (NewsService.ID n) (NewsService.Title n)
    (NewsService.Content n) (NewsService.Description n)
    (NewsService.PubDate n) (NewsService.Link n) [].

(** The answer of the news service to [GET /news/%d]. *)
Definition newsAnswer (getNewsByID : Z -> NewsService.RowResult) (newsID : Z)
  : Gateway.HttpResult Gateway.NewsFullDetailed :=
  let out :=
    NewsService.newsDetailHandler getNewsByID "GET"
      ("/news/" ++ Strconv.Itoa newsID) in
  Gateway.HttpResponse out.1
    match out.2 with
    | NewsService.NewsJSON n => Some (decodeNews n)
    | NewsService.ErrorReply _ => None
    end.

(** The answer of the comments service to [GET /comments/%d]. *)
Definition commentsAnswer
  (getCommentsByNewsID : Z -> option (list CommentsService.Comment))
  (newsID : Z) : Gateway.HttpResult (list Gateway.Comment) :=
  let out :=
    CommentsService.getCommentsByNewsHandler getCommentsByNewsID "GET"
      ("/comments/" ++ Strconv.Itoa newsID) in
  Gateway.HttpResponse out.1
    match out.2 with
    | CommentsService.ForestJSON forest => Some (decodeForest forest)
    | CommentsService.ForestError _ => None
    end.

(** What the gateway gets from a call whose URL carries [requestID]
    unescaped. An identifier that [url.QueryEscape] would leave as it is
    makes a well-formed URL: the request reaches the service, and the
    gateway gets the [answer] of its handler. What [net/http] does with
    any other identifier (a URL that [url.Parse] refuses, a request line
    that the server refuses, a query that is cut short) is not described
    here: the outcome is [other], about which nothing is known. *)
Definition delivered {A : Type} (requestID : string)
  (answer other : Gateway.HttpResult A) : Gateway.HttpResult A :=
  if Url.plain requestID then answer else other.

(** The gateway with the news service and the comments service of the
    repository behind it, each on its database; the list routes and the
    creation of comments are not connected. [other] stands for the
    outcomes of the calls whose URL carries an identifier that is not
    plain. *)
Definition services (getNewsByID : Z -> NewsService.RowResult)
  (getCommentsByNewsID : Z -> option (list CommentsService.Comment))
  (other : Gateway.Backends) : Gateway.Backends :=
  Gateway.mkBackends
    (fun _ => Gateway.TransportError "not connected")
    (fun _ => Gateway.TransportError "not connected")
    (fun newsID requestID =>
       delivered requestID (newsAnswer getNewsByID newsID)
         (Gateway.newsByID other newsID requestID))
    (fun newsID requestID =>
       delivered requestID (commentsAnswer getCommentsByNewsID newsID)
         (Gateway.commentsByNews other newsID requestID))
    (fun _ _ => Gateway.TransportError "not connected")
    (fun requestID =>
       negb (Url.plain requestID) && Gateway.newRequestFails other requestID).

End Deployment.

(** ** Concrete inputs used by the examples *)

Module Samples.
Import CommentsService.

(** A thread of three levels in creation order, a second reply to the
    root, and a reply to a comment that is not in the list. *)
Definition c1 : Comment := mkComment 1 7 None [104; 105] 100 [].
Definition c2 : Comment := mkComment 2 7 (Some 1) [111; 107] 200 [].
Definition c3 : Comment := mkComment 3 7 (Some 2) [110; 111] 300 [].
Definition c4 : Comment := mkComment 4 7 (Some 1) [121; 111] 400 [].
Definition c5 : Comment := mkComment 5 7 (Some 99) [104; 109] 500 [].

Definition thread : list Comment := [c1; c2; c3].
Definition mixed : list Comment := [c1; c2; c3; c4; c5].

(** Three threads side by side, their comments interleaved in creation
    order: the roots [c1], [c6] and [c8], replies to each of the first
    two, and the orphan [c5]. *)
Definition c6 : Comment := mkComment 6 7 None [97] 600 [].
Definition c7 : Comment := mkComment 7 7 (Some 6) [98] 700 [].
Definition c8 : Comment := mkComment 8 7 None [99] 800 [].
Definition c9 : Comment := mkComment 9 7 (Some 1) [100] 900 [].

Definition threads : list Comment := [c1; c2; c3; c4; c5; c6; c7; c8; c9].

(** Backends that answer the item call and the comments call as given
    and are unreachable for the rest. *)
Definition backendsWith (news : Gateway.HttpResult Gateway.NewsFullDetailed)
  (comments : Gateway.HttpResult (list Gateway.Comment))
  (created : Gateway.HttpResult Gateway.Comment) : Gateway.Backends :=
  Gateway.mkBackends
    (fun _ => Gateway.TransportError "unreachable")
    (fun _ => Gateway.TransportError "unreachable")
    (fun _ _ => news) (fun _ _ => comments) (fun _ _ => created)
    (fun _ => false).

Definition item1 : Gateway.NewsFullDetailed :=
  Gateway.mkNewsFullDetailed 1 [78] [66] [68] 1000 [76] [].

Definition reply1 : Gateway.Comment :=
  Gateway.mkComment 1 1 None [111; 107] 2000 true true [].

(** An item whose decoded body already carries a comment of its own. *)
Definition reply2 : Gateway.Comment :=
  Gateway.mkComment 2 2 None [104; 105] 2500 false false [].

Definition item2 : Gateway.NewsFullDetailed :=
  Gateway.mkNewsFullDetailed 2 [84] [67] [69] 1500 [77] [reply2].

Definition getRequest (path : string) (query : list (string * string))
  : Gateway.Request :=
  Gateway.mkRequest "GET" path query None.

(** [GET /news/1?request_id=a%26b%3D1] and the same query on
    [/news/latest]: the identifier of the request is [a&b=1]. *)
Definition tokenDetailRequest : Gateway.Request :=
  getRequest "/news/1" [("request_id", "a&b=1")]%string.

Definition tokenListRequest : Gateway.Request :=
  getRequest "/news/latest" [("request_id", "a&b=1")]%string.

(** A transport on which every call fails. *)
Definition noTransport : Gateway.Backends :=
  Gateway.mkBackends
    (fun _ => Gateway.TransportError "refused")
    (fun _ => Gateway.TransportError "refused")
    (fun _ _ => Gateway.TransportError "refused")
    (fun _ _ => Gateway.TransportError "refused")
    (fun _ _ => Gateway.TransportError "refused")
    (fun _ => true).

Definition postRequest (query : list (string * string))
  (body : Gateway.CommentRequest) : Gateway.Request :=
  Gateway.mkRequest "POST" "/comments" query (Some body).

(** A database in which no parent exists and nothing can be stored. *)
Definition emptyDatabase : CommentsService.Database :=
  CommentsService.mkDatabase (fun _ => Some false) (fun _ => None)
    (fun _ => None).

(** The comments service of this repository as the backend of
    [POST /comments]: the request is re-encoded field by field; an error
    reply has no body that decodes to a comment. *)
Definition commentsServiceCreate (db : CommentsService.Database)
  (req : Gateway.CommentRequest) : Gateway.HttpResult Gateway.Comment :=
  let out :=
    CommentsService.createCommentHandler db
      (Some (CommentsService.mkCommentRequest (Gateway.req_NewsID req)
               (Gateway.req_ParentID req) (Gateway.req_Text req))) in
  Gateway.HttpResponse out.1
    match out.2 with
    | CommentsService.ErrorReply _ => None
    | CommentsService.CommentReply c =>
        Some (Gateway.mkComment (CommentsService.ID c)
                (CommentsService.NewsID c) (CommentsService.ParentID c)
                (CommentsService.Text c) (CommentsService.CreatedAt c)
                false false [])
    end.

Definition counter : nat -> nat := fun k => (7 * k + 3)%nat.

(** A comment whose text is one space, and one without item. *)
Definition blankComment : Gateway.CommentRequest :=
  Gateway.mkCommentRequest 1 None [32].

Definition noItemComment : Gateway.CommentRequest :=
  Gateway.mkCommentRequest 0 None [104; 105].

(** The gateway in front of the comments service of the repository. *)
Definition serviceBackends (body : Gateway.CommentRequest)
  : Gateway.Backends :=
  backendsWith (Gateway.TransportError "unreachable")
    (Gateway.TransportError "unreachable")
    (commentsServiceCreate emptyDatabase body).

(** The gateway deployed in front of the comments service: a
    [POST /comments] it sends with a plain identifier is handled by
    [createCommentHandler] on the database [db]; with any other
    identifier, whether [http.NewRequest] accepts the URL and what the
    call gives is left to [other]. The news service is unreachable. *)
Definition commentsDeployment (db : CommentsService.Database)
  (other : Gateway.Backends) : Gateway.Backends :=
  Gateway.mkBackends
    (fun _ => Gateway.TransportError "unreachable")
    (fun _ => Gateway.TransportError "unreachable")
    (fun _ _ => Gateway.TransportError "unreachable")
    (fun _ _ => Gateway.TransportError "unreachable")
    (fun requestID req =>
       Deployment.delivered requestID (commentsServiceCreate db req)
         (Gateway.postComment other requestID req))
    (fun requestID =>
       negb (Url.plain requestID) && Gateway.newRequestFails other requestID).

(** A database that stores everything and has every parent. *)
Definition storingDatabase : CommentsService.Database :=
  CommentsService.mkDatabase (fun _ => Some true) (fun _ => Some 10)
    (fun id => Some (CommentsService.mkComment id 1 None [111; 107] 3000 [])).

Definition plainComment : Gateway.CommentRequest :=
  Gateway.mkCommentRequest 1 None [111; 107].

(** The row of item 7 in the database of the news service. *)
Definition row7 : NewsService.News :=
  NewsService.mkNews 7 [71; 111] [98; 111; 100; 121] [100] [117; 114; 108]
    1200 1300.

(** A date parser that knows one day, and a feed entry whose content
    is blank. *)
Definition sampleParseDate (s : string) : option Z :=
  if String.eqb s "2025-07-01" then Some 1751328000000000000 else None.

Definition feedEntry : NewsService.Item :=
  NewsService.mkItem [32; 71; 111; 32] [110; 101; 119; 115] [104; 116; 116; 112; 10]
    "" [32; 32].

(** A comments backend that answers 503. *)
Definition unavailableBackends : Gateway.Backends :=
  backendsWith (Gateway.TransportError "unreachable")
    (Gateway.HttpResponse 503 None) (Gateway.TransportError "unreachable").

(** "QWERTY!" and "hello" as requests to the censorship service. *)
Definition shouting : Censorship.Request :=
  Censorship.mkRequest "POST"
    (Some (Censorship.mkCensorshipRequest [81; 87; 69; 82; 84; 89; 33])).

Definition greeting : Censorship.Request :=
  Censorship.mkRequest "POST"
    (Some (Censorship.mkCensorshipRequest [104; 101; 108; 108; 111])).

End Samples.

(** * Properties *)

(** ** The comment tree builder *)

Section TreeBuilder.
Import CommentsService.

Implicit Types (c : Comment) (cs : list Comment) (m : gmap Z nat).

Lemma record_setChildren c ch : record (setChildren c ch) = record c.
Proof. reflexivity. Qed.

Lemma record_idem c : record (record c) = record c.
Proof. reflexivity. Qed.

Lemma ID_record c : ID (record c) = ID c.
Proof. reflexivity. Qed.

Lemma isRoot_record c : isRoot (record c) = isRoot c.
Proof. reflexivity. Qed.

Lemma nodes_unfold c : nodes c = c :: forest_nodes (Children c).
Proof.
  destruct c as [id nid pid txt at_ ch]. reflexivity.
Qed.

Lemma forest_nodes_app (f g : list Comment) :
  forest_nodes (f ++ g) = forest_nodes f ++ forest_nodes g.
Proof. unfold forest_nodes. apply flat_map_app. Qed.

Lemma self_in_nodes c : In c (nodes c).
Proof. rewrite nodes_unfold. now left. Qed.

Lemma in_forest_nodes (f : list Comment) (x : Comment) :
  In x (forest_nodes f) <-> exists t, In t f /\ In x (nodes t).
Proof. unfold forest_nodes. apply in_flat_map. Qed.

(** *** First loop *)

Lemma initStep_fst st i :
  (initStep st i).1 = alter (fun c => setChildren c []) i st.1.
Proof. unfold initStep. now destruct (_ !! i). Qed.

Lemma init_slots cs (k : nat) :
  (k <= length cs)%nat ->
  (foldl initStep (cs, ∅) (seq 0 k)).1 = (record <$> take k cs) ++ drop k cs.
Proof.
  induction k as [|k IH]; intros Hk; [reflexivity|].
  rewrite seq_S, foldl_snoc, initStep_fst, IH by lia. simpl.
  destruct (lookup_lt_is_Some_2 cs k) as [c Hc]; [lia|].
  rewrite (take_S_r _ _ _ Hc), (drop_S _ _ _ Hc), fmap_app.
  rewrite alter_app_r_alt by (rewrite length_fmap, length_take; lia).
  rewrite length_fmap, length_take, Nat.min_l, Nat.sub_diag by lia.
  simpl. now rewrite <- app_assoc.
Qed.

Lemma init_slots_all cs :
  (foldl initStep (cs, ∅) (indices cs)).1 = record <$> cs.
Proof.
  unfold indices. rewrite init_slots by lia.
  now rewrite firstn_all, drop_all, app_nil_r.
Qed.

(** An identifier found in the map is the identifier of the slot the
    map gives for it. *)
Lemma init_map_sound cs (k : nat) id p :
  (k <= length cs)%nat ->
  (foldl initStep (cs, ∅) (seq 0 k)).2 !! id = Some p ->
  (p < k)%nat /\ ID <$> cs !! p = Some id.
Proof.
  revert id p. induction k as [|k IH]; intros id p Hk.
  - simpl. rewrite lookup_empty. discriminate.
  - rewrite seq_S, foldl_snoc. unfold initStep at 1.
    rewrite init_slots by lia. simpl.
    destruct (lookup_lt_is_Some_2 cs k) as [c Hc]; [lia|].
    rewrite list_lookup_alter_eq.
    rewrite lookup_app_r by (rewrite length_fmap, length_take; lia).
    rewrite length_fmap, length_take, Nat.min_l, Nat.sub_diag by lia.
    rewrite (drop_S _ _ _ Hc). simpl.
    destruct (decide (ID c = id)) as [<-|Hne].
    + rewrite lookup_insert_eq. intros [= <-]. split; [lia|]. now rewrite Hc.
    + rewrite lookup_insert_ne by assumption. intros H.
      destruct (IH id p ltac:(lia) H). split; [lia | assumption].
Qed.

(** The map of the first loop only depends on the identifiers. *)
Lemma init_map_ext cs1 cs2 (k : nat) :
  ID <$> cs1 = ID <$> cs2 -> (k <= length cs1)%nat ->
  (foldl initStep (cs1, ∅) (seq 0 k)).2 = (foldl initStep (cs2, ∅) (seq 0 k)).2.
Proof.
  intros Hids. assert (Hlen : length cs1 = length cs2).
  { rewrite <- (length_fmap ID cs1), Hids. apply length_fmap. }
  induction k as [|k IH]; intros Hk; [reflexivity|].
  rewrite !seq_S, !foldl_snoc. unfold initStep.
  rewrite !init_slots by lia. simpl.
  destruct (lookup_lt_is_Some_2 cs1 k) as [c1 Hc1]; [lia|].
  destruct (lookup_lt_is_Some_2 cs2 k) as [c2 Hc2]; [lia|].
  rewrite !list_lookup_alter_eq.
  rewrite !lookup_app_r by (rewrite length_fmap, length_take; lia).
  rewrite !length_fmap, !length_take, !Nat.min_l, !Nat.sub_diag by lia.
  rewrite (drop_S _ _ _ Hc1), (drop_S _ _ _ Hc2). simpl.
  assert (ID c1 = ID c2) as ->.
  { assert (H : (ID <$> cs1) !! k = (ID <$> cs2) !! k) by now rewrite Hids.
    rewrite !list_lookup_fmap, Hc1, Hc2 in H. now injection H. }
  f_equal. apply IH. lia.
Qed.

End TreeBuilder.

(** *** Second loop *)

Section LinkLoop.
Import CommentsService.

Implicit Types (c : Comment) (cs cur : list Comment) (m : gmap Z nat).

Lemma records_idem cur : record <$> (record <$> cur) = record <$> cur.
Proof.
  rewrite <- list_fmap_compose. apply list_fmap_ext. intros ? c _. reflexivity.
Qed.

Lemma alter_children_records cur (p : nat) (g : Comment -> list Comment) :
  record <$> alter (fun parent => setChildren parent (g parent)) p cur
  = record <$> cur.
Proof.
  rewrite (list_fmap_alter record _ (fun x => x)).
  - now apply list_alter_id.
  - apply Forall_forall. intros x _. reflexivity.
Qed.

Lemma linkStep_records m cur (i : nat) :
  record <$> linkStep m cur i = record <$> cur.
Proof.
  unfold linkStep.
  destruct (cur !! i) as [c|]; [|reflexivity].
  destruct (ParentID c) as [pid|]; [|reflexivity].
  destruct (m !! pid) as [p|]; [|reflexivity].
  apply (alter_children_records cur p (fun parent => Children parent ++ [c])).
Qed.

Lemma link_records m cur (l : list nat) :
  record <$> foldl (linkStep m) cur l = record <$> cur.
Proof.
  revert cur. induction l as [|i l IH]; intros cur; [reflexivity|].
  simpl. now rewrite IH, linkStep_records.
Qed.

Lemma in_alter (f : Comment -> Comment) cur (p : nat) (x : Comment) :
  In x (alter f p cur) ->
  In x cur \/ exists parent, cur !! p = Some parent /\ x = f parent.
Proof.
  rewrite <- !list_elem_of_In, !list_elem_of_lookup. intros [j Hj].
  destruct (decide (p = j)) as [->|Hne].
  - rewrite list_lookup_alter_eq in Hj.
    destruct (cur !! j) as [parent|] eqn:Hp; [|discriminate].
    right. exists parent. split; [reflexivity|]. now injection Hj.
  - rewrite list_lookup_alter_ne in Hj by assumption. left. now exists j.
Qed.

(** A property [Q k] of single nodes, kept by every node stored in the
    slice while the second loop runs: it holds of bare records, it is
    monotone in the number [k] of indices visited, and the node that
    receives the copy of slot [k] gets it at stage [S k]. *)
Variable cs : list Comment.
Variable m : gmap Z nat.
Variable Q : nat -> Comment -> Prop.
Hypothesis Q_base : forall c, Q 0 (record c).
Hypothesis Q_mono : forall k n, Q k n -> Q (S k) n.
Hypothesis Q_append : forall (k p : nat) parent c c0 pid,
  cs !! k = Some c0 -> record c = record c0 ->
  ParentID c = Some pid -> m !! pid = Some p ->
  Q k parent -> Q (S k) (setChildren parent (Children parent ++ [c])).

Lemma stored_step (k : nat) cur :
  record <$> cur = record <$> cs ->
  stored Q k cur -> stored Q (S k) (linkStep m cur k).
Proof.
  intros Hrec Hinv. unfold linkStep.
  assert (Hkeep : stored Q (S k) cur).
  { intros slot n Hs Hn. apply Q_mono. eapply Hinv; eassumption. }
  destruct (cur !! k) as [c|] eqn:Hc; [|exact Hkeep].
  destruct (ParentID c) as [pid|] eqn:Hpid; [|exact Hkeep].
  destruct (m !! pid) as [p|] eqn:Hp; [|exact Hkeep].
  assert (Hc0 : exists c0, cs !! k = Some c0 /\ record c = record c0).
  { assert (H : (record <$> cur) !! k = (record <$> cs) !! k) by now rewrite Hrec.
    rewrite !list_lookup_fmap, Hc in H. simpl in H.
    destruct (cs !! k) as [c0|]; [|discriminate].
    exists c0. split; [reflexivity|]. simpl in H. congruence. }
  destruct Hc0 as (c0 & Hk0 & Hrc).
  assert (Hcin : In c cur).
  { apply list_elem_of_In, list_elem_of_lookup. now exists k. }
  intros slot n Hs Hn.
  apply in_alter in Hs as [Hs | (parent & Hparent & ->)].
  { eapply Hkeep; eassumption. }
  assert (Hpin : In parent cur).
  { apply list_elem_of_In, list_elem_of_lookup. now exists p. }
  rewrite nodes_unfold in Hn. simpl in Hn.
  rewrite forest_nodes_app in Hn. destruct Hn as [<- | Hn].
  - eapply Q_append; try eassumption.
    apply (Hinv parent); [assumption | apply self_in_nodes].
  - apply in_app_or in Hn as [Hn | Hn].
    + apply (Hkeep parent); [assumption|].
      rewrite nodes_unfold. now right.
    + unfold forest_nodes in Hn. simpl in Hn. rewrite app_nil_r in Hn.
      now apply (Hkeep c).
Qed.

Lemma stored_fold (k : nat) :
  stored Q k (foldl (linkStep m) (record <$> cs) (seq 0 k)).
Proof.
  induction k as [|k IH].
  - intros slot n Hs Hn. simpl in Hs.
    apply in_map_iff in Hs as (c & <- & _).
    rewrite nodes_unfold in Hn. destruct Hn as [<- | []]. apply Q_base.
  - rewrite seq_S, foldl_snoc. apply stored_step; [|exact IH].
    rewrite link_records. apply records_idem.
Qed.

End LinkLoop.

Section TreeTheorems.
Import CommentsService.

Implicit Types (c n : Comment) (cs : list Comment).

Lemma run_eq cs :
  buildCommentTree_run cs = (linkedOf cs, collectRoots (linkedOf cs)).
Proof.
  destruct cs as [|c cs]; [reflexivity|].
  unfold buildCommentTree_run, linkedOf, commentMapOf.
  now rewrite init_slots_all.
Qed.

Lemma linked_records cs : record <$> linkedOf cs = record <$> cs.
Proof. unfold linkedOf. rewrite link_records. apply records_idem. Qed.

Lemma records_filter_roots cs :
  record <$> collectRoots cs = collectRoots (record <$> cs).
Proof.
  unfold collectRoots. induction cs as [|c cs IH]; [reflexivity|].
  rewrite fmap_cons, !filter_cons, isRoot_record.
  destruct (decide (isRoot c = true)); [rewrite fmap_cons|]; now rewrite IH.
Qed.

Lemma forest_node_stored cs n :
  In n (forest_nodes (buildCommentTree cs)) ->
  exists slot, In slot (linkedOf cs) /\ In n (nodes slot).
Proof.
  unfold buildCommentTree. rewrite run_eq. simpl.
  intros H. apply in_forest_nodes in H as (t & Ht & Hn).
  exists t. split; [|assumption].
  apply list_elem_of_In. apply list_elem_of_In in Ht.
  unfold collectRoots in Ht. now apply list_elem_of_filter in Ht.
Qed.

Lemma commentMap_present cs pid (p : nat) :
  commentMapOf cs !! pid = Some p -> present cs pid.
Proof.
  intros H. apply init_map_sound in H as [_ H]; [|reflexivity].
  unfold present. apply list_elem_of_In, list_elem_of_lookup.
  exists p. now rewrite list_lookup_fmap.
Qed.

(** Children are copied in input order. *)
Lemma children_follow_input cs n :
  In n (forest_nodes (buildCommentTree cs)) ->
  sublist (record <$> Children n) (record <$> cs).
Proof.
  intros H. apply forest_node_stored in H as (slot & Hs & Hn).
  pose (Q := fun (k : nat) n =>
    sublist (record <$> Children n) (record <$> take k cs)).
  assert (Hall : stored Q (length cs) (linkedOf cs)).
  { apply stored_fold.
    - intros c. apply sublist_nil_l.
    - intros k x Hx. unfold Q in *. etransitivity; [exact Hx|].
      apply fmap_sublist.
      replace (take k cs) with (take k (take (S k) cs))
        by (rewrite take_take; f_equal; lia).
      apply sublist_take.
    - intros k p parent c c0 pid Hk Hrc _ _ Hpar. unfold Q in *. simpl.
      rewrite (take_S_r _ _ _ Hk), !fmap_app. simpl. rewrite Hrc.
      now apply sublist_app. }
  specialize (Hall slot n Hs Hn). unfold Q in Hall.
  now rewrite firstn_all in Hall.
Qed.

(** No reply to a comment missing from the input is ever copied under a
    node. *)
Lemma children_have_parents cs n :
  In n (forest_nodes (buildCommentTree cs)) ->
  Forall (fun ch => exists pid, ParentID ch = Some pid /\ present cs pid)
    (Children n).
Proof.
  intros H. apply forest_node_stored in H as (slot & Hs & Hn).
  pose (Q := fun (k : nat) n =>
    Forall (fun ch => exists pid, ParentID ch = Some pid /\ present cs pid)
      (Children n)).
  assert (Hall : stored Q (length cs) (linkedOf cs)).
  { apply stored_fold with (m := commentMapOf cs).
    - intros c. constructor.
    - intros k x Hx. exact Hx.
    - intros k p parent c c0 pid _ _ Hpid Hp Hpar. unfold Q in *. simpl.
      apply Forall_app. split; [assumption|].
      constructor; [|constructor]. exists pid. split; [assumption|].
      now apply commentMap_present in Hp. }
  exact (Hall slot n Hs Hn).
Qed.

Lemma run_records cs : record <$> (buildCommentTree_run cs).1 = record <$> cs.
Proof. rewrite run_eq. apply linked_records. Qed.

Lemma run_ext cs1 cs2 :
  record <$> cs1 = record <$> cs2 ->
  buildCommentTree_run cs1 = buildCommentTree_run cs2.
Proof.
  intros Hrec. rewrite !run_eq.
  assert (Hlen : length cs1 = length cs2).
  { rewrite <- (length_fmap record cs1), Hrec. apply length_fmap. }
  assert (Hids : ID <$> cs1 = ID <$> cs2).
  { transitivity (ID <$> (record <$> cs1)).
    - rewrite <- list_fmap_compose. reflexivity.
    - rewrite Hrec, <- list_fmap_compose. reflexivity. }
  assert (Hlinked : linkedOf cs1 = linkedOf cs2).
  { unfold linkedOf, commentMapOf, indices.
    rewrite Hrec, <- Hlen.
    now rewrite (init_map_ext cs1 cs2 (length cs1) Hids). }
  now rewrite Hlinked.
Qed.

Lemma StronglySorted_sublist {A} (R : A -> A -> Prop) (l1 l2 : list A) :
  sublist l1 l2 -> StronglySorted R l2 -> StronglySorted R l1.
Proof.
  induction 1 as [|x l1 l2 Hsub IH|x l1 l2 Hsub IH]; intros Hs.
  - constructor.
  - apply StronglySorted_inv in Hs as [Hs Hall]. constructor; [now apply IH|].
    rewrite Forall_forall in *. intros y Hy. apply Hall.
    eapply elem_of_sublist; eassumption.
  - apply StronglySorted_inv in Hs as [Hs _]. now apply IH.
Qed.

Lemma chronological_sublist (l1 l2 : list Comment) :
  sublist (record <$> l1) (record <$> l2) ->
  chronological l2 -> chronological l1.
Proof.
  unfold chronological. intros Hsub Hs.
  apply StronglySorted_Sorted.
  apply (StronglySorted_sublist _ _ (CreatedAt <$> l2)).
  - apply (fmap_sublist CreatedAt) in Hsub.
    rewrite <- !list_fmap_compose in Hsub. exact Hsub.
  - apply Sorted_StronglySorted; [|assumption].
    intros x y z. apply Z.le_trans.
Qed.

(** When parents come first, slot [k] is still childless when the second
    loop copies it, and nothing is ever added to the copy: the forest has
    two levels at most. *)
Lemma link_flat cs (k : nat) :
  parentsFirst cs -> (k <= length cs)%nat ->
  let cur := foldl (linkStep (commentMapOf cs)) (record <$> cs) (seq 0 k) in
  (forall (j : nat) c, (k <= j)%nat -> cur !! j = Some c -> Children c = [])
  /\ (forall slot ch, In slot cur -> In ch (Children slot) -> Children ch = []).
Proof.
  intros Hpf. induction k as [|k IH]; intros Hk; cbv zeta.
  - simpl. split.
    + intros j c _ Hj. apply list_lookup_fmap_Some in Hj as (c0 & -> & _).
      reflexivity.
    + intros slot ch Hs Hc. apply in_map_iff in Hs as (c0 & <- & _).
      destruct Hc.
  - destruct (IH ltac:(lia)) as [Hlate Hflat]. clear IH.
    rewrite seq_S, foldl_snoc. cbn [Nat.add].
    set (cur := foldl (linkStep (commentMapOf cs)) (record <$> cs) (seq 0 k)) in *.
    assert (Hkeep :
      (forall (j : nat) c, (S k <= j)%nat -> cur !! j = Some c -> Children c = [])
      /\ (forall slot ch, In slot cur -> In ch (Children slot) -> Children ch = [])).
    { split; [|exact Hflat]. intros j c Hj. apply Hlate. lia. }
    unfold linkStep.
    destruct (cur !! k) as [c|] eqn:Hc; [|exact Hkeep].
    destruct (ParentID c) as [pid|] eqn:Hpid; [|exact Hkeep].
    destruct (commentMapOf cs !! pid) as [p|] eqn:Hp; [|exact Hkeep].
    assert (Hck : Children c = []) by (apply (Hlate k); [lia | exact Hc]).
    assert (Hlt : (p < k)%nat).
    { apply init_map_sound in Hp as [_ Hp]; [|reflexivity].
      destruct (cs !! p) as [parent|] eqn:Hparent; [|discriminate].
      injection Hp as <-.
      assert (Hrec : (record <$> cur) !! k = (record <$> cs) !! k).
      { unfold cur. now rewrite link_records, records_idem. }
      rewrite !list_lookup_fmap, Hc in Hrec.
      destruct (cs !! k) as [c0|] eqn:Hc0; [|discriminate].
      apply (Hpf k p c0 parent Hc0 Hparent).
      assert (Heq : record c = record c0) by (simpl in Hrec; congruence).
      apply (f_equal ParentID) in Heq. simpl in Heq. congruence. }
    split.
    + intros j x Hj Hx. rewrite list_lookup_alter_ne in Hx by lia.
      apply (Hlate j); [lia | exact Hx].
    + intros slot ch Hs Hch.
      apply in_alter in Hs as [Hs | (parent & Hparent & ->)].
      * now apply (Hflat slot).
      * simpl in Hch. apply in_app_or in Hch as [Hch | [<- | []]].
        -- apply (Hflat parent); [|exact Hch].
           apply list_elem_of_In, list_elem_of_lookup. now exists p.
        -- exact Hck.
Qed.

(** X2 (replies of replies are lost): when every record comes after the
    records that have the identifier of its parent, the nodes directly
    under a root of the output have no children: the forest never has
    more than two levels. *)
Lemma parents_first_forest_is_flat cs root reply :
  parentsFirst cs ->
  In root (buildCommentTree cs) -> In reply (Children root) ->
  Children reply = [].
Proof.
  intros Hpf Hroot Hreply.
  destruct (link_flat cs (length cs) Hpf (Nat.le_refl _)) as [_ Hflat].
  apply (Hflat root); [|exact Hreply].
  unfold buildCommentTree in Hroot. rewrite run_eq in Hroot. simpl in Hroot.
  apply list_elem_of_In in Hroot. unfold collectRoots in Hroot.
  apply list_elem_of_filter in Hroot as [_ Hroot].
  now apply list_elem_of_In.
Qed.

(** Induction on a tree with the hypothesis for all children. *)
Lemma Comment_children_ind (P : Comment -> Prop) :
  (forall c, Forall P (Children c) -> P c) -> forall c, P c.
Proof.
  intros H. fix IH 1. intros [id nid pid txt at_ ch]. apply H. simpl.
  induction ch as [|x r IHr]; constructor; [apply IH | exact IHr].
Qed.

Lemma nodes_cases (t n : Comment) :
  In n (nodes t) ->
  n = t \/ exists p, In p (nodes t) /\ In n (Children p).
Proof.
  revert n. induction t as [t IH] using Comment_children_ind. intros n Hn.
  rewrite nodes_unfold in Hn. destruct Hn as [<- | Hn]; [now left|]. right.
  apply in_forest_nodes in Hn as (x & Hx & Hn).
  rewrite Forall_forall in IH.
  destruct (IH x (proj2 (list_elem_of_In _ _) Hx) n Hn) as [-> | (p & Hp & Hc)].
  - exists t. split; [apply self_in_nodes | assumption].
  - exists p. split; [|assumption].
    rewrite nodes_unfold. right. apply in_forest_nodes. now exists x.
Qed.

(** X1 (orphans are dropped): a node of the output forest, at any depth,
    has no parent identifier or one that is the identifier of a record of
    the input; a reply to a missing comment is nowhere in the forest. *)
Lemma forest_has_no_orphan cs n :
  In n (forest_nodes (buildCommentTree cs)) ->
  ParentID n = None \/ exists pid, ParentID n = Some pid /\ present cs pid.
Proof.
  intros Hn. pose proof Hn as Hn'.
  apply in_forest_nodes in Hn' as (t & Ht & Hnt).
  apply nodes_cases in Hnt as [-> | (p & Hp & Hc)].
  - left. unfold buildCommentTree in Ht. rewrite run_eq in Ht. simpl in Ht.
    apply list_elem_of_In in Ht. unfold collectRoots in Ht.
    apply list_elem_of_filter in Ht as [Hroot _].
    unfold isRoot in Hroot. now destruct (ParentID t).
  - right. assert (Hpf : In p (forest_nodes (buildCommentTree cs))).
    { apply in_forest_nodes. now exists t. }
    apply children_have_parents in Hpf. rewrite Forall_forall in Hpf.
    apply Hpf. now apply list_elem_of_In.
Qed.

End TreeTheorems.

Section TreeClaims.
Import CommentsService Samples.

Example thread_parents_first : parentsFirst thread.
Proof.
  intros i j c parent Hi Hj Hp.
  destruct i as [|[|[|i]]]; simpl in Hi; try discriminate;
    injection Hi as <-; simpl in Hp; try discriminate;
    destruct j as [|[|[|j]]]; simpl in Hj; try discriminate;
    injection Hj as <-; simpl in Hp; try discriminate; lia.
Qed.

(** C1 (orphan drop and completeness): the builder is meant to keep
    every record whose parent is null or present in the input, at any
    depth. On the thread [c1 <- c2 <- c3] given in creation order the
    reply [c3] to the present comment [c2] is lost: [c2] is copied under
    [c1] before [c3] is appended to slot 2, and the copy never sees it.
    The second version of the builder copies the root [c1] before any
    child is linked and loses [c2] as well. *)
Theorem buildCommentTree_loses_nested_reply :
  chronological thread
  /\ ParentID c3 = Some 2 /\ present thread 2
  /\ buildCommentTree thread = [setChildren c1 [c2]]
  /\ ~ In (record c3) (record <$> forest_nodes (buildCommentTree thread))
  /\ CommentsServiceModerated.buildCommentTree thread = [c1].
Proof.
  assert (Hrun : buildCommentTree thread = [setChildren c1 [c2]])
    by (vm_compute; reflexivity).
  refine (conj _ (conj eq_refl (conj _ (conj Hrun (conj _ _))))).
  - unfold chronological. simpl. repeat constructor; lia.
  - unfold present. simpl. tauto.
  - rewrite Hrun. simpl. intros [H | [H | []]]; discriminate H.
  - vm_compute. reflexivity.
Qed.

(** The third loop keeps the records without parent identifier, each as
    often and in the order in which the list has it. *)
Lemma collectRoots_keeps_order (l : list Comment) :
  collectRoots l = filter (fun c => ParentID c = None) l.
Proof.
  unfold collectRoots. induction l as [|c l IH]; [reflexivity|].
  rewrite !filter_cons, IH. unfold isRoot.
  destruct (ParentID c) as [pid|];
    repeat match goal with |- context [decide ?P] => destruct (decide P) end;
    congruence.
Qed.

(** C4 (order preservation): the records of the roots of the output are
    the input records whose parent identifier is null, one root for each
    such record and in input order; the children of every node of the
    output forest form a subsequence of the input, so that they are in
    non-decreasing order of creation time when the input is. *)
Theorem buildCommentTree_preserves_order (cs : list Comment) (n : Comment) :
  In n (forest_nodes (buildCommentTree cs)) ->
  record <$> buildCommentTree cs
  = filter (fun c => ParentID c = None) (record <$> cs)
  /\ sublist (record <$> Children n) (record <$> cs)
  /\ (chronological cs -> chronological (Children n)).
Proof.
  intros Hn. split; [|split].
  - unfold buildCommentTree. rewrite run_eq. simpl.
    now rewrite records_filter_roots, linked_records, collectRoots_keeps_order.
  - now apply children_follow_input.
  - apply chronological_sublist. now apply children_follow_input.
Qed.

Lemma buildCommentTree_preserves_order_witness :
  chronological threads
  /\ In (setChildren c1 [c2; c4; c9]) (forest_nodes (buildCommentTree threads))
  /\ record <$> buildCommentTree threads = [c1; c6; c8]
  /\ sublist (record <$> [c2; c4; c9]) (record <$> threads)
  /\ chronological [c2; c4; c9].
Proof.
  assert (Hin : In (setChildren c1 [c2; c4; c9])
                  (forest_nodes (buildCommentTree threads)))
    by (vm_compute; left; reflexivity).
  assert (Hs : chronological threads)
    by (unfold chronological; simpl; repeat constructor; lia).
  destruct (buildCommentTree_preserves_order threads _ Hin) as (H1 & H2 & H3).
  exact (conj Hs (conj Hin (conj (eq_trans H1 eq_refl) (conj H2 (H3 Hs))))).
Defined.

(** C5 (determinism, idempotence): two inputs with equal records give
    equal forests, and running the builder again on the slice it has
    just written through gives the same forest. *)
Theorem buildCommentTree_idempotent (cs1 cs2 : list Comment) :
  record <$> cs1 = record <$> cs2 ->
  buildCommentTree cs1 = buildCommentTree cs2
  /\ buildCommentTree (buildCommentTree_run cs1).1 = buildCommentTree cs1.
Proof.
  intros Hrec. unfold buildCommentTree. split.
  - now rewrite (run_ext cs1 cs2 Hrec).
  - now rewrite (run_ext _ cs1 (run_records cs1)).
Qed.

Lemma buildCommentTree_idempotent_witness :
  record <$> (buildCommentTree_run mixed).1 = record <$> mixed
  /\ buildCommentTree (buildCommentTree_run mixed).1 = buildCommentTree mixed
  /\ buildCommentTree
       (buildCommentTree_run (buildCommentTree_run mixed).1).1
     = buildCommentTree (buildCommentTree_run mixed).1.
Proof.
  assert (H : record <$> (buildCommentTree_run mixed).1 = record <$> mixed)
    by (vm_compute; reflexivity).
  split; [exact H|].
  exact (buildCommentTree_idempotent _ _ H).
Defined.

End TreeClaims.

Section TreeExtras.
Import CommentsService Samples.

Implicit Types (c n : Comment) (cs : list Comment).

Lemma init_map_complete cs (k p : nat) c :
  (k <= length cs)%nat -> (p < k)%nat -> cs !! p = Some c ->
  is_Some ((foldl initStep (cs, ∅) (seq 0 k)).2 !! ID c).
Proof.
  induction k as [|k IH]; intros Hk Hp Hc; [lia|].
  rewrite seq_S, foldl_snoc. unfold initStep at 1.
  rewrite init_slots by lia. simpl.
  destruct (lookup_lt_is_Some_2 cs k) as [ck Hck]; [lia|].
  rewrite list_lookup_alter_eq.
  rewrite lookup_app_r by (rewrite length_fmap, length_take; lia).
  rewrite length_fmap, length_take, Nat.min_l, Nat.sub_diag by lia.
  rewrite (drop_S _ _ _ Hck). simpl.
  destruct (decide (ID ck = ID c)) as [->|Hne].
  - rewrite lookup_insert_eq. now eexists.
  - rewrite lookup_insert_ne by assumption.
    destruct (decide (p = k)) as [->|Hpk]; [congruence|].
    apply IH; [lia | lia | assumption].
Qed.

(** With distinct identifiers the map sends an identifier to the one
    slot that has it. *)
Lemma commentMap_unique cs (p : nat) c :
  NoDup (ID <$> cs) -> cs !! p = Some c ->
  commentMapOf cs !! ID c = Some p.
Proof.
  intros Hnd Hc. unfold commentMapOf, indices.
  destruct (init_map_complete cs (length cs) p c) as [q Hq];
    [lia | now apply lookup_lt_Some in Hc | assumption |].
  rewrite Hq. f_equal.
  apply init_map_sound in Hq as [_ Hq]; [|lia].
  rewrite <- list_lookup_fmap in Hq.
  apply (NoDup_lookup _ _ _ _ Hnd Hq). now rewrite list_lookup_fmap, Hc.
Qed.

(** After [k] steps of the second loop, slot [p] holds copies of the
    records among the first [k] that target it, in input order. *)
Lemma link_children cs (k p : nat) slot :
  (k <= length cs)%nat ->
  foldl (linkStep (commentMapOf cs)) (record <$> cs) (seq 0 k) !! p = Some slot ->
  record <$> Children slot
  = record <$> filter (fun c => targetOf (commentMapOf cs) c = Some p) (take k cs).
Proof.
  revert slot. induction k as [|k IH]; intros slot Hk Hs.
  - simpl in Hs. apply list_lookup_fmap_Some in Hs as (c0 & -> & _). reflexivity.
  - rewrite seq_S, foldl_snoc in Hs. cbn [Nat.add] in Hs.
    set (cur := foldl (linkStep (commentMapOf cs)) (record <$> cs) (seq 0 k)) in *.
    destruct (lookup_lt_is_Some_2 cs k) as [c0 Hc0]; [lia|].
    assert (Hrec : record <$> cur = record <$> cs).
    { unfold cur. now rewrite link_records, records_idem. }
    assert (Hc : exists c, cur !! k = Some c /\ record c = record c0).
    { assert (H : (record <$> cur) !! k = (record <$> cs) !! k) by now rewrite Hrec.
      rewrite !list_lookup_fmap, Hc0 in H.
      destruct (cur !! k) as [c|]; [|discriminate].
      exists c. split; [reflexivity | simpl in H; congruence]. }
    destruct Hc as (c & Hc & Hrc).
    assert (Htarget : targetOf (commentMapOf cs) c = targetOf (commentMapOf cs) c0).
    { unfold targetOf. apply (f_equal ParentID) in Hrc. simpl in Hrc.
      now rewrite Hrc. }
    rewrite (take_S_r _ _ _ Hc0), filter_app, fmap_app.
    unfold linkStep in Hs. rewrite Hc in Hs. fold (targetOf (commentMapOf cs) c) in Hs.
    assert (Hstep :
      match targetOf (commentMapOf cs) c with
      | Some q => alter (fun parent => setChildren parent (Children parent ++ [c])) q cur
      | None => cur
      end !! p = Some slot).
    { unfold targetOf in *. destruct (ParentID c); exact Hs. }
    clear Hs. rewrite Htarget in Hstep.
    rewrite filter_cons, filter_nil.
    destruct (targetOf (commentMapOf cs) c0) as [q|] eqn:Hq.
    + destruct (decide (q = p)) as [->|Hne].
      * rewrite list_lookup_alter_eq in Hstep.
        destruct (cur !! p) as [parent|] eqn:Hparent; [|discriminate].
        injection Hstep as <-. simpl. rewrite fmap_app.
        rewrite (IH parent) by (try lia; reflexivity).
        rewrite decide_True by reflexivity. simpl. now rewrite Hrc.
      * rewrite list_lookup_alter_ne in Hstep by assumption.
        rewrite decide_False by congruence.
        rewrite (IH slot) by (try lia; assumption). simpl. now rewrite app_nil_r.
    + rewrite decide_False by discriminate.
      rewrite (IH slot) by (try lia; assumption). simpl. now rewrite app_nil_r.
Qed.

Lemma root_slot cs root :
  In root (buildCommentTree cs) ->
  exists (p : nat) c0, linkedOf cs !! p = Some root /\ cs !! p = Some c0
    /\ record root = record c0.
Proof.
  intros Hroot.
  unfold buildCommentTree in Hroot. rewrite run_eq in Hroot. simpl in Hroot.
  apply list_elem_of_In in Hroot. unfold collectRoots in Hroot.
  apply list_elem_of_filter in Hroot as [_ Hroot].
  apply list_elem_of_lookup in Hroot as [p Hp]. exists p.
  assert (H : (record <$> linkedOf cs) !! p = (record <$> cs) !! p)
    by now rewrite linked_records.
  rewrite !list_lookup_fmap, Hp in H.
  destruct (cs !! p) as [c0|]; [|discriminate].
  exists c0. repeat split; [assumption | simpl in H; congruence].
Qed.

Lemma forest_has_no_orphan_witness :
  In c4 (forest_nodes (buildCommentTree mixed))
  /\ (ParentID c4 = None \/ exists pid, ParentID c4 = Some pid /\ present mixed pid).
Proof.
  assert (Hin : In c4 (forest_nodes (buildCommentTree mixed)))
    by (vm_compute; right; right; left; reflexivity).
  exact (conj Hin (forest_has_no_orphan mixed c4 Hin)).
Defined.

Lemma parents_first_forest_is_flat_witness :
  parentsFirst thread
  /\ In (setChildren c1 [c2]) (buildCommentTree thread)
  /\ In c2 (Children (setChildren c1 [c2]))
  /\ Children c2 = [].
Proof.
  assert (Hroot : In (setChildren c1 [c2]) (buildCommentTree thread))
    by (vm_compute; left; reflexivity).
  assert (Hreply : In c2 (Children (setChildren c1 [c2])))
    by (left; reflexivity).
  exact (conj thread_parents_first (conj Hroot (conj Hreply
    (parents_first_forest_is_flat thread _ c2 thread_parents_first Hroot Hreply)))).
Defined.

(** X3 (direct replies of a root are all kept): when the identifiers of
    the input are distinct, the children of a root of the output are the
    records of the input that name the root as parent, in input order. *)
Theorem root_children_are_its_replies cs root :
  NoDup (ID <$> cs) ->
  In root (buildCommentTree cs) ->
  record <$> Children root = record <$> repliesTo (ID root) cs.
Proof.
  intros Hnd Hroot.
  destruct (root_slot cs root Hroot) as (p & c0 & Hp & Hc0 & Hrec).
  unfold linkedOf, indices in Hp.
  rewrite (link_children cs (length cs) p root (Nat.le_refl _) Hp), firstn_all.
  f_equal. unfold repliesTo. apply list_filter_iff. intros c.
  assert (Hid : ID root = ID c0) by (apply (f_equal ID) in Hrec; exact Hrec).
  unfold targetOf. destruct (ParentID c) as [pid|]; [|split; discriminate].
  split.
  - intros Hq. apply init_map_sound in Hq as [_ Hq]; [|reflexivity].
    rewrite Hc0 in Hq. simpl in Hq. congruence.
  - intros [= ->]. rewrite Hid. now apply commentMap_unique.
Qed.

Lemma root_children_are_its_replies_witness :
  NoDup (ID <$> mixed)
  /\ In (setChildren c1 [c2; c4]) (buildCommentTree mixed)
  /\ record <$> [c2; c4] = record <$> repliesTo 1 mixed.
Proof.
  assert (Hnd : NoDup (ID <$> mixed)) by (apply (bool_decide_unpack _); vm_compute; exact I).
  assert (Hroot : In (setChildren c1 [c2; c4]) (buildCommentTree mixed))
    by (vm_compute; left; reflexivity).
  exact (conj Hnd (conj Hroot (root_children_are_its_replies mixed _ Hnd Hroot))).
Defined.

(** *** The second version of the builder *)

Lemma alter_out_of_range (f : Comment -> Comment) (l : list Comment) (i : nat) :
  (length l <= i)%nat -> alter f i l = l.
Proof.
  revert i. induction l as [|x l IH]; intros i Hi; [reflexivity|].
  destruct i as [|i]; simpl in *; [lia|]. f_equal. apply IH. lia.
Qed.

Lemma moderated_initStep st (i : nat) :
  CommentsServiceModerated.initStep st i = initStep st i.
Proof.
  unfold CommentsServiceModerated.initStep, initStep.
  rewrite list_lookup_alter_eq.
  destruct (st.1 !! i) as [c|] eqn:Hc; simpl; [reflexivity|].
  destruct st as [l m]. simpl in *. f_equal.
  symmetry. apply alter_out_of_range. now apply lookup_ge_None.
Qed.

Lemma moderated_init cs :
  foldl CommentsServiceModerated.initStep (cs, ∅) (indices cs)
  = (record <$> cs, commentMapOf cs).
Proof.
  assert (H : forall l st, foldl CommentsServiceModerated.initStep st l
                           = foldl initStep st l).
  { induction l as [|i l IH]; intros st; [reflexivity|].
    simpl. now rewrite moderated_initStep, IH. }
  rewrite H. unfold commentMapOf.
  rewrite <- (init_slots_all cs). now destruct (foldl initStep _ _).
Qed.

Lemma moderated_loop cs (k : nat) :
  parentsFirst cs -> (k <= length cs)%nat ->
  let st := foldl (CommentsServiceModerated.treeStep (commentMapOf cs))
              (record <$> cs, []) (seq 0 k) in
  record <$> st.1 = record <$> cs
  /\ (forall (j : nat) c, (k <= j)%nat -> st.1 !! j = Some c -> Children c = [])
  /\ st.2 = collectRoots (record <$> take k cs).
Proof.
  intros Hpf. induction k as [|k IH]; intros Hk; cbv zeta.
  - simpl. split; [apply records_idem|]. split; [|reflexivity].
    intros j c _ Hj. apply list_lookup_fmap_Some in Hj as (c0 & -> & _).
    reflexivity.
  - destruct (IH ltac:(lia)) as (Hrec & Hlate & Hroots). clear IH.
    rewrite seq_S, foldl_snoc. cbn [Nat.add].
    destruct (foldl _ _ (seq 0 k)) as [cur roots]. simpl in *.
    destruct (lookup_lt_is_Some_2 cs k) as [c0 Hc0]; [lia|].
    assert (Hc : cur !! k = Some (record c0)).
    { assert (H : (record <$> cur) !! k = (record <$> cs) !! k) by now rewrite Hrec.
      rewrite !list_lookup_fmap, Hc0 in H.
      destruct (cur !! k) as [c|] eqn:Hck; [|discriminate].
      assert (Hch : Children c = []) by (apply (Hlate k); [lia | exact Hck]).
      assert (Hbare : c = record c).
      { destruct c as [id nid pid txt at_ ch]. simpl in Hch. now subst ch. }
      simpl in H. congruence. }
    unfold CommentsServiceModerated.treeStep. simpl. rewrite Hc. simpl.
    rewrite (take_S_r _ _ _ Hc0), fmap_app. unfold collectRoots in *.
    rewrite filter_app. simpl. rewrite filter_cons, filter_nil.
    change (isRoot (record c0)) with (isRoot c0). unfold isRoot.
    destruct (ParentID c0) as [pid|] eqn:Hpid.
    + rewrite decide_False by discriminate. rewrite app_nil_r.
      destruct (commentMapOf cs !! pid) as [p|] eqn:Hp; simpl.
      2:{ split; [assumption|]. split; [|assumption].
          intros j c Hj. apply Hlate. lia. }
      assert (Hlt : (p < k)%nat).
      { apply init_map_sound in Hp as [_ Hp]; [|reflexivity].
        destruct (cs !! p) as [parent|] eqn:Hparent; [|discriminate].
        injection Hp as <-. exact (Hpf k p c0 parent Hc0 Hparent Hpid). }
      split; [|split; [|assumption]].
      * rewrite <- Hrec.
        apply (alter_children_records cur p (fun parent => Children parent ++ [record c0])).
      * intros j c Hj Hx. rewrite list_lookup_alter_ne in Hx by lia.
        apply (Hlate j); [lia | exact Hx].
    + rewrite decide_True by reflexivity. rewrite Hroots.
      repeat split; [assumption|].
      intros j c Hj. apply Hlate. lia.
Qed.

(** X4 (the second builder returns bare roots): when every record comes
    after the records that have the identifier of its parent, the second
    version of the builder copies each root before any reply is linked to
    it: its output is the list of the root records, none with a child. *)
Theorem moderated_builder_returns_bare_roots cs :
  parentsFirst cs ->
  CommentsServiceModerated.buildCommentTree cs = collectRoots (record <$> cs).
Proof.
  intros Hpf.
  unfold CommentsServiceModerated.buildCommentTree,
    CommentsServiceModerated.buildCommentTree_run.
  rewrite moderated_init. simpl.
  destruct (moderated_loop cs (length cs) Hpf (Nat.le_refl _)) as (_ & _ & H).
  unfold indices. rewrite H. now rewrite firstn_all.
Qed.

Lemma moderated_builder_returns_bare_roots_witness :
  parentsFirst thread
  /\ CommentsServiceModerated.buildCommentTree thread
     = collectRoots (record <$> thread).
Proof.
  exact (conj thread_parents_first
           (moderated_builder_returns_bare_roots thread thread_parents_first)).
Defined.

End TreeExtras.


(** ** Standard-library functions *)

Section StringLemmas.

Lemma prefix_app (pre s : string) : String.prefix pre (pre ++ s) = true.
Proof.
  induction pre as [|a pre IH]; simpl; [now destruct s|].
  destruct (ascii_dec a a); [exact IH | contradiction].
Qed.

Lemma substring_all (s : string) : String.substring 0 (String.length s) s = s.
Proof. induction s as [|a s IH]; simpl; [reflexivity | now rewrite IH]. Qed.

Lemma substring_skip (pre s : string) (n : nat) :
  String.substring (String.length pre) n (pre ++ s) = String.substring 0 n s.
Proof. induction pre as [|a pre IH]; simpl; [reflexivity | exact IH]. Qed.

Lemma length_append (s1 s2 : string) :
  String.length (s1 ++ s2) = (String.length s1 + String.length s2)%nat.
Proof. induction s1 as [|a s1 IH]; simpl; [reflexivity | now rewrite IH]. Qed.

Lemma TrimPrefix_app (pre s : string) : Strings.TrimPrefix (pre ++ s) pre = s.
Proof.
  unfold Strings.TrimPrefix. rewrite prefix_app, substring_skip, length_append.
  replace (String.length pre + String.length s - String.length pre)%nat
    with (String.length s) by lia.
  apply substring_all.
Qed.

Lemma Atoi_Some_nonempty (s : string) (v : Z) :
  Strconv.Atoi s = Some v -> (0 < String.length s)%nat.
Proof. destruct s; [discriminate | simpl; lia]. Qed.

Lemma HasPrefix_spec (s sub : list rune) :
  Strings.HasPrefix s sub = true <-> exists post, s = sub ++ post.
Proof.
  revert s. induction sub as [|x sub IH]; intros s; simpl.
  - split; [intros _; now exists s | reflexivity].
  - destruct s as [|y s]; simpl.
    + split; [discriminate | intros [post H]; discriminate H].
    + rewrite andb_true_iff, Z.eqb_eq, IH. split.
      * intros [-> [post ->]]. now exists post.
      * intros [post [= -> ->]]. split; [reflexivity | now exists post].
Qed.

(** [strings.Contains] decides the occurrence of a substring. *)
Lemma Contains_spec (s sub : list rune) :
  Strings.Contains s sub = true <-> exists pre post, s = pre ++ sub ++ post.
Proof.
  induction s as [|y s IH].
  - simpl. rewrite orb_false_r, HasPrefix_spec. split.
    + intros [post H]. now exists [], post.
    + intros (pre & post & H). destruct pre; [now exists post|discriminate].
  - cbn [Strings.Contains]. rewrite orb_true_iff, HasPrefix_spec, IH. split.
    + intros [[post H] | (pre & post & H)].
      * now exists [], post.
      * exists (y :: pre), post. now rewrite H.
    + intros (pre & post & H). destruct pre as [|z pre].
      * left. now exists post.
      * right. injection H as _ H. now exists pre, post.
Qed.

End StringLemmas.

(** ** The gateway *)

Section GatewayLemmas.
Import Gateway.

Implicit Types (env : Backends) (r : Request) (requestID : string).

(** Every call of a trace carries the identifier [requestID]. *)
Abbreviation carry requestID :=
  (Forall (fun call => call_request_id call = requestID)).

Lemma Get_skip (entries rest : list (string * string)) (key : string) :
  Forall (fun kv => kv.1 <> key) entries ->
  Get (entries ++ rest) key = Get rest key.
Proof.
  induction 1 as [|[k v] entries Hk _ IH]; [reflexivity|].
  simpl in *. now apply String.eqb_neq in Hk as ->.
Qed.

Lemma forward_keys (query params : list (string * string)) (key k : string) :
  key <> k ->
  Forall (fun kv => kv.1 <> k) params ->
  Forall (fun kv => kv.1 <> k) (forward query key params).
Proof.
  intros Hne Hall. unfold forward, Add.
  destruct (String.eqb _ _); [assumption|].
  apply Forall_app. split; [assumption|]. now repeat constructor.
Qed.

Lemma Get_Add_fresh (params : list (string * string)) (key value : string) :
  Forall (fun kv => kv.1 <> key) params ->
  Get (Add params key value) key = value.
Proof.
  intros H. unfold Add. rewrite Get_skip by assumption.
  simpl. now rewrite String.eqb_refl.
Qed.

Lemma latest_calls env requestID r :
  carry requestID (latestNewsHandler env requestID r).2.
Proof.
  unfold latestNewsHandler. destruct (negb (isGet r)); [constructor|].
  repeat constructor. simpl. apply Get_Add_fresh.
  repeat (apply forward_keys; [discriminate|]). constructor.
Qed.

Lemma filter_calls env requestID r :
  carry requestID (filterNewsHandler env requestID r).2.
Proof.
  unfold filterNewsHandler. destruct (negb (isGet r)); [constructor|].
  repeat constructor. simpl. apply Get_Add_fresh.
  repeat (apply forward_keys; [discriminate|]). constructor.
Qed.

(** A byte that [QueryEscape] would escape does not occur in a plain
    text. *)
Lemma plain_without (s : string) (sep : ascii) :
  Url.plain s = true -> Url.shouldEscape sep = true ->
  Url.containsByte s sep = false.
Proof.
  intros Hs Hsep. induction s as [|c rest IH]; [reflexivity|].
  cbn [Url.plain Url.containsByte] in *.
  apply andb_prop in Hs as [Hc Hrest]. rewrite (IH Hrest), orb_false_r.
  destruct (Ascii.eqb_spec c sep) as [->|_]; [|reflexivity].
  rewrite Hsep in Hc. discriminate Hc.
Qed.

Lemma Cut_absent (s : string) (sep : ascii) :
  Url.containsByte s sep = false -> Url.Cut s sep = (s, EmptyString).
Proof.
  induction s as [|c rest IH]; [reflexivity|].
  cbn [Url.containsByte Url.Cut]. intros H.
  apply orb_false_elim in H as [-> Hrest]. now rewrite (IH Hrest).
Qed.

Lemma Split_absent (s : string) (sep : ascii) :
  Url.containsByte s sep = false -> Url.Split s sep = [s].
Proof.
  induction s as [|c rest IH]; [reflexivity|].
  cbn [Url.containsByte Url.Split]. intros H.
  apply orb_false_elim in H as [-> Hrest]. now rewrite (IH Hrest).
Qed.

Lemma QueryUnescape_plain (s : string) :
  Url.plain s = true -> Url.QueryUnescape s = Some s.
Proof.
  induction s as [|c rest IH]; [reflexivity|].
  cbn [Url.plain Url.QueryUnescape]. intros H.
  apply andb_prop in H as [Hc Hrest].
  destruct (Ascii.eqb_spec c "%") as [->|_]; [discriminate Hc|].
  destruct (Ascii.eqb_spec c "+") as [->|_]; [discriminate Hc|].
  now rewrite (IH Hrest).
Qed.

(** A plain identifier is read from the unescaped query as it is. *)
Lemma plain_read requestID :
  Url.plain requestID = true ->
  Get (Url.ParseQuery (sprintfQuery requestID)) "request_id" = requestID.
Proof.
  intros Hplain. unfold sprintfQuery, Url.ParseQuery.
  rewrite (Cut_absent requestID "#")
    by (apply plain_without; [assumption | reflexivity]).
  cbn [fst]. rewrite Split_absent.
  - cbn [flat_map]. unfold Url.setting.
    cbv [String.append]. cbn [Url.containsByte Ascii.eqb Bool.eqb orb].
    rewrite (plain_without requestID ";")
      by (assumption || reflexivity).
    cbn [String.eqb Url.Cut Ascii.eqb Bool.eqb].
    change (Url.QueryUnescape "request_id") with (Some "request_id"%string).
    rewrite (QueryUnescape_plain requestID Hplain).
    cbn [app Get]. now rewrite String.eqb_refl.
  - cbv [String.append]. cbn [Url.containsByte Ascii.eqb Bool.eqb orb].
    apply plain_without; [assumption | reflexivity].
Qed.

Lemma getComments_calls env requestID r :
  Url.plain requestID = true ->
  carry requestID (getCommentsHandler env requestID r).2.
Proof.
  intros Hplain. apply plain_read in Hplain. unfold getCommentsHandler.
  repeat match goal with
  | |- context [match ?x with _ => _ end] => destruct x
  end; repeat constructor; exact Hplain.
Qed.

Lemma detail_calls env (newsFirst : bool) requestID r :
  Url.plain requestID = true ->
  carry requestID (newsDetailHandler env newsFirst requestID r).2.
Proof.
  intros Hplain. apply plain_read in Hplain. unfold newsDetailHandler.
  destruct (negb (isGet r)); [constructor|].
  destruct (_ <=? _)%nat; [constructor|].
  destruct (Strconv.Atoi _) as [newsID|]; [|constructor].
  destruct newsFirst;
    match goal with
    | |- context [receive ?l ?n ?c] => destruct (receive l n c) as [e|[news comments]]
    end; repeat constructor; exact Hplain.
Qed.

Lemma addComment_calls env requestID r :
  Url.plain requestID = true ->
  carry requestID (addCommentHandler env requestID r).2.
Proof.
  intros Hplain. apply plain_read in Hplain. unfold addCommentHandler.
  repeat match goal with
  | |- context [match ?x with _ => _ end] => destruct x
  end; repeat constructor; exact Hplain.
Qed.

Lemma mux_calls env (newsFirst : bool) requestID r :
  Url.plain requestID = true ->
  carry requestID (mux env newsFirst requestID r).2.
Proof.
  intros Hplain. unfold mux, commentsHandler.
  repeat match goal with
  | |- context [if ?x then _ else _] => destruct x
  end;
    auto using latest_calls, filter_calls, getComments_calls, detail_calls,
      addComment_calls, Forall_nil_2.
Qed.

Lemma generateBytes_length (len : nat) (rnd : nat -> nat) :
  String.length (generateBytes len rnd).1 = len.
Proof.
  revert rnd. induction len as [|len IH]; intros rnd; [reflexivity|].
  cbn [generateBytes]. destruct (Intn rnd _) as [j rnd1].
  specialize (IH rnd1). destruct (generateBytes len rnd1) as [rest rnd2].
  simpl in *. now rewrite IH.
Qed.

End GatewayLemmas.

Section GatewayClaims.
Import Gateway Samples.

Implicit Types (env : Backends) (r : Request) (requestID : string).

Example generateRequestID_sample :
  (generateRequestID counter).1 = "dkryFMT0"%string.
Proof. vm_compute. reflexivity. Qed.

Example Atoi_samples :
  Strconv.Atoi "42" = Some 42 /\ Strconv.Atoi "-7" = Some (-7)
  /\ Strconv.Atoi "+5" = Some 5 /\ Strconv.Atoi "" = None
  /\ Strconv.Atoi "12a" = None /\ Strconv.Atoi "1_0" = None
  /\ Strconv.Atoi "9223372036854775807" = Some (2 ^ 63 - 1)
  /\ Strconv.Atoi "9223372036854775808" = None.
Proof. vm_compute. repeat split; reflexivity. Qed.

(** C2 (item not found): the detail handler is meant to answer 404 when
    the news service answers 404. The first goroutine turns that status
    into an error value with its own message, and the loop over the
    results writes every error with status 500: whatever the order of
    the results and whatever the comments call gives, the response to
    [GET /news/999999] is 500. *)
Theorem newsDetail_not_found_is_500 :
  forall (newsFirst : bool) (comments : HttpResult (list Comment))
    (body : option NewsFullDetailed) (requestID : string),
    (newsDetailHandler
       (backendsWith (HttpResponse 404 body) comments (TransportError ""))
       newsFirst requestID (getRequest "/news/999999" [])).1
    = httpError "новость не найдена" 500.
Proof.
  intros newsFirst comments body requestID.
  unfold newsDetailHandler, getRequest. simpl.
  destruct newsFirst; simpl.
  - reflexivity.
  - unfold fetchComments. simpl.
    destruct comments as [e|status decoded]; simpl; [reflexivity|].
    destruct (status =? 200); [destruct decoded|]; reflexivity.
Qed.

(** C3 (comment failures absorbed): when the item call of a detail
    request succeeds and the comments call fails in any way, the
    response is 200 with the six fields of the item as the news service
    gave them and an empty comment list, whatever comments the decoded
    item carried itself, in either order of arrival of the two results. *)
Theorem newsDetail_absorbs_comment_failure env (newsFirst : bool) requestID r
    (suffix : string) (newsID : Z) (news : NewsFullDetailed) :
  Method r = "GET"%string ->
  Path r = ("/news/" ++ suffix)%string ->
  Strconv.Atoi suffix = Some newsID ->
  newsByID env newsID requestID = HttpResponse 200 (Some news) ->
  commentsFailed (commentsByNews env newsID requestID) ->
  (newsDetailHandler env newsFirst requestID r).1
  = mkResponse 200
      (NewsDetailJSON
         (mkNewsFullDetailed (news_ID news) (news_Title news)
            (news_Content news) (news_Description news)
            (news_PubDate news) (news_Link news) [])).
Proof.
  intros Hm Hp Hid Hnews Hfail.
  unfold newsDetailHandler, isGet. rewrite Hm, Hp. simpl negb. cbv iota.
  rewrite (TrimPrefix_app "/news/" suffix), Hid.
  apply Atoi_Some_nonempty in Hid.
  destruct (Nat.leb_spec (String.length ("/news/" ++ suffix))
              (String.length "/news/")) as [Hle|_].
  { rewrite length_append in Hle. simpl in Hle. lia. }
  assert (Hc : fetchComments env newsID requestID
               = mkRequestResult (CommentsData []) None).
  { unfold fetchComments.
    destruct (commentsByNews env newsID requestID) as [e|status decoded];
      [reflexivity|].
    destruct (Z.eqb_spec status 200) as [->|_]; [|reflexivity].
    destruct Hfail as [H | ->]; [contradiction | reflexivity]. }
  assert (Hn : fetchNews env newsID requestID
               = mkRequestResult (NewsData news) None).
  { unfold fetchNews. now rewrite Hnews. }
  rewrite Hc, Hn. now destruct newsFirst.
Qed.

Lemma newsDetail_absorbs_comment_failure_witness :
  news_Comments item2 = [reply2]
  /\ (newsDetailHandler
        (backendsWith (HttpResponse 200 (Some item2)) (TransportError "timeout")
           (TransportError ""))
        false "abc" (getRequest "/news/2" [])).1
     = mkResponse 200
         (NewsDetailJSON (mkNewsFullDetailed 2 [84] [67] [69] 1500 [77] [])).
Proof.
  split; [reflexivity|].
  apply (newsDetail_absorbs_comment_failure _ false "abc" _ "2" 2 item2);
    [reflexivity | reflexivity | reflexivity | reflexivity | exact I].
Defined.

(** Both calls of a detail request, and only they, are sent. *)
Lemma newsDetail_sends_both_calls env (newsFirst : bool) requestID r
    (suffix : string) (newsID : Z) :
  Method r = "GET"%string ->
  Path r = ("/news/" ++ suffix)%string ->
  Strconv.Atoi suffix = Some newsID ->
  (newsDetailHandler env newsFirst requestID r).2
  = if newsFirst
    then [GetNewsByID newsID requestID; GetComments newsID requestID]
    else [GetComments newsID requestID; GetNewsByID newsID requestID].
Proof.
  intros Hm Hp Hid.
  unfold newsDetailHandler, isGet. rewrite Hm, Hp. simpl negb. cbv iota.
  rewrite (TrimPrefix_app "/news/" suffix), Hid.
  apply Atoi_Some_nonempty in Hid.
  destruct (Nat.leb_spec (String.length ("/news/" ++ suffix))
              (String.length "/news/")) as [Hle|_].
  { rewrite length_append in Hle. simpl in Hle. lia. }
  destruct newsFirst;
    match goal with
    | |- context [receive ?l ?n ?c] => destruct (receive l n c) as [e|[news comments]]
    end; reflexivity.
Qed.

(** C6 (correlation identifier): the identifier of the request is meant
    to reach every backend call unchanged. The list handlers add it to
    [url.Values] and write the query with [Encode], so that it does. The
    detail handler writes it into both of its URLs with [%s], unescaped:
    for [GET /news/1?request_id=a%26b%3D1], whose identifier is [a&b=1],
    both calls are sent on [...?request_id=a&b=1], and both services read
    the identifier [a]. The same request on [/news/latest] carries
    [a&b=1]. *)
Theorem request_id_cut_in_unescaped_url env (newsFirst : bool)
    (rnd : nat -> nat) :
  Get (Query tokenDetailRequest) "request_id" = "a&b=1"%string
  /\ (serve env newsFirst rnd tokenDetailRequest).1.2
     = (if newsFirst
        then [GetNewsByID 1 "a&b=1"; GetComments 1 "a&b=1"]
        else [GetComments 1 "a&b=1"; GetNewsByID 1 "a&b=1"])
  /\ Forall (fun call => call_request_id call = "a"%string)
       (serve env newsFirst rnd tokenDetailRequest).1.2
  /\ (serve env newsFirst rnd tokenListRequest).1.2
     = [GetNewsLatest [("request_id", "a&b=1")]%string]
  /\ Forall (fun call => call_request_id call = "a&b=1"%string)
       (serve env newsFirst rnd tokenListRequest).1.2.
Proof.
  assert (Hdetail : (serve env newsFirst rnd tokenDetailRequest).1.2
                    = (if newsFirst
                       then [GetNewsByID 1 "a&b=1"; GetComments 1 "a&b=1"]
                       else [GetComments 1 "a&b=1"; GetNewsByID 1 "a&b=1"])).
  { exact (newsDetail_sends_both_calls env newsFirst "a&b=1"
             tokenDetailRequest "1" 1 eq_refl eq_refl eq_refl). }
  assert (Hlist : (serve env newsFirst rnd tokenListRequest).1.2
                  = [GetNewsLatest [("request_id", "a&b=1")]%string])
    by reflexivity.
  split; [reflexivity|]. split; [exact Hdetail|]. split; [|split].
  - rewrite Hdetail. destruct newsFirst; repeat constructor.
  - exact Hlist.
  - rewrite Hlist. repeat constructor.
Qed.

(** C7, as stated, fails: a text of one space is empty after trimming,
    yet the gateway, which only compares the text with the empty string,
    sends it to the comments service; the 400 of the response is the
    status of that service, relayed. *)
Lemma addComment_blank_text_reaches_backend :
  Strings.TrimSpace (req_Text blankComment) = []
  /\ commentsHandler (serviceBackends blankComment) "abc"
       (postRequest [] blankComment)
     = (httpError "Ошибка сервиса комментариев" 400,
        [PostComment "abc" blankComment])
  /\ ~ ((commentsHandler (serviceBackends blankComment) "abc"
           (postRequest [] blankComment)).2 = []).
Proof.
  split; [reflexivity|]. split; [reflexivity|].
  intros H. discriminate H.
Qed.

(** C7 (amended): a [POST /comments] whose item identifier is not
    positive or whose text is the empty string is answered 400 without
    any backend call. *)
Theorem addComment_validates_locally env requestID r (body : CommentRequest) :
  Method r = "POST"%string ->
  Body r = Some body ->
  req_NewsID body <= 0 \/ req_Text body = [] ->
  StatusCode (commentsHandler env requestID r).1 = 400
  /\ (commentsHandler env requestID r).2 = [].
Proof.
  intros Hm Hb Hbad. unfold commentsHandler, addCommentHandler.
  rewrite Hm, Hb. simpl String.eqb. cbv iota.
  destruct (Z.leb_spec (req_NewsID body) 0) as [_|Hpos]; [now split|].
  destruct Hbad as [Hle | ->]; [lia | now split].
Qed.

Lemma addComment_validates_locally_witness :
  StatusCode (commentsHandler (serviceBackends noItemComment) "abc"
                (postRequest [] noItemComment)).1 = 400
  /\ (commentsHandler (serviceBackends noItemComment) "abc"
        (postRequest [] noItemComment)).2 = [].
Proof.
  apply (addComment_validates_locally _ _ _ noItemComment);
    [reflexivity | reflexivity | left; simpl; lia].
Defined.

(** C8, as stated, fails: a status other than 200 from the comments
    service is relayed as it is, here 503, not turned into 500. *)
Lemma getComments_relays_backend_status :
  (getCommentsHandler unavailableBackends "abc"
     (getRequest "/comments/1" [])).1
  = httpError "Ошибка сервиса комментариев" 503
  /\ StatusCode (getCommentsHandler unavailableBackends "abc"
                   (getRequest "/comments/1" [])).1 <> 500.
Proof. split; [reflexivity | discriminate]. Qed.

(** C8 (amended): for [GET /comments/{suffix}], a suffix that is not an
    integer gives 400 and no backend call; otherwise the one call is
    made, and the response is 500 on a transport error or on a 200 whose
    body does not decode, the status of the backend when that is not
    200, and 200 with the decoded forest otherwise. *)
Theorem getComments_outcomes env requestID r (suffix : string) :
  Method r = "GET"%string ->
  Path r = ("/comments/" ++ suffix)%string ->
  match Strconv.Atoi suffix with
  | None =>
      StatusCode (getCommentsHandler env requestID r).1 = 400
      /\ (getCommentsHandler env requestID r).2 = []
  | Some newsID =>
      (getCommentsHandler env requestID r).2 = [GetComments newsID requestID]
      /\ match commentsByNews env newsID requestID with
         | TransportError _ =>
             StatusCode (getCommentsHandler env requestID r).1 = 500
         | HttpResponse status None =>
             StatusCode (getCommentsHandler env requestID r).1
             = (if status =? 200 then 500 else status)
         | HttpResponse status (Some comments) =>
             (getCommentsHandler env requestID r).1
             = (if status =? 200 then mkResponse 200 (CommentsJSON comments)
                else httpError "Ошибка сервиса комментариев" status)
         end
  end.
Proof.
  intros Hm Hp. unfold getCommentsHandler, isGet.
  rewrite Hm, Hp. simpl negb. cbv iota.
  rewrite (TrimPrefix_app "/comments/" suffix).
  destruct (Nat.leb_spec (String.length ("/comments/" ++ suffix))
              (String.length "/comments/")) as [Hle|_].
  { rewrite length_append in Hle. simpl in Hle.
    destruct suffix; [now split | simpl in Hle; lia]. }
  destruct (Strconv.Atoi suffix) as [newsID|]; [|now split].
  destruct (commentsByNews env newsID requestID) as [e|status [comments|]];
    [now split | |]; destruct (status =? 200); now split.
Qed.

Lemma getComments_outcomes_witness :
  (getCommentsHandler unavailableBackends "abc"
     (getRequest "/comments/1" [])).2 = [GetComments 1 "abc"]
  /\ StatusCode (getCommentsHandler unavailableBackends "abc"
                   (getRequest "/comments/1" [])).1 = 503.
Proof.
  exact (getComments_outcomes unavailableBackends "abc"
           (getRequest "/comments/1" []) "1" eq_refl eq_refl).
Defined.

End GatewayClaims.

(** ** The censorship service *)

Section CensorshipClaims.
Import Censorship Samples.

(** [unicode.ToLower] leaves the six lower-case Cyrillic letters of the
    second forbidden word as they are. *)
Variable unicode_ToLower : rune -> rune.
Hypothesis lower_fixed : Forall (fun r => unicode_ToLower r = r) jcuken.

Lemma map_fixed (f : rune -> rune) (l : list rune) :
  Forall (fun r => f r = r) l -> map f l = l.
Proof.
  induction 1 as [|x l Hx _ IH]; [reflexivity | simpl; now rewrite Hx, IH].
Qed.

Lemma ToLower_forbidden (word : list rune) :
  In word forbiddenWords -> Strings.ToLower unicode_ToLower word = word.
Proof.
  intros [<- | [<- | [<- | []]]]; try reflexivity.
  unfold Strings.ToLower, Strings.Map.
  change (Strings.isASCII jcuken) with false. cbv iota.
  rewrite (map_fixed _ _ lower_fixed). reflexivity.
Qed.

Lemma checkWords_spec (textLower : list rune) (words : list (list rune)) :
  (forall word, In word words -> In word forbiddenWords) ->
  checkWords unicode_ToLower textLower words = true
  <-> forall word, In word words -> ~ Strings.occursIn word textLower.
Proof.
  induction words as [|word rest IH]; intros Hsub; simpl.
  - split; [intros _ word [] | reflexivity].
  - rewrite (ToLower_forbidden word) by (apply Hsub; now left).
    destruct (Strings.Contains textLower word) eqn:Hc.
    + apply Contains_spec in Hc. split; [discriminate|].
      intros H. exfalso. apply (H word); [now left | exact Hc].
    + rewrite IH by (intros w Hw; apply Hsub; now right). split.
      * intros H w [<- | Hw]; [|now apply H].
        intros Hocc. apply Contains_spec in Hocc. congruence.
      * intros H w Hw. apply H. now right.
Qed.

(** C10 (verdict of the censorship service): for a [POST /censor] whose
    text is not blank, the answer is 200 with [is_approved = true]
    exactly when no forbidden word occurs in the lower-cased text, and
    400 with [is_approved = false] exactly when one does. *)
Theorem censor_verdict (r : Request) (req : CensorshipRequest) :
  Method r = "POST"%string ->
  Body r = Some req ->
  Strings.TrimSpace (Text req) <> [] ->
  ((StatusCode (censorHandler unicode_ToLower r) = 200
    /\ approved (censorHandler unicode_ToLower r) = Some true)
   <-> forall word, In word forbiddenWords ->
         ~ Strings.occursIn word (Strings.ToLower unicode_ToLower (Text req)))
  /\ ((StatusCode (censorHandler unicode_ToLower r) = 400
       /\ approved (censorHandler unicode_ToLower r) = Some false)
      <-> exists word, In word forbiddenWords
            /\ Strings.occursIn word (Strings.ToLower unicode_ToLower (Text req))).
Proof.
  intros Hm Hb Htext. unfold censorHandler, checkText.
  rewrite Hm, Hb. simpl negb. cbv iota.
  destruct (Strings.TrimSpace (Text req)) as [|x t]; [contradiction|].
  pose proof (checkWords_spec (Strings.ToLower unicode_ToLower (Text req))
                forbiddenWords (fun _ H => H)) as Hspec.
  destruct (checkWords unicode_ToLower _ forbiddenWords) eqn:Hc; simpl.
  - assert (Hnone := proj1 Hspec eq_refl). split.
    + split; [intros _; exact Hnone | now split].
    + split; [intros [H _]; discriminate H|].
      intros (word & Hw & Hocc). now destruct (Hnone word Hw).
  - split.
    + split; [intros [H _]; discriminate H|].
      intros H. apply Hspec in H. discriminate H.
    + split; [intros _ | now split].
      clear Hspec. revert Hc. unfold checkWords, forbiddenWords.
      rewrite (ToLower_forbidden qwerty), (ToLower_forbidden jcuken),
        (ToLower_forbidden zxvbnm) by (simpl; tauto).
      repeat match goal with
      | |- context [Strings.Contains ?s ?w] =>
          let H := fresh "H" in
          destruct (Strings.Contains s w) eqn:H;
          [apply Contains_spec in H; intros _; exists w; split;
           [simpl; tauto | exact H] |]
      end.
      discriminate.
Qed.

End CensorshipClaims.

Lemma censor_verdict_witness :
  Strings.TrimSpace [81; 87; 69; 82; 84; 89; 33] <> []
  /\ Censorship.StatusCode (Censorship.censorHandler Censorship.sampleToLower Samples.shouting) = 400
  /\ Censorship.approved
       (Censorship.censorHandler Censorship.sampleToLower Samples.shouting)
     = Some false
  /\ Censorship.StatusCode (Censorship.censorHandler Censorship.sampleToLower Samples.greeting) = 200.
Proof.
  assert (Hfix : Forall (fun r => Censorship.sampleToLower r = r) Censorship.jcuken)
    by (repeat constructor).
  assert (Hne : Strings.TrimSpace [81; 87; 69; 82; 84; 89; 33] <> [])
    by (vm_compute; discriminate).
  assert (Hne' : Strings.TrimSpace [104; 101; 108; 108; 111] <> [])
    by (vm_compute; discriminate).
  pose proof (censor_verdict Censorship.sampleToLower Hfix Samples.shouting _
                eq_refl eq_refl Hne) as [_ Hbad].
  pose proof (censor_verdict Censorship.sampleToLower Hfix Samples.greeting _
                eq_refl eq_refl Hne') as [Hgood _].
  split; [exact Hne|].
  assert (Hocc : exists word, In word Censorship.forbiddenWords
            /\ Strings.occursIn word
                 (Strings.ToLower Censorship.sampleToLower [81; 87; 69; 82; 84; 89; 33])).
  { exists Censorship.qwerty. split; [now left|]. exists [], [33]. reflexivity. }
  destruct (proj2 Hbad Hocc) as [H400 Hfalse].
  split; [exact H400|]. split; [exact Hfalse|].
  reflexivity.
Defined.

(** ** Further properties of the gateway *)

Section GatewayExtras.
Import Gateway Samples.

Implicit Types (env : Backends) (r : Request) (requestID : string).

Lemma fetchComments_no_error env (newsID : Z) requestID :
  exists comments,
    fetchComments env newsID requestID = mkRequestResult (CommentsData comments) None.
Proof.
  unfold fetchComments.
  destruct (commentsByNews env newsID requestID) as [e|status [comments|]];
    [now exists [] | |]; destruct (status =? 200); eauto.
Qed.

Lemma fetchNews_cases env (newsID : Z) requestID :
  (exists e, fetchNews env newsID requestID = mkRequestResult NoData (Some e))
  \/ (exists news, fetchNews env newsID requestID
                   = mkRequestResult (NewsData news) None).
Proof.
  unfold fetchNews.
  destruct (newsByID env newsID requestID) as [e|status [news|]]; [eauto | |];
    destruct (status =? 200); simpl; try destruct (status =? 404); eauto.
Qed.

(** X5 (no race on the result): the response of a detail request does
    not depend on which of the two backend results is received first. *)
Theorem newsDetail_order_independent env requestID r :
  (newsDetailHandler env true requestID r).1
  = (newsDetailHandler env false requestID r).1.
Proof.
  unfold newsDetailHandler.
  destruct (negb (isGet r)); [reflexivity|].
  destruct (_ <=? _)%nat; [reflexivity|].
  destruct (Strconv.Atoi _) as [newsID|]; [|reflexivity].
  destruct (fetchComments_no_error env newsID requestID) as [comments ->].
  destruct (fetchNews_cases env newsID requestID) as [[e ->] | [news ->]];
    reflexivity.
Qed.

Lemma detail_path env (newsFirst : bool) requestID r (suffix : string) (newsID : Z) :
  Method r = "GET"%string ->
  Path r = ("/news/" ++ suffix)%string ->
  Strconv.Atoi suffix = Some newsID ->
  newsDetailHandler env newsFirst requestID r
  = let (results, calls) :=
      if newsFirst
      then ([fetchNews env newsID requestID; fetchComments env newsID requestID],
            [GetNewsByID newsID requestID; GetComments newsID requestID])
      else ([fetchComments env newsID requestID; fetchNews env newsID requestID],
            [GetComments newsID requestID; GetNewsByID newsID requestID]) in
    match receive results zeroNews [] with
    | inl e => (httpError e 500, calls)
    | inr (news, comments) =>
        (encodeOK (NewsDetailJSON (setComments news comments)), calls)
    end.
Proof.
  intros Hm Hp Hid.
  unfold newsDetailHandler, isGet. rewrite Hm, Hp. simpl negb. cbv iota.
  rewrite (TrimPrefix_app "/news/" suffix), Hid.
  apply Atoi_Some_nonempty in Hid.
  destruct (Nat.leb_spec (String.length ("/news/" ++ suffix))
              (String.length "/news/")) as [Hle|_]; [|reflexivity].
  rewrite length_append in Hle. simpl in Hle. lia.
Qed.

(** X6 (merge): when both calls of a detail request succeed, the
    response is 200 with the six fields of the item as the news service
    gave them and, as its comments, exactly the comments of the comments
    service, whatever comments the decoded item carried itself. *)
Theorem newsDetail_merges_item_and_comments env (newsFirst : bool) requestID r
    (suffix : string) (newsID : Z) (news : NewsFullDetailed)
    (comments : list Comment) :
  Method r = "GET"%string ->
  Path r = ("/news/" ++ suffix)%string ->
  Strconv.Atoi suffix = Some newsID ->
  newsByID env newsID requestID = HttpResponse 200 (Some news) ->
  commentsByNews env newsID requestID = HttpResponse 200 (Some comments) ->
  (newsDetailHandler env newsFirst requestID r).1
  = mkResponse 200
      (NewsDetailJSON
         (mkNewsFullDetailed (news_ID news) (news_Title news)
            (news_Content news) (news_Description news)
            (news_PubDate news) (news_Link news) comments)).
Proof.
  intros Hm Hp Hid Hnews Hcomments.
  rewrite (detail_path env newsFirst requestID r suffix newsID Hm Hp Hid).
  unfold fetchNews, fetchComments. rewrite Hnews, Hcomments.
  now destruct newsFirst.
Qed.

Lemma newsDetail_merges_item_and_comments_witness :
  news_Comments item2 = [reply2]
  /\ (newsDetailHandler
        (backendsWith (HttpResponse 200 (Some item2))
           (HttpResponse 200 (Some [reply1])) (TransportError ""))
        true "abc" (getRequest "/news/2" [])).1
     = mkResponse 200
         (NewsDetailJSON (mkNewsFullDetailed 2 [84] [67] [69] 1500 [77] [reply1])).
Proof.
  split; [reflexivity|].
  apply (newsDetail_merges_item_and_comments _ true "abc" _ "2" 2 item2 [reply1]);
    reflexivity.
Defined.

(** X7 (invalid identifier): a detail request whose path suffix is not
    an integer is answered 400 and reaches no backend. *)
Theorem newsDetail_rejects_bad_id env (newsFirst : bool) requestID r
    (suffix : string) :
  Method r = "GET"%string ->
  Path r = ("/news/" ++ suffix)%string ->
  Strconv.Atoi suffix = None ->
  StatusCode (newsDetailHandler env newsFirst requestID r).1 = 400
  /\ (newsDetailHandler env newsFirst requestID r).2 = [].
Proof.
  intros Hm Hp Hid.
  unfold newsDetailHandler, isGet. rewrite Hm, Hp. simpl negb. cbv iota.
  rewrite (TrimPrefix_app "/news/" suffix), Hid.
  destruct (_ <=? _)%nat; now split.
Qed.

Lemma newsDetail_rejects_bad_id_witness :
  StatusCode (newsDetailHandler unavailableBackends true "abc"
                (getRequest "/news/12x" [])).1 = 400
  /\ (newsDetailHandler unavailableBackends true "abc"
        (getRequest "/news/12x" [])).2 = [].
Proof.
  apply (newsDetail_rejects_bad_id _ true "abc" _ "12x"); reflexivity.
Defined.

(** X8 (item failures are all 500): whatever makes the item call of a
    detail request fail (transport, any status other than 200, a body that
    does not decode), the response is 500, in either order of arrival and
    whatever the comments call gives; both calls have been sent. *)
Theorem newsDetail_item_failure_is_500 env (newsFirst : bool) requestID r
    (suffix : string) (newsID : Z) :
  Method r = "GET"%string ->
  Path r = ("/news/" ++ suffix)%string ->
  Strconv.Atoi suffix = Some newsID ->
  newsFailed (newsByID env newsID requestID) ->
  StatusCode (newsDetailHandler env newsFirst requestID r).1 = 500
  /\ length (newsDetailHandler env newsFirst requestID r).2 = 2%nat.
Proof.
  intros Hm Hp Hid Hfail.
  rewrite (detail_path env newsFirst requestID r suffix newsID Hm Hp Hid).
  destruct (fetchComments_no_error env newsID requestID) as [comments ->].
  assert (He : exists e, fetchNews env newsID requestID
                         = mkRequestResult NoData (Some e)).
  { unfold fetchNews.
    destruct (newsByID env newsID requestID) as [e|status decoded]; [eauto|].
    destruct (Z.eqb_spec status 200) as [->|Hne]; simpl.
    - destruct Hfail as [H | ->]; [contradiction | eauto].
    - destruct (status =? 404); eauto. }
  destruct He as [e ->]. now destruct newsFirst.
Qed.

Lemma newsDetail_item_failure_is_500_witness :
  StatusCode (newsDetailHandler
                (backendsWith (HttpResponse 503 None) (HttpResponse 200 (Some [reply1]))
                   (TransportError ""))
                false "abc" (getRequest "/news/1" [])).1 = 500
  /\ length (newsDetailHandler
               (backendsWith (HttpResponse 503 None) (HttpResponse 200 (Some [reply1]))
                  (TransportError ""))
               false "abc" (getRequest "/news/1" [])).2 = 2%nat.
Proof.
  apply (newsDetail_item_failure_is_500 _ false "abc" _ "1" 1);
    [reflexivity | reflexivity | reflexivity | left; discriminate].
Defined.

Lemma Get_absent (params : list (string * string)) (key : string) :
  Forall (fun kv => kv.1 <> key) params -> Get params key = ""%string.
Proof.
  intros H. rewrite <- (app_nil_r params). now rewrite Get_skip.
Qed.

Lemma Get_snoc_other (params : list (string * string)) (key value k : string) :
  key <> k -> Get (params ++ [(key, value)]) k = Get params k.
Proof.
  intros Hne. induction params as [|[k' v'] params IH]; simpl.
  - now apply String.eqb_neq in Hne as ->.
  - now rewrite IH.
Qed.

Lemma Get_Add (params : list (string * string)) (key value k : string) :
  Forall (fun kv => kv.1 <> key) params ->
  Get (Add params key value) k = if String.eqb key k then value else Get params k.
Proof.
  intros Hfresh. destruct (String.eqb_spec key k) as [<-|Hne].
  - now apply Get_Add_fresh.
  - now apply Get_snoc_other.
Qed.

Lemma Get_forward (query params : list (string * string)) (key k : string) :
  Forall (fun kv => kv.1 <> key) params ->
  Get (forward query key params) k
  = if String.eqb key k then Get query key else Get params k.
Proof.
  intros Hfresh. unfold forward.
  destruct (String.eqb_spec (Get query key) "") as [Hempty|_].
  - destruct (String.eqb_spec key k) as [<-|_]; [|reflexivity].
    now rewrite Hempty, Get_absent.
  - now apply Get_Add.
Qed.

Ltac fresh_keys :=
  repeat (apply forward_keys; [discriminate|]); constructor.

Ltac compare_keys :=
  repeat match goal with
  | |- context [String.eqb ?a ?b] => destruct (String.eqb_spec a b); subst
  end; try reflexivity; try congruence.

(** X9 (what the list routes forward): the news service reads, from the
    call of [/news/latest] and of [/news/filter], the identifier of the
    request under [request_id], the inbound value of each copied parameter
    ([page], [s]; and also [q], [date_from], [date_to], [sort_by] for the
    filter), and nothing under any other key. *)
Theorem list_routes_forward_whitelist env requestID r :
  Method r = "GET"%string ->
  (exists params,
     (latestNewsHandler env requestID r).2 = [GetNewsLatest params]
     /\ forall key, Get params key = forwarded latestKeys (Query r) requestID key)
  /\ (exists params,
        (filterNewsHandler env requestID r).2 = [GetNewsFilter params]
        /\ forall key, Get params key = forwarded filterKeys (Query r) requestID key).
Proof.
  intros Hm. unfold latestNewsHandler, filterNewsHandler, isGet.
  rewrite Hm. simpl negb. cbv iota. split.
  - eexists. split; [reflexivity|]. intros key.
    rewrite Get_Add by fresh_keys.
    rewrite !Get_forward by fresh_keys.
    unfold forwarded, latestKeys, inKeys, existsb. simpl Get. compare_keys.
  - eexists. split; [reflexivity|]. intros key.
    rewrite Get_Add by fresh_keys.
    rewrite !Get_forward by fresh_keys.
    unfold forwarded, filterKeys, inKeys, existsb. simpl Get. compare_keys.
Qed.

Lemma list_routes_forward_whitelist_witness :
  exists params,
    (filterNewsHandler unavailableBackends "zzz"
       (getRequest "/news/filter"
          [("q", "go"); ("debug", "1"); ("request_id", "zzz"); ("page", "")]%string)).2
    = [GetNewsFilter params]
    /\ Get params "q" = "go"%string /\ Get params "debug" = ""%string
    /\ Get params "request_id" = "zzz"%string.
Proof.
  destruct (list_routes_forward_whitelist unavailableBackends "zzz"
              (getRequest "/news/filter"
                 [("q", "go"); ("debug", "1"); ("request_id", "zzz"); ("page", "")]%string)
              eq_refl) as [_ (params & Hcall & Hget)].
  exists params. split; [exact Hcall|].
  rewrite !Hget. repeat split; reflexivity.
Defined.

(** X10 (statuses are passed through): on every route that makes one
    backend call, a backend answer whose status is not the one the handler
    expects (200, or 201 for the creation of a comment) gives a response
    with that very status, and a call that fails at transport level gives
    500. *)
Theorem single_call_routes_relay_status env (newsFirst : bool) requestID r
    (call : OutboundCall) :
  (mux env newsFirst requestID r).2 = [call] ->
  match answerStatus env call with
  | None => StatusCode (mux env newsFirst requestID r).1 = 500
  | Some status =>
      status <> expectedStatus call ->
      StatusCode (mux env newsFirst requestID r).1 = status
  end.
Proof.
  unfold mux, commentsHandler.
  repeat match goal with
  | |- context [if ?x then _ else _] => destruct x
  end; try discriminate.
  - unfold latestNewsHandler. destruct (negb (isGet r)); [discriminate|].
    cbn [snd fst]. intros [= <-]. simpl.
    destruct (newsLatest env _) as [e|status decoded]; simpl; [reflexivity|].
    intros Hne. now apply Z.eqb_neq in Hne as ->.
  - unfold filterNewsHandler. destruct (negb (isGet r)); [discriminate|].
    cbn [snd fst]. intros [= <-]. simpl.
    destruct (newsFilter env _) as [e|status decoded]; simpl; [reflexivity|].
    intros Hne. now apply Z.eqb_neq in Hne as ->.
  - unfold addCommentHandler.
    destruct (Body r) as [commentReq|]; [|discriminate].
    destruct (_ <=? 0); [discriminate|].
    destruct (isEmpty _); [discriminate|].
    destruct (newRequestFails env requestID); [discriminate|].
    destruct (postComment env requestID commentReq) as [e|status decoded] eqn:Hpost.
    + intros [= <-]. simpl. now rewrite Hpost.
    + destruct (Z.eqb_spec status 201) as [->|Hne]; simpl.
      * destruct decoded; intros [= <-]; simpl; rewrite Hpost; simpl; congruence.
      * intros [= <-]. simpl. now rewrite Hpost.
  - unfold newsDetailHandler. destruct (negb (isGet r)); [discriminate|].
    destruct (_ <=? _)%nat; [discriminate|].
    destruct (Strconv.Atoi _) as [newsID|]; [|discriminate].
    destruct newsFirst;
      match goal with
      | |- context [receive ?l ?n ?c] => destruct (receive l n c) as [e|[news comments]]
      end; discriminate.
  - unfold getCommentsHandler. destruct (negb (isGet r)); [discriminate|].
    destruct (_ <=? _)%nat; [discriminate|].
    destruct (Strconv.Atoi _) as [newsID|]; [|discriminate].
    destruct (commentsByNews env newsID requestID) as [e|status decoded] eqn:Hget.
    + intros [= <-]. simpl. now rewrite Hget.
    + destruct (Z.eqb_spec status 200) as [->|Hne]; simpl.
      * destruct decoded; intros [= <-]; simpl; rewrite Hget; simpl; congruence.
      * intros [= <-]. simpl. now rewrite Hget.
Qed.

Lemma single_call_routes_relay_status_witness :
  (mux unavailableBackends true "abc" (getRequest "/comments/1" [])).2
  = [GetComments 1 "abc"]
  /\ StatusCode (mux unavailableBackends true "abc"
                   (getRequest "/comments/1" [])).1 = 503.
Proof.
  split; [reflexivity|].
  refine (single_call_routes_relay_status unavailableBackends true "abc"
            (getRequest "/comments/1" []) (GetComments 1 "abc") eq_refl _).
  discriminate.
Defined.

(** X11 (which requests reach a backend): the gateway calls a backend
    only for a GET, or for a POST on [/comments]; a request with any other
    method, or a POST elsewhere, is answered without any backend call. *)
Theorem only_get_and_post_comments_reach_backends env (newsFirst : bool)
    requestID r :
  (mux env newsFirst requestID r).2 <> [] ->
  Method r = "GET"%string
  \/ (Method r = "POST"%string /\ Path r = "/comments"%string).
Proof.
  unfold mux, commentsHandler.
  assert (Hget : forall (out : Response * list OutboundCall),
             (if negb (isGet r) then (httpError "Method not allowed" 405, [])
              else out).2 <> [] -> Method r = "GET"%string).
  { intros out. unfold isGet.
    destruct (String.eqb_spec (Method r) "GET"); [auto | simpl; congruence]. }
  destruct (String.eqb_spec (Path r) "/news/latest") as [_|_];
    [intros H; left; exact (Hget _ H)|].
  destruct (String.eqb_spec (Path r) "/news/filter") as [_|_];
    [intros H; left; exact (Hget _ H)|].
  destruct (String.eqb_spec (Path r) "/comments") as [Hpath|_].
  { destruct (String.eqb_spec (Method r) "POST"); [auto | simpl; congruence]. }
  destruct (String.prefix "/news/" (Path r));
    [intros H; left; exact (Hget _ H)|].
  destruct (String.prefix "/comments/" (Path r));
    [intros H; left; exact (Hget _ H)|].
  destruct (String.eqb (Path r) "/news"); simpl; congruence.
Qed.

Lemma only_get_and_post_comments_reach_backends_witness :
  (mux (commentsDeployment storingDatabase noTransport) true "abc"
     (postRequest [] plainComment)).2 <> []
  /\ (Method (postRequest [] plainComment) = "GET"%string
      \/ (Method (postRequest [] plainComment) = "POST"%string
          /\ Path (postRequest [] plainComment) = "/comments"%string)).
Proof.
  assert (H : (mux (commentsDeployment storingDatabase noTransport) true "abc"
                 (postRequest [] plainComment)).2 <> []) by discriminate.
  exact (conj H (only_get_and_post_comments_reach_backends _ _ _ _ H)).
Defined.

(** X12 (the gateway does not change the verdict on a new comment): in
    front of the comments service, for a request identifier made of
    letters, digits and [-], [_], [.], [~] only (one that needs no
    escaping in a URL), the status the gateway gives to a [POST /comments]
    is the status [createCommentHandler] gives to the same body, whether
    the gateway rejects the body itself or relays the answer. Nothing is
    said for other identifiers, which the gateway writes into the URL
    unescaped. *)
Theorem gateway_keeps_creation_status (db : CommentsService.Database)
    (other : Backends) requestID (query : list (string * string))
    (body : CommentRequest) :
  Url.plain requestID = true ->
  StatusCode (commentsHandler (commentsDeployment db other) requestID
                (postRequest query body)).1
  = (CommentsService.createCommentHandler db
       (Some (CommentsService.mkCommentRequest (req_NewsID body)
                (req_ParentID body) (req_Text body)))).1.
Proof.
  intros Hplain.
  unfold commentsHandler, addCommentHandler, postRequest. simpl.
  unfold Deployment.delivered. rewrite Hplain. simpl.
  unfold commentsServiceCreate.
  unfold CommentsService.createCommentHandler. simpl.
  destruct (req_NewsID body <=? 0); [reflexivity|].
  destruct (req_Text body) as [|x text] eqn:Htext; [reflexivity|]. simpl.
  destruct (Strings.TrimSpace (x :: text)); [reflexivity|].
  destruct (req_ParentID body) as [parentID|];
    [destruct (CommentsService.parentExists db parentID) as [[|]|]|];
    simpl; try reflexivity;
    (destruct (CommentsService.insertComment db _) as [commentID|]; [|reflexivity]);
    destruct (CommentsService.getCommentByID db commentID); reflexivity.
Qed.

Lemma gateway_keeps_creation_status_witness :
  StatusCode (commentsHandler (commentsDeployment storingDatabase noTransport)
                "req-7_a.b~" (postRequest [] plainComment)).1 = 201
  /\ StatusCode (commentsHandler (commentsDeployment storingDatabase noTransport)
                   "req-7_a.b~" (postRequest [] blankComment)).1 = 400.
Proof.
  split.
  - exact (gateway_keeps_creation_status storingDatabase noTransport
             "req-7_a.b~" [] plainComment eq_refl).
  - exact (gateway_keeps_creation_status storingDatabase noTransport
             "req-7_a.b~" [] blankComment eq_refl).
Defined.

Lemma string_get_in (s : string) (i : nat) (a : ascii) :
  String.get i s = Some a -> In a (list_ascii_of_string s).
Proof.
  revert i. induction s as [|b s IH]; intros i H; [discriminate|].
  destruct i as [|i]; simpl in *; [left; congruence | right; eauto].
Qed.

Lemma string_get_lt (s : string) (i : nat) :
  (i < String.length s)%nat -> exists a, String.get i s = Some a.
Proof.
  revert i. induction s as [|b s IH]; intros i H; simpl in *; [lia|].
  destruct i as [|i]; [eauto | apply IH; lia].
Qed.

Lemma generateBytes_spec (len : nat) (rnd : nat -> nat) :
  Forall (fun a => In a (list_ascii_of_string chars))
    (list_ascii_of_string (generateBytes len rnd).1)
  /\ forall k, (generateBytes len rnd).2 k = rnd (len + k)%nat.
Proof.
  revert rnd. induction len as [|len IH]; intros rnd.
  - split; [constructor | reflexivity].
  - cbn [generateBytes]. unfold Intn.
    specialize (IH (fun k => rnd (S k))).
    destruct (generateBytes len (fun k => rnd (S k))) as [rest rnd2].
    cbn [fst snd list_ascii_of_string] in *. destruct IH as [Hall Hnext]. split.
    + constructor; [|exact Hall].
      destruct (string_get_lt chars (rnd 0%nat mod String.length chars)) as [a Ha].
      { apply Nat.mod_upper_bound. discriminate. }
      unfold charAt. rewrite Ha. exact (string_get_in _ _ _ Ha).
    + intros k. rewrite Hnext. reflexivity.
Qed.

(** X13 (generated identifiers): an identifier made by
    [generateRequestID] has eight characters, each a letter or a digit of
    the alphabet [chars], and making it consumes exactly eight draws of
    the random source. *)
Theorem generateRequestID_alphanumeric (rnd : nat -> nat) :
  String.length (generateRequestID rnd).1 = 8%nat
  /\ Forall (fun a => In a (list_ascii_of_string chars))
       (list_ascii_of_string (generateRequestID rnd).1)
  /\ forall k, (generateRequestID rnd).2 k = rnd (8 + k)%nat.
Proof.
  unfold generateRequestID. split; [apply generateBytes_length|].
  apply generateBytes_spec.
Qed.

Lemma generateRequestID_spec (rnd : nat -> nat) :
  String.length (generateRequestID rnd).1 = 8%nat
  /\ Forall (fun a => In a (list_ascii_of_string chars))
       (list_ascii_of_string (generateRequestID rnd).1).
Proof.
  unfold generateRequestID. split; [apply generateBytes_length|].
  apply generateBytes_spec.
Qed.

Lemma splitComma_nonempty (s : string) : splitComma s <> [].
Proof.
  destruct s as [|a s]; simpl; [discriminate|].
  destruct (Ascii.eqb a ","); [discriminate|].
  destruct (splitComma s); discriminate.
Qed.

Lemma splitComma_first (s : string) :
  exists first others,
    splitComma s = first :: others
    /\ ~ In ","%char (list_ascii_of_string first)
    /\ (s = first \/ exists rest, s = (first ++ String "," rest)%string).
Proof.
  induction s as [|a s (first & others & Hsplit & Hno & Hpre)]; simpl.
  - exists EmptyString, []. repeat split; [intros [] | now left].
  - destruct (Ascii.eqb_spec a ",") as [->|Hne].
    + exists EmptyString, (splitComma s). repeat split; [intros [] |].
      right. now exists s.
    + rewrite Hsplit. exists (String a first), others. repeat split.
      * simpl. intros [H | H]; [congruence | contradiction].
      * destruct Hpre as [-> | [rest ->]]; [now left | right; now exists rest].
Qed.

(** X14 (client address for the log): [getClientIP] gives the remote
    address when there is no [X-Forwarded-For] header, and otherwise the
    part of the header before its first comma: a text without comma that
    is the whole header or is followed in it by a comma. *)
Theorem getClientIP_first_forwarded (forwardedFor remoteAddr : string) :
  (forwardedFor = ""%string -> getClientIP forwardedFor remoteAddr = remoteAddr)
  /\ (forwardedFor <> ""%string ->
      ~ In ","%char (list_ascii_of_string (getClientIP forwardedFor remoteAddr))
      /\ (forwardedFor = getClientIP forwardedFor remoteAddr
          \/ exists rest,
               forwardedFor
               = (getClientIP forwardedFor remoteAddr ++ String "," rest)%string)).
Proof.
  unfold getClientIP. split.
  - intros ->. reflexivity.
  - intros Hne. apply String.eqb_neq in Hne. rewrite Hne. simpl.
    destruct (splitComma_first forwardedFor) as (first & others & -> & Hno & Hpre).
    now split.
Qed.

Lemma getClientIP_first_forwarded_witness :
  getClientIP "" "10.0.0.7:5123" = "10.0.0.7:5123"%string
  /\ getClientIP "1.2.3.4, 10.0.0.1" "10.0.0.7:5123" = "1.2.3.4"%string
  /\ ~ In ","%char (list_ascii_of_string (getClientIP "1.2.3.4, 10.0.0.1" "10.0.0.7:5123")).
Proof.
  destruct (getClientIP_first_forwarded "" "10.0.0.7:5123") as [Hempty _].
  destruct (getClientIP_first_forwarded "1.2.3.4, 10.0.0.1" "10.0.0.7:5123")
    as [_ Hsome].
  split; [exact (Hempty eq_refl)|]. split; [reflexivity|].
  exact (proj1 (Hsome ltac:(discriminate))).
Defined.

(** The identifier the middleware hands to the routes. *)
Lemma serve_mux env (newsFirst : bool) (rnd : nat -> nat) r :
  (serve env newsFirst rnd r).1
  = mux env newsFirst
      (if String.eqb (Get (Query r) "request_id") ""
       then (generateRequestID rnd).1 else Get (Query r) "request_id") r.
Proof.
  unfold serve, requestIDMiddleware.
  destruct (String.eqb (Get (Query r) "request_id") ""); [|reflexivity].
  now destruct (generateRequestID rnd).
Qed.

Lemma plain_of_alphabet (s : string) :
  Forall (fun a => In a (list_ascii_of_string chars)) (list_ascii_of_string s) ->
  Url.plain s = true.
Proof.
  assert (Halphabet : Forall (fun a => Url.shouldEscape a = false)
                        (list_ascii_of_string chars))
    by (vm_compute; repeat constructor).
  induction s as [|a s IH]; [reflexivity|].
  cbn [list_ascii_of_string Url.plain]. intros Hall.
  apply Forall_cons_1 in Hall as [Ha Hall].
  rewrite (IH Hall), andb_true_r.
  rewrite Forall_forall in Halphabet.
  apply list_elem_of_In in Ha. now rewrite (Halphabet a Ha).
Qed.

(** A path [/news/{suffix}] with an integer suffix is routed to the
    detail handler. *)
Lemma mux_detail env (newsFirst : bool) requestID r (suffix : string) (newsID : Z) :
  Path r = ("/news/" ++ suffix)%string ->
  Strconv.Atoi suffix = Some newsID ->
  mux env newsFirst requestID r = newsDetailHandler env newsFirst requestID r.
Proof.
  intros Hp Hid. unfold mux. rewrite Hp.
  destruct (String.eqb_spec ("/news/" ++ suffix) "/news/latest") as [H|_].
  { cbv [String.append] in H. injection H as ->. discriminate Hid. }
  destruct (String.eqb_spec ("/news/" ++ suffix) "/news/filter") as [H|_].
  { cbv [String.append] in H. injection H as ->. discriminate Hid. }
  destruct (String.eqb_spec ("/news/" ++ suffix) "/comments") as [H|_].
  { cbv [String.append] in H. discriminate H. }
  now rewrite prefix_app.
Qed.

(** X23 (identifiers that need no escaping): when the [request_id] of
    the request is made of letters, digits and [-], [_], [.], [~] only, or
    is absent or empty, every backend call of the request is read by its
    service with one and the same identifier, which is not empty: the
    supplied one, or else the one [generateRequestID] draws; a detail
    request with an integer identifier sends exactly its two calls with
    it. *)
Theorem plain_request_id_reaches_every_call env (newsFirst : bool)
    (rnd : nat -> nat) r (token : string) :
  Url.plain (Get (Query r) "request_id") = true ->
  token = (if String.eqb (Get (Query r) "request_id") ""
           then (generateRequestID rnd).1 else Get (Query r) "request_id") ->
  token <> ""%string
  /\ Forall (fun call => call_request_id call = token)
       (serve env newsFirst rnd r).1.2
  /\ (forall (suffix : string) (newsID : Z),
        Method r = "GET"%string ->
        Path r = ("/news/" ++ suffix)%string ->
        Strconv.Atoi suffix = Some newsID ->
        (serve env newsFirst rnd r).1.2
        = if newsFirst
          then [GetNewsByID newsID token; GetComments newsID token]
          else [GetComments newsID token; GetNewsByID newsID token]).
Proof.
  intros Hplain Htoken. rewrite serve_mux, <- Htoken.
  assert (Hok : Url.plain token = true /\ token <> ""%string).
  { subst token.
    destruct (String.eqb_spec (Get (Query r) "request_id") "") as [_|Hne];
      [|now split].
    destruct (generateRequestID_spec rnd) as [Hlen Hall]. split.
    - now apply plain_of_alphabet.
    - intros Hempty. rewrite Hempty in Hlen. discriminate Hlen. }
  destruct Hok as [Hplain' Hne]. split; [exact Hne|]. split.
  - now apply mux_calls.
  - intros suffix newsID Hm Hp Hid.
    rewrite (mux_detail env newsFirst token r suffix newsID Hp Hid).
    now apply newsDetail_sends_both_calls with (suffix := suffix).
Qed.

Lemma plain_request_id_reaches_every_call_witness :
  (serve unavailableBackends true counter (getRequest "/news/1" [])).1.2
  = [GetNewsByID 1 "dkryFMT0"; GetComments 1 "dkryFMT0"]
  /\ Forall (fun call => call_request_id call = "req-7_a.b~"%string)
       (serve unavailableBackends false counter
          (postRequest [("request_id", "req-7_a.b~")]%string plainComment)).1.2
  /\ (serve unavailableBackends false counter
        (postRequest [("request_id", "req-7_a.b~")]%string plainComment)).1.2 <> [].
Proof.
  split; [|split].
  - exact (proj2 (proj2 (plain_request_id_reaches_every_call unavailableBackends
                           true counter (getRequest "/news/1" []) "dkryFMT0"
                           eq_refl eq_refl))
             "1"%string 1 eq_refl eq_refl eq_refl).
  - exact (proj1 (proj2 (plain_request_id_reaches_every_call unavailableBackends
                           false counter
                           (postRequest [("request_id", "req-7_a.b~")]%string
                              plainComment)
                           "req-7_a.b~" eq_refl eq_refl))).
  - discriminate.
Defined.

End GatewayExtras.

(** ** Identifiers across services *)

Section DecimalRoundTrip.

Lemma parseDigits_acc (d : Decimal.uint) (acc : positive) :
  Strconv.parseDigits (NilEmpty.string_of_uint d) (Z.pos acc)
  = Some (Z.pos (Pos.of_uint_acc d acc)).
Proof.
  revert acc. induction d as [|d IH|d IH|d IH|d IH|d IH|d IH|d IH|d IH|d IH|d IH];
    intros acc; [reflexivity|..];
    cbn [NilEmpty.string_of_uint Strconv.parseDigits Pos.of_uint_acc];
    change (Strconv.digitVal _) with (Some 0) || change (Strconv.digitVal _) with (Some 1)
    || change (Strconv.digitVal _) with (Some 2) || change (Strconv.digitVal _) with (Some 3)
    || change (Strconv.digitVal _) with (Some 4) || change (Strconv.digitVal _) with (Some 5)
    || change (Strconv.digitVal _) with (Some 6) || change (Strconv.digitVal _) with (Some 7)
    || change (Strconv.digitVal _) with (Some 8) || change (Strconv.digitVal _) with (Some 9);
    cbv iota; rewrite <- IH; f_equal; lia.
Qed.

Lemma parseDigits_zero (d : Decimal.uint) :
  Strconv.parseDigits (NilEmpty.string_of_uint d) 0
  = Some (Z.of_N (Pos.of_uint d)).
Proof.
  induction d as [|d IH|d IH|d IH|d IH|d IH|d IH|d IH|d IH|d IH|d IH];
    [reflexivity | exact IH |..];
    cbn [NilEmpty.string_of_uint Strconv.parseDigits Pos.of_uint];
    change (Strconv.digitVal _) with (Some 1) || change (Strconv.digitVal _) with (Some 2)
    || change (Strconv.digitVal _) with (Some 3) || change (Strconv.digitVal _) with (Some 4)
    || change (Strconv.digitVal _) with (Some 5) || change (Strconv.digitVal _) with (Some 6)
    || change (Strconv.digitVal _) with (Some 7) || change (Strconv.digitVal _) with (Some 8)
    || change (Strconv.digitVal _) with (Some 9);
    cbv iota; apply parseDigits_acc.
Qed.

Lemma parse_positive (p : positive) :
  Strconv.parseDigits (NilEmpty.string_of_uint (Pos.to_uint p)) 0 = Some (Z.pos p).
Proof. now rewrite parseDigits_zero, Unsigned.of_to. Qed.

Lemma digits_of_positive (p : positive) :
  exists a rest,
    NilZero.string_of_uint (Pos.to_uint p) = String a rest
    /\ NilEmpty.string_of_uint (Pos.to_uint p) = String a rest
    /\ a <> "+"%char /\ a <> "-"%char.
Proof.
  pose proof (Unsigned.to_uint_nonnil p) as Hnn.
  destruct (Pos.to_uint p); [contradiction|..];
    eexists; eexists; (split; [reflexivity|]); (split; [reflexivity|]);
    split; discriminate.
Qed.

Lemma Atoi_unsigned (a : ascii) (rest : string) :
  a <> "+"%char -> a <> "-"%char ->
  Strconv.Atoi (String a rest)
  = match Strconv.parseDigits (String a rest) 0 with
    | Some n =>
        if (Strconv.minInt <=? n) && (n <=? Strconv.maxInt) then Some n else None
    | None => None
    end.
Proof.
  intros Hplus Hminus. unfold Strconv.Atoi.
  destruct a as [[|] [|] [|] [|] [|] [|] [|] [|]]; try reflexivity; congruence.
Qed.

(** An [int] printed with [%d] is read back by [strconv.Atoi] as the
    same number. *)
Lemma Atoi_Itoa (z : Z) :
  Strconv.minInt <= z <= Strconv.maxInt ->
  Strconv.Atoi (Strconv.Itoa z) = Some z.
Proof.
  intros Hrange. unfold Strconv.Itoa.
  destruct z as [|p|p]; [reflexivity | |]; cbn [Z.to_int NilZero.string_of_int].
  - destruct (digits_of_positive p) as (a & rest & -> & Hd & Hplus & Hminus).
    rewrite (Atoi_unsigned a rest Hplus Hminus), <- Hd, parse_positive.
    destruct (Z.leb_spec Strconv.minInt (Z.pos p)); [|lia].
    destruct (Z.leb_spec (Z.pos p) Strconv.maxInt); [reflexivity | lia].
  - destruct (digits_of_positive p) as (a & rest & -> & Hd & _ & _).
    unfold Strconv.Atoi. rewrite <- Hd, parse_positive.
    change (- Z.pos p) with (Z.neg p).
    destruct (Z.leb_spec Strconv.minInt (Z.neg p)); [|lia].
    destruct (Z.leb_spec (Z.neg p) Strconv.maxInt); [reflexivity | lia].
Qed.

(** What [Atoi] accepts is within the range of [int]. *)
Lemma Atoi_range (s : string) (z : Z) :
  Strconv.Atoi s = Some z -> Strconv.minInt <= z <= Strconv.maxInt.
Proof.
  unfold Strconv.Atoi.
  destruct (match s with
            | String "+"%char r => (false, r)
            | String "-"%char r => (true, r)
            | _ => (false, s)
            end) as [neg body].
  destruct body; [discriminate|].
  destruct (Strconv.parseDigits _ 0) as [n|]; [|discriminate].
  destruct (Z.leb_spec Strconv.minInt (if neg then - n else n)); [|discriminate].
  destruct (Z.leb_spec (if neg then - n else n) Strconv.maxInt); [|discriminate].
  intros [= <-]. now split.
Qed.

End DecimalRoundTrip.

(** ** The services together *)

Section EndToEnd.
Import Gateway Deployment Samples.

Implicit Types (r : Request) (requestID : string).

Lemma Itoa_nonempty (z : Z) :
  Strconv.minInt <= z <= Strconv.maxInt -> (0 < String.length (Strconv.Itoa z))%nat.
Proof. intros H. apply (Atoi_Some_nonempty _ z). now apply Atoi_Itoa. Qed.

Lemma commentsAnswer_spec
    (rows : Z -> option (list CommentsService.Comment)) (newsID : Z) :
  Strconv.minInt <= newsID <= Strconv.maxInt ->
  commentsAnswer rows newsID
  = match rows newsID with
    | None => HttpResponse 500 None
    | Some comments =>
        HttpResponse 200
          (Some (decodeForest (CommentsService.buildCommentTree comments)))
    end.
Proof.
  intros Hrange. unfold commentsAnswer, CommentsService.getCommentsByNewsHandler.
  simpl negb. cbv iota.
  rewrite (TrimPrefix_app "/comments/" (Strconv.Itoa newsID)), Atoi_Itoa by assumption.
  destruct (Nat.leb_spec (String.length ("/comments/" ++ Strconv.Itoa newsID))
              (String.length "/comments/")) as [Hle|_].
  { pose proof (Itoa_nonempty newsID Hrange).
    rewrite length_append in Hle. simpl in Hle. lia. }
  now destruct (rows newsID).
Qed.

Lemma newsAnswer_spec (getNews : Z -> NewsService.RowResult) (newsID : Z) :
  Strconv.minInt <= newsID <= Strconv.maxInt ->
  newsAnswer getNews newsID
  = match getNews newsID with
    | NewsService.Row n => HttpResponse 200 (Some (decodeNews n))
    | NewsService.ErrNoRows => HttpResponse 404 None
    | NewsService.QueryError => HttpResponse 500 None
    end.
Proof.
  intros Hrange. unfold newsAnswer, NewsService.newsDetailHandler.
  simpl negb. cbv iota.
  pose proof (Itoa_nonempty newsID Hrange) as Hlen.
  destruct (Nat.ltb_spec (String.length ("/news/" ++ Strconv.Itoa newsID)) 7)
    as [Hlt|_].
  { rewrite length_append in Hlt. simpl in Hlt. lia. }
  replace (String.substring 6 _ ("/news/" ++ Strconv.Itoa newsID))
    with (Strconv.Itoa newsID).
  - rewrite Atoi_Itoa by assumption. now destruct (getNews newsID).
  - change 6%nat with (String.length "/news/") at 1.
    rewrite substring_skip, length_append.
    replace (String.length "/news/" + String.length (Strconv.Itoa newsID) - 6)%nat
      with (String.length (Strconv.Itoa newsID)) by (simpl; lia).
    now rewrite substring_all.
Qed.

(** X15 (listing, end to end): with the comments service behind the
    gateway, for a request identifier made of letters, digits and [-],
    [_], [.], [~] only (one that needs no escaping in a URL),
    [GET /comments/{id}] on the gateway answers 200 with the forest that
    [buildCommentTree] makes of the rows of that item, and 500 when the
    query on the database fails: the service reads from the URL the item
    identifier the gateway read from its own path. Nothing is said for
    other request identifiers, which the gateway writes into the URL
    unescaped. *)
Theorem listing_end_to_end (getNews : Z -> NewsService.RowResult)
    (rows : Z -> option (list CommentsService.Comment)) (other : Backends)
    requestID r (suffix : string) (newsID : Z) :
  Url.plain requestID = true ->
  Method r = "GET"%string ->
  Path r = ("/comments/" ++ suffix)%string ->
  Strconv.Atoi suffix = Some newsID ->
  (getCommentsHandler (services getNews rows other) requestID r).1
  = match rows newsID with
    | None => httpError "Ошибка сервиса комментариев" 500
    | Some comments =>
        mkResponse 200
          (CommentsJSON (decodeForest (CommentsService.buildCommentTree comments)))
    end.
Proof.
  intros Hplain Hm Hp Hid.
  unfold getCommentsHandler, isGet. rewrite Hm, Hp. simpl negb. cbv iota.
  rewrite (TrimPrefix_app "/comments/" suffix), Hid.
  destruct (Nat.leb_spec (String.length ("/comments/" ++ suffix))
              (String.length "/comments/")) as [Hle|_].
  { apply Atoi_Some_nonempty in Hid.
    rewrite length_append in Hle. simpl in Hle. lia. }
  simpl commentsByNews. unfold delivered. rewrite Hplain.
  rewrite (commentsAnswer_spec rows newsID (Atoi_range _ _ Hid)).
  now destruct (rows newsID).
Qed.

Lemma listing_end_to_end_witness :
  (getCommentsHandler
     (services (fun _ => NewsService.ErrNoRows) (fun _ => Some mixed) noTransport)
     "abc" (getRequest "/comments/7" [])).1
  = mkResponse 200
      (CommentsJSON (decodeForest (CommentsService.buildCommentTree mixed))).
Proof.
  exact (listing_end_to_end (fun _ => NewsService.ErrNoRows) (fun _ => Some mixed)
           noTransport "abc" (getRequest "/comments/7" []) "7" 7
           eq_refl eq_refl eq_refl eq_refl).
Defined.

(** X16 (detail, end to end): with both services behind the gateway,
    for a request identifier made of letters, digits and [-], [_], [.],
    [~] only (one that needs no escaping in a URL), [GET /news/{id}]
    answers 200 with the six fields of the row of the item and, as its
    comments, the forest built from the rows of its comments (no comments
    when their query fails), and 500 both when the item is not in the
    database and when its query fails. Nothing is said for other request
    identifiers, which the gateway writes into the URLs unescaped. *)
Theorem detail_end_to_end (getNews : Z -> NewsService.RowResult)
    (rows : Z -> option (list CommentsService.Comment)) (other : Backends)
    (newsFirst : bool) requestID r (suffix : string) (newsID : Z) :
  Url.plain requestID = true ->
  Method r = "GET"%string ->
  Path r = ("/news/" ++ suffix)%string ->
  Strconv.Atoi suffix = Some newsID ->
  (newsDetailHandler (services getNews rows other) newsFirst requestID r).1
  = match getNews newsID with
    | NewsService.Row n =>
        mkResponse 200
          (NewsDetailJSON
             (mkNewsFullDetailed (NewsService.ID n) (NewsService.Title n)
                (NewsService.Content n) (NewsService.Description n)
                (NewsService.PubDate n) (NewsService.Link n)
                match rows newsID with
                | Some comments =>
                    decodeForest (CommentsService.buildCommentTree comments)
                | None => []
                end))
    | NewsService.ErrNoRows => httpError "новость не найдена" 500
    | NewsService.QueryError =>
        httpError ("ошибка сервиса новостей: " ++ Strconv.Itoa 500) 500
    end.
Proof.
  intros Hplain Hm Hp Hid.
  rewrite (detail_path _ newsFirst requestID r suffix newsID Hm Hp Hid).
  unfold fetchNews, fetchComments. simpl newsByID. simpl commentsByNews.
  unfold delivered. rewrite Hplain.
  rewrite (commentsAnswer_spec rows newsID (Atoi_range _ _ Hid)).
  rewrite (newsAnswer_spec getNews newsID (Atoi_range _ _ Hid)).
  destruct (getNews newsID) as [n| |]; destruct (rows newsID) as [comments|];
    destruct newsFirst; reflexivity.
Qed.

Lemma detail_end_to_end_witness :
  decodeForest (CommentsService.buildCommentTree mixed) <> []
  /\ (newsDetailHandler
        (services (fun _ => NewsService.Row row7) (fun _ => Some mixed)
           noTransport)
        true "abc" (getRequest "/news/7" [])).1
     = mkResponse 200
         (NewsDetailJSON
            (mkNewsFullDetailed 7 [71; 111] [98; 111; 100; 121] [100] 1200
               [117; 114; 108]
               (decodeForest (CommentsService.buildCommentTree mixed))))
  /\ (newsDetailHandler
        (services (fun _ => NewsService.ErrNoRows) (fun _ => Some mixed)
           noTransport)
        false "abc" (getRequest "/news/7" [])).1
     = httpError "новость не найдена" 500.
Proof.
  split; [discriminate|]. split.
  - exact (detail_end_to_end (fun _ => NewsService.Row row7)
             (fun _ => Some mixed) noTransport true "abc"
             (getRequest "/news/7" []) "7" 7 eq_refl eq_refl eq_refl eq_refl).
  - exact (detail_end_to_end (fun _ => NewsService.ErrNoRows)
             (fun _ => Some mixed) noTransport false "abc"
             (getRequest "/news/7" []) "7" 7 eq_refl eq_refl eq_refl eq_refl).
Defined.

End EndToEnd.

(** ** The news service *)

Section NewsServiceExtras.
Import NewsService.

Lemma wrap64_small (z : Z) :
  - 2 ^ 63 <= z < 2 ^ 63 -> wrap64 z = z.
Proof.
  intros H. unfold wrap64. rewrite Z.mod_small; lia.
Qed.

Lemma wrap64_range (z : Z) : - 2 ^ 63 <= wrap64 z < 2 ^ 63.
Proof.
  unfold wrap64.
  pose proof (Z.mod_pos_bound (z + 2 ^ 63) (2 ^ 64) ltac:(lia)). lia.
Qed.

Lemma pageOf_range (pageParam : string) :
  1 <= pageOf pageParam <= Strconv.maxInt.
Proof.
  unfold pageOf. destruct (String.eqb pageParam "");
    [unfold Strconv.maxInt; lia|].
  destruct (Strconv.Atoi pageParam) as [page|] eqn:Hpage;
    [|unfold Strconv.maxInt; lia].
  apply Atoi_range in Hpage.
  destruct (Z.ltb_spec page 1); unfold Strconv.maxInt in *; lia.
Qed.

(** X17 (pages and offsets): the page of a list request is the [page]
    parameter when that is an integer of at least 1, and 1 in every other
    case (an integer below 1, or a text that is no integer); the offset
    given to the database is [15 * (page - 1)] up to page
    614891469123651721, and beyond that page the product wraps around and
    the offset is another number. *)
Theorem page_and_offset (pageParam : string) :
  1 <= pageOf pageParam
  /\ (forall n, Strconv.Atoi pageParam = Some n -> 1 <= n -> pageOf pageParam = n)
  /\ (forall n, Strconv.Atoi pageParam = Some n -> n < 1 -> pageOf pageParam = 1)
  /\ (Strconv.Atoi pageParam = None -> pageOf pageParam = 1)
  /\ (pageOf pageParam <= lastExactPage ->
      offsetOf (pageOf pageParam) = PER_PAGE * (pageOf pageParam - 1)
      /\ 0 <= offsetOf (pageOf pageParam))
  /\ (lastExactPage < pageOf pageParam ->
      offsetOf (pageOf pageParam) <> PER_PAGE * (pageOf pageParam - 1)).
Proof.
  pose proof (pageOf_range pageParam) as Hrange.
  split; [lia|]. split; [|split; [|split; [|split]]].
  - intros n Hn Hpos. unfold pageOf.
    destruct (String.eqb_spec pageParam "") as [->|_]; [discriminate Hn|].
    rewrite Hn. destruct (Z.ltb_spec n 1); [lia | reflexivity].
  - intros n Hn Hlow. unfold pageOf.
    destruct (String.eqb pageParam ""); [reflexivity|].
    rewrite Hn. destruct (Z.ltb_spec n 1); [reflexivity | lia].
  - intros Hn. unfold pageOf. rewrite Hn. now destruct (String.eqb pageParam "").
  - unfold lastExactPage, offsetOf, PER_PAGE, Strconv.maxInt in *.
    change ((2 ^ 63 - 1) / 15 + 1) with 614891469123651721.
    intros Hle. rewrite (wrap64_small (pageOf pageParam - 1)) by lia.
    rewrite wrap64_small by lia. lia.
  - unfold lastExactPage, offsetOf, PER_PAGE, Strconv.maxInt in *.
    change ((2 ^ 63 - 1) / 15 + 1) with 614891469123651721.
    intros Hlt.
    pose proof (wrap64_range (wrap64 (pageOf pageParam - 1) * 15)). lia.
Qed.

Lemma page_and_offset_witness :
  pageOf "3" = 3 /\ offsetOf (pageOf "3") = 30
  /\ pageOf "0" = 1 /\ pageOf "-3" = 1 /\ pageOf "abc" = 1.
Proof.
  destruct (page_and_offset "3") as (_ & Hvalue & _ & _ & Hoffset & _).
  assert (H3 : pageOf "3" = 3) by (apply Hvalue; [reflexivity | lia]).
  split; [exact H3|]. split.
  - rewrite (proj1 (Hoffset ltac:(rewrite H3; vm_compute; discriminate))), H3.
    reflexivity.
  - split; [|split].
    + destruct (page_and_offset "0") as (_ & _ & Hlow & _).
      apply (Hlow 0); [reflexivity | lia].
    + destruct (page_and_offset "-3") as (_ & _ & Hlow & _).
      apply (Hlow (-3)); [reflexivity | lia].
    + destruct (page_and_offset "abc") as (_ & _ & _ & Hnone & _).
      exact (Hnone eq_refl).
Defined.

Lemma addSearch_text (q1 q2 : string) (f1 f2 : Filter) :
  negb (String.eqb q1 "") = negb (String.eqb q2 "") ->
  conditions f1 = conditions f2 -> argIndex f1 = argIndex f2 ->
  conditions (addSearch q1 f1) = conditions (addSearch q2 f2)
  /\ argIndex (addSearch q1 f1) = argIndex (addSearch q2 f2).
Proof.
  intros Hq Hc Hi. unfold addSearch. rewrite Hq.
  destruct (negb (String.eqb q2 "")); simpl; now rewrite ?Hc, ?Hi.
Qed.

Lemma addDateFrom_text (parseDate : string -> option Z) (d1 d2 : string)
    (f1 f2 : Filter) :
  negb (String.eqb d1 "") && succeeded (parseDate d1)
  = negb (String.eqb d2 "") && succeeded (parseDate d2) ->
  conditions f1 = conditions f2 -> argIndex f1 = argIndex f2 ->
  conditions (addDateFrom parseDate d1 f1) = conditions (addDateFrom parseDate d2 f2)
  /\ argIndex (addDateFrom parseDate d1 f1) = argIndex (addDateFrom parseDate d2 f2).
Proof.
  intros Hd Hc Hi. unfold addDateFrom.
  destruct (negb (String.eqb d1 "")), (negb (String.eqb d2 ""));
    destruct (parseDate d1), (parseDate d2); simpl in *;
    try discriminate; now rewrite ?Hc, ?Hi.
Qed.

Lemma addDateTo_text (parseDate : string -> option Z) (d1 d2 : string)
    (f1 f2 : Filter) :
  negb (String.eqb d1 "") && succeeded (parseDate d1)
  = negb (String.eqb d2 "") && succeeded (parseDate d2) ->
  conditions f1 = conditions f2 -> argIndex f1 = argIndex f2 ->
  conditions (addDateTo parseDate d1 f1) = conditions (addDateTo parseDate d2 f2)
  /\ argIndex (addDateTo parseDate d1 f1) = argIndex (addDateTo parseDate d2 f2).
Proof.
  intros Hd Hc Hi. unfold addDateTo.
  destruct (negb (String.eqb d1 "")), (negb (String.eqb d2 ""));
    destruct (parseDate d1), (parseDate d2); simpl in *;
    try discriminate; now rewrite ?Hc, ?Hi.
Qed.

(** X18 (no text of the request in the SQL): the text of the two
    statements of [filterNews] only depends on whether there is a search
    text, on whether each date is given and parses, and on which of the
    three orders [sort_by] selects; the search text and the dates go to the
    database as arguments only. *)
Theorem filterNews_text_is_fixed (parseDate : string -> option Z)
    (q1 from1 to1 sort1 q2 from2 to2 sort2 : string)
    (limit1 offset1 limit2 offset2 : Z) :
  filterShape parseDate q1 from1 to1 sort1 = filterShape parseDate q2 from2 to2 sort2 ->
  countQuery (filterNewsStatements parseDate q1 from1 to1 sort1 limit1 offset1)
  = countQuery (filterNewsStatements parseDate q2 from2 to2 sort2 limit2 offset2)
  /\ newsQuery (filterNewsStatements parseDate q1 from1 to1 sort1 limit1 offset1)
     = newsQuery (filterNewsStatements parseDate q2 from2 to2 sort2 limit2 offset2).
Proof.
  unfold filterShape. intros [= Hq Hfrom Hto Hsort].
  destruct (addSearch_text q1 q2 (mkFilter [] [] 1) (mkFilter [] [] 1) Hq
              eq_refl eq_refl) as [Hc1 Hi1].
  destruct (addDateFrom_text parseDate from1 from2 _ _ Hfrom Hc1 Hi1) as [Hc2 Hi2].
  destruct (addDateTo_text parseDate to1 to2 _ _ Hto Hc2 Hi2) as [Hc3 Hi3].
  unfold filterNewsStatements, whereClauseOf.
  cbn [countQuery newsQuery]. rewrite Hc3, Hi3, Hsort. now split.
Qed.

Lemma filterNews_text_is_fixed_witness :
  filterShape Samples.sampleParseDate "go" "2025-07-01" "soon" "newest"
  = filterShape Samples.sampleParseDate "x' OR 1=1 --" "2025-07-01" "" ""
  /\ newsQuery (filterNewsStatements Samples.sampleParseDate
                  "go" "2025-07-01" "soon" "newest" 15 0)
     = newsQuery (filterNewsStatements Samples.sampleParseDate
                    "x' OR 1=1 --" "2025-07-01" "" "" 15 30).
Proof.
  assert (H : filterShape Samples.sampleParseDate "go" "2025-07-01" "soon" "newest"
              = filterShape Samples.sampleParseDate "x' OR 1=1 --" "2025-07-01" "" "")
    by reflexivity.
  exact (conj H (proj2 (filterNews_text_is_fixed Samples.sampleParseDate
                          _ _ _ _ _ _ _ _ 15 0 15 30 H))).
Defined.

(** X19 (what is stored from a feed): [saveNewsItem] sends at most one
    row to the database, and none when the title or the link is blank; the
    row has the trimmed title and link, both not empty, and its content is
    the trimmed content or, when that is blank, the trimmed description.
    The result is [true] only when the database reports a row inserted. *)
Theorem saveNewsItem_rows (parseRFC1123 parseRFC1123Z : string -> option Z)
    (now : Z) (exec : NewsRow -> option Z) (item : Item) :
  let out := saveNewsItem parseRFC1123 parseRFC1123Z now exec item in
  (length out.2 <= 1)%nat
  /\ Forall (fun row =>
               row_title row = Strings.TrimSpace (item_Title item)
               /\ row_link row = Strings.TrimSpace (item_Link item)
               /\ row_title row <> [] /\ row_link row <> []
               /\ row_content row
                  = match Strings.TrimSpace (item_Content item) with
                    | [] => Strings.TrimSpace (item_Description item)
                    | _ :: _ => Strings.TrimSpace (item_Content item)
                    end) out.2
  /\ (out.1 = true ->
      exists row affected, out.2 = [row] /\ exec row = Some affected /\ 0 < affected)
  /\ (Strings.TrimSpace (item_Title item) = []
      \/ Strings.TrimSpace (item_Link item) = [] -> out = (false, [])).
Proof.
  cbv zeta. unfold saveNewsItem.
  destruct (Strings.TrimSpace (item_Title item)) as [|t title] eqn:Ht.
  { simpl. split; [lia|]. split; [constructor|]. split; [discriminate | reflexivity]. }
  destruct (Strings.TrimSpace (item_Link item)) as [|l link] eqn:Hl.
  { simpl. split; [lia|]. split; [constructor|]. split; [discriminate | reflexivity]. }
  set (row := mkNewsRow _ _ _ _ _).
  assert (Hrow : row_title row = t :: title /\ row_link row = l :: link
                 /\ row_title row <> [] /\ row_link row <> []
                 /\ row_content row
                    = match Strings.TrimSpace (item_Content item) with
                      | [] => Strings.TrimSpace (item_Description item)
                      | _ :: _ => Strings.TrimSpace (item_Content item)
                      end).
  { subst row. simpl. repeat split; discriminate. }
  destruct (exec row) as [affected|] eqn:Hexec; simpl.
  - split; [lia|]. split; [now repeat constructor|]. split.
    + intros Hpos. exists row, affected. repeat split; [assumption | lia].
    + intros [H | H]; discriminate H.
  - split; [lia|]. split; [now repeat constructor|]. split.
    + discriminate.
    + intros [H | H]; discriminate H.
Qed.

Lemma saveNewsItem_rows_witness :
  (saveNewsItem Samples.sampleParseDate Samples.sampleParseDate 5 (fun _ => Some 1)
     Samples.feedEntry).1 = true
  /\ exists row affected,
       (saveNewsItem Samples.sampleParseDate Samples.sampleParseDate 5
          (fun _ => Some 1) Samples.feedEntry).2 = [row]
       /\ (fun _ : NewsRow => Some 1) row = Some affected /\ 0 < affected.
Proof.
  assert (H : (saveNewsItem Samples.sampleParseDate Samples.sampleParseDate 5
                 (fun _ => Some 1) Samples.feedEntry).1 = true)
    by (vm_compute; reflexivity).
  split; [exact H|].
  exact (proj1 (proj2 (proj2 (saveNewsItem_rows Samples.sampleParseDate
                                 Samples.sampleParseDate 5 (fun _ => Some 1)
                                 Samples.feedEntry))) H).
Defined.

End NewsServiceExtras.

(** ** The comments service *)

Section CommentsServiceExtras.
Import CommentsService.

(** X20 (when a comment is created): [createCommentHandler] answers 201
    only for a body that decodes, with a positive item identifier, a text
    that is not blank and, when a parent is named, a parent the database
    has; the comment of the response is the row read back under the
    identifier the insertion returned. *)
Theorem created_only_if_valid (db : Database) (body : option CommentRequest) :
  (createCommentHandler db body).1 = 201 ->
  exists req commentID comment,
    body = Some req
    /\ 0 < req_NewsID req
    /\ Strings.TrimSpace (req_Text req) <> []
    /\ (forall parentID, req_ParentID req = Some parentID ->
                         parentExists db parentID = Some true)
    /\ insertComment db req = Some commentID
    /\ getCommentByID db commentID = Some comment
    /\ (createCommentHandler db body).2 = CommentReply comment.
Proof.
  unfold createCommentHandler.
  destruct body as [req|]; [|discriminate].
  destruct (Z.leb_spec (req_NewsID req) 0) as [|Hpos]; [discriminate|].
  destruct (Strings.TrimSpace (req_Text req)) as [|x text] eqn:Htext; [discriminate|].
  assert (Hparent :
    (match req_ParentID req with
     | Some parentID =>
         match parentExists db parentID with Some true => true | _ => false end
     | None => true
     end) = true ->
    forall parentID, req_ParentID req = Some parentID ->
                     parentExists db parentID = Some true).
  { intros H parentID Hp. rewrite Hp in H.
    now destruct (parentExists db parentID) as [[|]|]. }
  destruct (match req_ParentID req with Some _ => _ | None => _ end) eqn:Hok;
    simpl; [|intros H; discriminate H].
  specialize (Hparent eq_refl).
  destruct (insertComment db req) as [commentID|] eqn:Hins;
    [|intros H; discriminate H].
  destruct (getCommentByID db commentID) as [comment|] eqn:Hget;
    [|intros H; discriminate H].
  intros _. exists req, commentID, comment.
  repeat split; auto; try lia. rewrite Htext. discriminate.
Qed.

Lemma created_only_if_valid_witness :
  (createCommentHandler Samples.storingDatabase
     (Some (mkCommentRequest 1 (Some 4) [111; 107]))).1 = 201
  /\ exists req commentID comment,
       Some (mkCommentRequest 1 (Some 4) [111; 107]) = Some req
       /\ 0 < req_NewsID req
       /\ Strings.TrimSpace (req_Text req) <> []
       /\ (forall parentID, req_ParentID req = Some parentID ->
                            parentExists Samples.storingDatabase parentID = Some true)
       /\ insertComment Samples.storingDatabase req = Some commentID
       /\ getCommentByID Samples.storingDatabase commentID = Some comment
       /\ (createCommentHandler Samples.storingDatabase
             (Some (mkCommentRequest 1 (Some 4) [111; 107]))).2
          = CommentReply comment.
Proof.
  assert (H : (createCommentHandler Samples.storingDatabase
                 (Some (mkCommentRequest 1 (Some 4) [111; 107]))).1 = 201)
    by reflexivity.
  exact (conj H (created_only_if_valid _ _ H)).
Defined.

End CommentsServiceExtras.

(** ** Further properties of the censorship service *)

Section CensorshipExtras.
Import Censorship.

(** [unicode.ToLower] agrees with the ASCII lowering on ASCII, gives a
    code point for a code point, and leaves the letters of the Cyrillic
    word as they are. *)
Variable unicode_ToLower : rune -> rune.
Hypothesis lower_ascii :
  forall r, 0 <= r < 128 -> unicode_ToLower r = Strings.asciiLower r.
Hypothesis lower_code_point : forall r, 0 <= r -> 0 <= unicode_ToLower r.
Hypothesis lower_fixed : Forall (fun r => unicode_ToLower r = r) jcuken.

Lemma ToLower_is_map (s : list rune) :
  Forall (fun r => 0 <= r) s ->
  Strings.ToLower unicode_ToLower s = map unicode_ToLower s.
Proof.
  intros Hs. unfold Strings.ToLower.
  destruct (Strings.isASCII s) eqn:Hascii.
  - unfold Strings.isASCII in Hascii. rewrite forallb_forall in Hascii.
    apply map_ext_in. intros r Hr. symmetry. apply lower_ascii.
    rewrite Forall_forall in Hs. specialize (Hs r (proj2 (list_elem_of_In _ _) Hr)).
    specialize (Hascii r Hr). apply Z.ltb_lt in Hascii. lia.
  - clear Hascii. unfold Strings.Map.
    induction Hs as [|r s Hr _ IH]; [reflexivity|].
    simpl. rewrite filter_cons, decide_True by now apply lower_code_point.
    now rewrite IH.
Qed.

Lemma checkText_false (text : list rune) :
  checkText unicode_ToLower text = false
  <-> exists word, In word forbiddenWords
        /\ Strings.occursIn word (Strings.ToLower unicode_ToLower text).
Proof.
  pose proof (checkWords_spec unicode_ToLower lower_fixed
                (Strings.ToLower unicode_ToLower text) forbiddenWords
                (fun _ H => H)) as Hspec.
  unfold checkText. split.
  - intros Hfalse. clear Hspec. revert Hfalse.
    unfold checkWords, forbiddenWords.
    rewrite (ToLower_forbidden unicode_ToLower lower_fixed qwerty),
      (ToLower_forbidden unicode_ToLower lower_fixed jcuken),
      (ToLower_forbidden unicode_ToLower lower_fixed zxvbnm) by (simpl; tauto).
    repeat match goal with
    | |- context [Strings.Contains ?s ?w] =>
        let H := fresh "H" in
        destruct (Strings.Contains s w) eqn:H;
        [apply Contains_spec in H; intros _; exists w; split;
         [simpl; tauto | exact H] |]
    end.
    discriminate.
  - intros (word & Hw & Hocc).
    destruct (checkWords unicode_ToLower _ forbiddenWords) eqn:Hc; [|reflexivity].
    exfalso. exact (proj1 Hspec eq_refl word Hw Hocc).
Qed.

(** X21 (a rejected text stays rejected inside a longer one): when
    [checkText] rejects a text, it rejects every text that contains it,
    whatever is put before and after. *)
Theorem checkText_rejects_every_extension (before text after : list rune) :
  Forall (fun r => 0 <= r) (before ++ text ++ after) ->
  checkText unicode_ToLower text = false ->
  checkText unicode_ToLower (before ++ text ++ after) = false.
Proof.
  intros Hcp Hrejected.
  assert (Htext : Forall (fun r => 0 <= r) text).
  { apply Forall_app in Hcp as [_ Hcp]. now apply Forall_app in Hcp as [Hcp _]. }
  apply checkText_false in Hrejected as (word & Hw & pre & post & Hocc).
  apply checkText_false. exists word. split; [assumption|].
  rewrite ToLower_is_map in * by assumption.
  rewrite !map_app, Hocc.
  exists (map unicode_ToLower before ++ pre), (post ++ map unicode_ToLower after).
  now rewrite <- !app_assoc.
Qed.

End CensorshipExtras.

Lemma sampleToLower_ascii (r : rune) :
  0 <= r < 128 -> Censorship.sampleToLower r = Strings.asciiLower r.
Proof.
  intros Hr. unfold Censorship.sampleToLower, Strings.asciiLower.
  destruct ((65 <=? r) && (r <=? 90)); [reflexivity|].
  destruct (Z.leb_spec 1040 r); [lia|]. simpl.
  destruct (Z.leb_spec 1024 r); [lia|]. reflexivity.
Qed.

Lemma sampleToLower_code_point (r : rune) :
  0 <= r -> 0 <= Censorship.sampleToLower r.
Proof.
  intros Hr. unfold Censorship.sampleToLower.
  repeat match goal with
  | |- context [if ?b then _ else _] => destruct b
  end; lia.
Qed.

Lemma checkText_rejects_every_extension_witness :
  Censorship.checkText Censorship.sampleToLower [81; 87; 69; 82; 84; 89] = false
  /\ Censorship.checkText Censorship.sampleToLower
       ([111; 104; 32] ++ [81; 87; 69; 82; 84; 89] ++ [33]) = false.
Proof.
  assert (Hfix : Forall (fun r => Censorship.sampleToLower r = r) Censorship.jcuken)
    by (repeat constructor).
  assert (Hcp : Forall (fun r => 0 <= r)
                  ([111; 104; 32] ++ [81; 87; 69; 82; 84; 89] ++ [33]))
    by (repeat constructor; lia).
  assert (Hrej : Censorship.checkText Censorship.sampleToLower
                   [81; 87; 69; 82; 84; 89] = false)
    by (vm_compute; reflexivity).
  exact (conj Hrej
           (checkText_rejects_every_extension Censorship.sampleToLower
              sampleToLower_ascii sampleToLower_code_point Hfix
              [111; 104; 32] [81; 87; 69; 82; 84; 89] [33] Hcp Hrej)).
Defined.

(** ** No record twice in the forest *)

Section ForestNoDup.
Import CommentsService.

Implicit Types (c : Comment) (cs cur : list Comment).

Lemma climbs_le cs (i j : nat) : climbs cs i j -> (i <= j)%nat.
Proof. induction 1; lia. Qed.

Lemma climbs_snoc cs (i j k : nat) :
  climbs cs i j -> targetAt cs j = Some k -> (j < k)%nat -> climbs cs i k.
Proof.
  induction 1 as [i|i i' j Ht Hlt _ IH]; intros Hk Hjk.
  - eapply climbs_up; [eassumption | assumption | constructor].
  - eapply climbs_up; [eassumption | assumption | now apply IH].
Qed.

Lemma climbs_comparable cs (i j j' : nat) :
  climbs cs i j -> climbs cs i j' -> climbs cs j j' \/ climbs cs j' j.
Proof.
  induction 1 as [i|i i1 j Ht Hlt Hc IH]; intros H'; [now left|].
  inversion H' as [|? i2 ? Ht' Hlt' Hc']; subst.
  - right. eapply climbs_up; eassumption.
  - rewrite Ht in Ht'. injection Ht' as <-. now apply IH.
Qed.

Lemma climbs_from_root cs (i j : nat) :
  targetAt cs i = None -> climbs cs i j -> j = i.
Proof. intros Hroot H. inversion H; subst; [reflexivity | congruence]. Qed.

Lemma descendantIDs_snoc (slot c : Comment) :
  descendantIDs (setChildren slot (Children slot ++ [c]))
  = descendantIDs slot ++ ID c :: descendantIDs c.
Proof.
  unfold descendantIDs. simpl. rewrite forest_nodes_app, fmap_app.
  f_equal. unfold forest_nodes at 1. simpl. rewrite app_nil_r, nodes_unfold.
  reflexivity.
Qed.

Lemma targetOf_record m c1 c2 :
  record c1 = record c2 -> targetOf m c1 = targetOf m c2.
Proof.
  intros H. apply (f_equal ParentID) in H. simpl in H. unfold targetOf.
  now rewrite H.
Qed.

Lemma slot_of_record cs cur (p : nat) slot :
  record <$> cur = record <$> cs -> cur !! p = Some slot ->
  exists cp, cs !! p = Some cp /\ record slot = record cp.
Proof.
  intros Hrec Hp.
  assert (H : (record <$> cur) !! p = (record <$> cs) !! p) by now rewrite Hrec.
  rewrite !list_lookup_fmap, Hp in H.
  destruct (cs !! p) as [cp|]; [|discriminate].
  exists cp. split; [reflexivity | simpl in H; congruence].
Qed.

Lemma link_step_slot cs cur (k : nat) c :
  record <$> cur = record <$> cs -> cur !! k = Some c ->
  forall (p : nat) slot',
    linkStep (commentMapOf cs) cur k !! p = Some slot' ->
    (targetAt cs k = Some p
     /\ exists slot, cur !! p = Some slot
                     /\ slot' = setChildren slot (Children slot ++ [c]))
    \/ (targetAt cs k <> Some p /\ cur !! p = Some slot').
Proof.
  intros Hrec Hc p slot' Hs.
  destruct (slot_of_record cs cur k c Hrec Hc) as (ck & Hck & Hrc).
  assert (Ht : targetAt cs k = targetOf (commentMapOf cs) c).
  { unfold targetAt. rewrite Hck. symmetry. now apply targetOf_record. }
  unfold linkStep in Hs. rewrite Hc in Hs.
  assert (Hstep :
    match targetOf (commentMapOf cs) c with
    | Some q => alter (fun parent => setChildren parent (Children parent ++ [c])) q cur
    | None => cur
    end !! p = Some slot').
  { unfold targetOf. destruct (ParentID c); exact Hs. }
  clear Hs. rewrite <- Ht in Hstep.
  destruct (targetAt cs k) as [q|]; [|right; split; [discriminate | exact Hstep]].
  destruct (decide (q = p)) as [->|Hne].
  - left. split; [reflexivity|].
    rewrite list_lookup_alter_eq in Hstep.
    destruct (cur !! p) as [slot|]; [|discriminate].
    exists slot. split; [reflexivity|]. simpl in Hstep. congruence.
  - right. rewrite list_lookup_alter_ne in Hstep by assumption.
    split; [congruence | exact Hstep].
Qed.

(** What the second loop keeps after [k] steps, for distinct
    identifiers: a node below slot [p] is the copy of a record that
    climbs to a record appended to [p] before step [k]; and the
    identifiers below a slot not yet visited, or below a root, are
    distinct. *)
Lemma link_distinct cs (k : nat) :
  NoDup (ID <$> cs) -> (k <= length cs)%nat ->
  let cur := foldl (linkStep (commentMapOf cs)) (record <$> cs) (seq 0 k) in
  (forall (p : nat) slot x,
      cur !! p = Some slot -> x ∈ descendantIDs slot ->
      exists (i j : nat) ci,
        cs !! i = Some ci /\ ID ci = x /\ climbs cs i j
        /\ targetAt cs j = Some p /\ (j < k)%nat)
  /\ (forall (p : nat) slot,
        cur !! p = Some slot -> (k <= p)%nat \/ targetAt cs p = None ->
        NoDup (descendantIDs slot)).
Proof.
  intros Hnd. induction k as [|k IH]; intros Hk; cbv zeta.
  - simpl. split.
    + intros p slot x Hp Hx.
      apply list_lookup_fmap_Some in Hp as (c0 & -> & _).
      unfold descendantIDs in Hx. simpl in Hx. now apply elem_of_nil in Hx.
    + intros p slot Hp _.
      apply list_lookup_fmap_Some in Hp as (c0 & -> & _). constructor.
  - destruct (IH ltac:(lia)) as [HA HB]. clear IH.
    rewrite seq_S, foldl_snoc. cbn [Nat.add].
    set (cur := foldl (linkStep (commentMapOf cs)) (record <$> cs) (seq 0 k)) in *.
    assert (Hrec : record <$> cur = record <$> cs).
    { unfold cur. now rewrite link_records, records_idem. }
    destruct (lookup_lt_is_Some_2 cur k) as [c Hc].
    { rewrite <- (length_fmap record), Hrec, length_fmap. lia. }
    destruct (slot_of_record cs cur k c Hrec Hc) as (ck & Hck & Hrc).
    assert (Hidc : ID c = ID ck) by (apply (f_equal ID) in Hrc; exact Hrc).
    pose proof (link_step_slot cs cur k c Hrec Hc) as Hstep.
    split.
    + intros p slot' x Hp Hx.
      destruct (Hstep p slot' Hp) as [(Ht & slot & Hslot & ->) | (_ & Hslot)].
      * rewrite descendantIDs_snoc in Hx.
        apply elem_of_app in Hx as [Hx | Hx].
        { destruct (HA p slot x Hslot Hx) as (i & j & ci & Hi & Hid & Hcl & Htj & Hjk).
          exists i, j, ci.
          refine (conj Hi (conj Hid (conj Hcl (conj Htj _)))). lia. }
        apply elem_of_cons in Hx as [-> | Hx].
        { exists k, k, ck.
          refine (conj Hck (conj (eq_sym Hidc) (conj (climbs_here cs k) (conj Ht _)))).
          lia. }
        destruct (HA k c x Hc Hx) as (i & j & ci & Hi & Hid & Hclimb & Htj & Hjk).
        exists i, k, ci.
        refine (conj Hi (conj Hid (conj _ (conj Ht _)))); [|lia].
        eapply climbs_snoc; eassumption.
      * destruct (HA p slot' x Hslot Hx) as (i & j & ci & Hi & Hid & Hcl & Htj & Hjk).
        exists i, j, ci.
        refine (conj Hi (conj Hid (conj Hcl (conj Htj _)))). lia.
    + intros p slot' Hp Hcase.
      destruct (Hstep p slot' Hp) as [(Ht & slot & Hslot & ->) | (_ & Hslot)].
      2:{ apply (HB p slot' Hslot). destruct Hcase; [left; lia | now right]. }
      assert (Hpk : p <> k).
      { intros ->. destruct Hcase as [Hlt | Hroot]; [lia | congruence]. }
      rewrite descendantIDs_snoc. apply NoDup_app. split; [|split].
      * apply (HB p slot Hslot). destruct Hcase; [left; lia | now right].
      * intros x Hold Hnew.
        destruct (HA p slot x Hslot Hold)
          as (i & j & ci & Hi & Hid & Hclimb & Htj & Hjk).
        pose proof (climbs_le _ _ _ Hclimb) as Hij.
        apply elem_of_cons in Hnew as [Hx | Hnew].
        { assert (i = k); [|lia].
          apply (NoDup_lookup _ _ _ x Hnd); rewrite list_lookup_fmap.
          - now rewrite Hi; simpl; rewrite Hid.
          - now rewrite Hck; simpl; rewrite <- Hidc, Hx. }
        destruct (HA k c x Hc Hnew)
          as (i' & j' & ci' & Hi' & Hid' & Hclimb' & Htj' & Hjk').
        assert (i' = i) as ->.
        { apply (NoDup_lookup _ _ _ x Hnd); rewrite list_lookup_fmap.
          - now rewrite Hi'; simpl; rewrite Hid'.
          - now rewrite Hi; simpl; rewrite Hid. }
        destruct (climbs_comparable _ _ _ _ Hclimb Hclimb') as [Hjj | Hjj].
        -- inversion Hjj as [|? j1 ? Htj1 Hlt1 Hrest]; subst.
           ++ congruence.
           ++ assert (j1 = p) as -> by congruence.
              destruct Hcase as [Hlt | Hroot].
              ** apply climbs_le in Hrest. lia.
              ** apply (climbs_from_root _ _ _ Hroot) in Hrest. congruence.
        -- inversion Hjj as [|? j1 ? Htj1 Hlt1 Hrest]; subst.
           ++ congruence.
           ++ assert (j1 = k) as -> by congruence.
              apply climbs_le in Hrest. lia.
      * apply NoDup_cons. split.
        -- intros Hin.
           destruct (HA k c (ID c) Hc Hin) as (i & j & ci & Hi & Hid & Hclimb & _ & Hjk).
           apply climbs_le in Hclimb.
           assert (i = k); [|lia].
           apply (NoDup_lookup _ _ _ (ID c) Hnd); rewrite list_lookup_fmap.
           ++ now rewrite Hi; simpl; rewrite Hid.
           ++ now rewrite Hck; simpl; rewrite Hidc.
        -- apply (HB k c Hc). left. lia.
Qed.

Lemma NoDup_flat_map {A} (f : A -> list Z) (l : list A) :
  (forall x1 x2 y, x1 ∈ l -> x2 ∈ l -> y ∈ f x1 -> y ∈ f x2 -> x1 = x2) ->
  (forall x, x ∈ l -> NoDup (f x)) -> NoDup l -> NoDup (flat_map f l).
Proof.
  intros Hinj Hf. induction 1 as [|x l Hx Hl IH]; simpl; [constructor|].
  apply NoDup_app. split; [|split].
  - apply Hf. now left.
  - intros y Hy Hin. apply list_elem_of_In, in_flat_map in Hin as (x' & Hx' & Hy').
    apply list_elem_of_In in Hx', Hy'.
    assert (x = x') as <-.
    { apply (Hinj x x' y); [now left | now right | assumption | assumption]. }
    contradiction.
  - apply IH.
    + intros x1 x2 y H1 H2. apply Hinj; now right.
    + intros x' Hx'. apply Hf. now right.
Qed.

Lemma fmap_flat_map_nodes (f : list Comment) :
  ID <$> forest_nodes f = flat_map (fun t => ID t :: descendantIDs t) f.
Proof.
  unfold forest_nodes. induction f as [|t f IH]; [reflexivity|].
  simpl. rewrite fmap_app, IH, nodes_unfold. reflexivity.
Qed.

Lemma root_is_slot cs root :
  root ∈ buildCommentTree cs ->
  exists (p : nat) cp,
    linkedOf cs !! p = Some root /\ cs !! p = Some cp /\ ID cp = ID root
    /\ targetAt cs p = None.
Proof.
  intros Hroot.
  unfold buildCommentTree in Hroot. rewrite run_eq in Hroot. simpl in Hroot.
  unfold collectRoots in Hroot.
  apply list_elem_of_filter in Hroot as [Hisroot Hroot].
  apply list_elem_of_lookup in Hroot as [p Hp].
  destruct (slot_of_record cs (linkedOf cs) p root (linked_records cs) Hp)
    as (cp & Hcp & Hrec).
  exists p, cp. split; [assumption|]. split; [assumption|]. split.
  - apply (f_equal ID) in Hrec. now symmetry.
  - unfold targetAt. rewrite Hcp.
    rewrite <- (targetOf_record _ root cp Hrec). unfold targetOf.
    unfold isRoot in Hisroot. now destruct (ParentID root).
Qed.

(** X22 (no record twice): when the identifiers of the input are
    distinct, the identifiers of the nodes of the output forest, at all
    depths, are distinct, and every node is the copy of a record of the
    input: no comment is returned twice, and the forest never has more
    nodes than the input has records. *)
Theorem forest_has_no_duplicate cs :
  NoDup (ID <$> cs) ->
  NoDup (ID <$> forest_nodes (buildCommentTree cs))
  /\ (forall n, In n (forest_nodes (buildCommentTree cs)) ->
                In (record n) (record <$> cs))
  /\ (length (forest_nodes (buildCommentTree cs)) <= length cs)%nat.
Proof.
  intros Hnd.
  destruct (link_distinct cs (length cs) Hnd (Nat.le_refl _)) as [HA HB].
  cbv zeta in HA, HB. fold (indices cs) in HA, HB. fold (linkedOf cs) in HA, HB.
  assert (Hdistinct : NoDup (ID <$> forest_nodes (buildCommentTree cs))).
  { rewrite fmap_flat_map_nodes. apply NoDup_flat_map.
    - intros x1 x2 y H1 H2 Hy1 Hy2.
      destruct (root_is_slot cs x1 H1) as (p1 & c1 & Hp1 & Hc1 & Hid1 & Hroot1).
      destruct (root_is_slot cs x2 H2) as (p2 & c2 & Hp2 & Hc2 & Hid2 & Hroot2).
      assert (Hsame : p1 = p2 -> x1 = x2) by (intros ->; congruence).
      assert (Hindex : forall (i : nat) ci (q : nat) cq,
                 cs !! i = Some ci -> cs !! q = Some cq -> ID ci = ID cq -> i = q).
      { intros i ci q cq Hi Hq Heq.
        apply (NoDup_lookup _ _ _ (ID ci) Hnd); rewrite list_lookup_fmap.
        - now rewrite Hi.
        - now rewrite Hq; simpl; rewrite Heq. }
      apply elem_of_cons in Hy1 as [-> | Hy1]; apply elem_of_cons in Hy2 as [Hy2 | Hy2].
      + apply Hsame. apply (Hindex p1 c1 p2 c2 Hc1 Hc2). congruence.
      + exfalso.
        destruct (HA p2 x2 _ Hp2 Hy2) as (i & j & ci & Hi & Hid & Hclimb & Htj & _).
        assert (i = p1) as -> by (apply (Hindex i ci p1 c1 Hi Hc1); congruence).
        apply (climbs_from_root _ _ _ Hroot1) in Hclimb. congruence.
      + exfalso. subst y.
        destruct (HA p1 x1 _ Hp1 Hy1) as (i & j & ci & Hi & Hid & Hclimb & Htj & _).
        assert (i = p2) as -> by (apply (Hindex i ci p2 c2 Hi Hc2); congruence).
        apply (climbs_from_root _ _ _ Hroot2) in Hclimb. congruence.
      + destruct (HA p1 x1 _ Hp1 Hy1) as (i & j & ci & Hi & Hid & Hclimb & Htj & _).
        destruct (HA p2 x2 _ Hp2 Hy2) as (i' & j' & ci' & Hi' & Hid' & Hclimb' & Htj' & _).
        assert (i' = i) as -> by (apply (Hindex i' ci' i ci Hi' Hi); congruence).
        apply Hsame.
        destruct (climbs_comparable _ _ _ _ Hclimb Hclimb') as [Hjj | Hjj];
          inversion Hjj as [|? j1 ? Htj1 Hlt1 Hrest]; subst; try congruence.
        * assert (j1 = p1) as -> by congruence.
          apply (climbs_from_root _ _ _ Hroot1) in Hrest. congruence.
        * assert (j1 = p2) as -> by congruence.
          apply (climbs_from_root _ _ _ Hroot2) in Hrest. congruence.
    - intros root Hroot.
      destruct (root_is_slot cs root Hroot) as (p & cp & Hp & Hcp & Hid & Hnone).
      apply NoDup_cons. split; [|apply (HB p root Hp); now right].
      intros Hin.
      destruct (HA p root _ Hp Hin) as (i & j & ci & Hi & Hidi & Hclimb & Htj & _).
      assert (i = p) as ->.
      { apply (NoDup_lookup _ _ _ (ID ci) Hnd); rewrite list_lookup_fmap.
        - now rewrite Hi.
        - rewrite Hcp. simpl. congruence. }
      apply (climbs_from_root _ _ _ Hnone) in Hclimb. congruence.
    - unfold buildCommentTree. rewrite run_eq. simpl. unfold collectRoots.
      apply NoDup_filter. apply (NoDup_fmap_1 ID).
      assert (Hids : ID <$> linkedOf cs = ID <$> cs).
      { transitivity (ID <$> (record <$> linkedOf cs)).
        - rewrite <- list_fmap_compose. reflexivity.
        - rewrite linked_records, <- list_fmap_compose. reflexivity. }
      now rewrite Hids. }
  assert (Hcopies : forall n, In n (forest_nodes (buildCommentTree cs)) ->
                              In (record n) (record <$> cs)).
  { intros n Hn. pose proof Hn as Hn'.
    apply in_forest_nodes in Hn' as (t & Ht & Hnt).
    apply nodes_cases in Hnt as [-> | (parent & Hparent & Hchild)].
    - destruct (root_slot cs t Ht) as (p & c0 & _ & Hc0 & ->).
      apply list_elem_of_In, list_elem_of_fmap. exists c0. split; [reflexivity|].
      apply list_elem_of_lookup. now exists p.
    - assert (Hpf : In parent (forest_nodes (buildCommentTree cs))).
      { apply in_forest_nodes. now exists t. }
      apply children_follow_input in Hpf.
      apply list_elem_of_In. eapply elem_of_sublist; [|exact Hpf].
      apply list_elem_of_fmap. exists n. split; [reflexivity|].
      now apply list_elem_of_In. }
  split; [exact Hdistinct|]. split; [exact Hcopies|].
  rewrite <- (length_fmap ID (forest_nodes _)), <- (length_fmap ID cs).
  apply submseteq_length, NoDup_submseteq; [exact Hdistinct|].
  intros x Hx. apply list_elem_of_fmap in Hx as (n & -> & Hn).
  apply list_elem_of_In, Hcopies, list_elem_of_In, list_elem_of_fmap in Hn
    as (c0 & Hrec & Hc0).
  apply list_elem_of_fmap. exists c0. split; [|assumption].
  apply (f_equal ID) in Hrec. exact Hrec.
Qed.

Lemma forest_has_no_duplicate_witness :
  NoDup (ID <$> Samples.mixed)
  /\ NoDup (ID <$> forest_nodes (buildCommentTree Samples.mixed))
  /\ (length (forest_nodes (buildCommentTree Samples.mixed))
      <= length Samples.mixed)%nat.
Proof.
  assert (Hnd : NoDup (ID <$> Samples.mixed))
    by (apply (bool_decide_unpack _); vm_compute; exact I).
  destruct (forest_has_no_duplicate Samples.mixed Hnd) as (H1 & _ & H3).
  exact (conj Hnd (conj H1 H3)).
Defined.

End ForestNoDup.
